(** * CognitoForge Labs backend: scanner, plan synthesizer and run orchestrator

    A shallow embedding of the analysis pipeline of the backend
    ([services/repo_fetcher.py], [services/gemini_service.py] and
    [routers/operations.py]) together with the properties the design
    document states about it.

    Conventions of the embedding:
    - a Python [str] is a [string] (or the [list ascii] of its characters
      where the code walks over it); a character is a code point below 256,
      so case mapping and white space are those of Python on Latin-1;
    - a [dict] whose keys are computed is a [gmap]; a [dict] with a fixed
      schema is a record; JSON received from outside is the inductive [json];
    - the file system, the clock, the settings and the generation endpoint
      are explicit arguments (oracles) of the functions that consult them;
    - an exception is a value of a sum type. *)

From Stdlib Require Import Ascii String ZArith Bool.
From stdpp Require Import base option list sorting gmap strings pretty.

Local Open Scope string_scope.
Local Open Scope list_scope.
Local Open Scope stdpp_scope.

(** ** Python string primitives *)

Module PyStr.

Definition code (c : ascii) : N := N_of_ascii c.

(** [str.isspace] on one character, which is also what [\s] accepts for a
    [str] pattern. *)
Definition is_space (c : ascii) : bool :=
  let n := code c in
  ((9 <=? n) && (n <=? 13) || (28 <=? n) && (n <=? 32)
   || (n =? 133) || (n =? 160))%N.

Definition is_upper (c : ascii) : bool :=
  let n := code c in
  ((65 <=? n) && (n <=? 90)
   || (192 <=? n) && (n <=? 222) && negb (n =? 215))%N.

Definition lower_char (c : ascii) : ascii :=
  if is_upper c then ascii_of_N (code c + 32) else c.

Definition chars (s : string) : list ascii := list_ascii_of_string s.
Definition str (l : list ascii) : string := string_of_list_ascii l.

(** [s.lower()] *)
Definition lower (s : string) : string := str (map lower_char (chars s)).

Fixpoint drop_while (f : ascii -> bool) (l : list ascii) : list ascii :=
  match l with
  | [] => []
  | c :: l' => if f c then drop_while f l' else l
  end.

Fixpoint take_while (f : ascii -> bool) (l : list ascii) : list ascii :=
  match l with
  | [] => []
  | c :: l' => if f c then c :: take_while f l' else []
  end.

Definition lstrip (l : list ascii) : list ascii := drop_while is_space l.

Fixpoint rstrip (l : list ascii) : list ascii :=
  match l with
  | [] => []
  | c :: l' =>
      match rstrip l' with
      | [] => if is_space c then [] else [c]
      | r => c :: r
      end
  end.

Definition strip_chars (l : list ascii) : list ascii := rstrip (lstrip l).

(** [s.strip()] *)
Definition strip (s : string) : string := str (strip_chars (chars s)).

Fixpoint prefix_b (p l : list ascii) : bool :=
  match p, l with
  | [], _ => true
  | a :: p', b :: l' => Ascii.eqb a b && prefix_b p' l'
  | _ :: _, [] => false
  end.

(** [s.startswith(p)] *)
Definition startswith (s p : string) : bool := prefix_b (chars p) (chars s).

(** [s.endswith(p)] *)
Definition endswith (s p : string) : bool :=
  prefix_b (rev (chars p)) (rev (chars s)).

Fixpoint infix_b (p l : list ascii) : bool :=
  prefix_b p l || match l with [] => false | _ :: l' => infix_b p l' end.

(** [p in s] for two strings *)
Definition contains (s p : string) : bool := infix_b (chars p) (chars s).

Definition is_lower (c : ascii) : bool :=
  let n := code c in
  ((97 <=? n) && (n <=? 122)
   || (224 <=? n) && (n <=? 254) && negb (n =? 247))%N.

Definition upper_char (c : ascii) : ascii :=
  if is_lower c then ascii_of_N (code c - 32) else c.

(** [s.replace(a, b)] for single characters [a] and [b] *)
Definition replace_char (a b : ascii) (s : string) : string :=
  str (map (fun c => if Ascii.eqb c a then b else c) (chars s)).

Fixpoint title_chars (prev_cased : bool) (l : list ascii) : list ascii :=
  match l with
  | [] => []
  | c :: l' =>
      if is_upper c || is_lower c
      then (if prev_cased then lower_char c else upper_char c)
             :: title_chars true l'
      else c :: title_chars false l'
  end.

(** [s.title()] (on the letters that keep one character when cased) *)
Definition title (s : string) : string := str (title_chars false (chars s)).

(** [s.split(sep)] for a one-character separator *)
Fixpoint split_on (sep : ascii) (l : list ascii) : list (list ascii) :=
  match l with
  | [] => [[]]
  | c :: l' =>
      if Ascii.eqb c sep then [] :: split_on sep l'
      else match split_on sep l' with
           | h :: t => (c :: h) :: t
           | [] => [[c]]
           end
  end.

(** [sep.join(parts)] *)
Fixpoint join (sep : list ascii) (parts : list (list ascii)) : list ascii :=
  match parts with
  | [] => []
  | [x] => x
  | x :: rest => x ++ sep ++ join sep rest
  end.

(** [s.replace(old, new)] for a non-empty [old]; [skip] counts the
    characters of the current occurrence still to be dropped. *)
Fixpoint replace_from (old new : list ascii) (skip : nat) (s : list ascii)
  : list ascii :=
  match s with
  | [] => []
  | c :: s' =>
      match skip with
      | S k => replace_from old new k s'
      | O =>
          if prefix_b old s
          then new ++ replace_from old new (pred (length old)) s'
          else c :: replace_from old new 0 s'
      end
  end.

Definition replace (s old new : string) : string :=
  str (replace_from (chars old) (chars new) 0 (chars s)).

(** [s.split('.')[-1]] *)
Definition last_dot_segment (s : string) : string :=
  str (List.last (split_on "." (chars s)) []).

(** The characters other than [x]. *)
Definition not_char (x : ascii) : ascii -> bool :=
  fun c => negb (Ascii.eqb c x).

(** [x in collection] for a collection of strings *)
Definition mem (x : string) (l : list string) : bool :=
  existsb (String.eqb x) l.

End PyStr.

(** ** The fragment of [re] used by the redaction pass

    Every pattern of [_sanitize_text] is a sequence of single characters,
    character classes and one [\s+]; a greedy [+] is always followed by a
    character outside its class (or by nothing), so the backtracking matcher
    of [re] and the deterministic one below find the same match. No pattern
    matches the empty string. *)

Module Re.
Import PyStr.

Inductive atom :=
| One (cls : ascii -> bool)
| Plus (cls : ascii -> bool).

Definition regex := list atom.

Definition cls_of (a : atom) : ascii -> bool :=
  match a with One f => f | Plus f => f end.

(** [match_len p s]: the number of characters [p] consumes at the head of
    [s], when it matches there. *)
Fixpoint match_len (p : regex) (s : list ascii) : option nat :=
  match p with
  | [] => Some 0
  | One f :: p' =>
      match s with
      | c :: s' => if f c then S <$> match_len p' s' else None
      | [] => None
      end
  | Plus f :: p' =>
      match s with
      | c :: s' =>
          if f c
          then (fun n => S (length (take_while f s') + n))
                 <$> match_len p' (drop_while f s')
          else None
      | [] => None
      end
  end.

(** [re.sub(p, repl, s)] as a left-to-right scan; [skip] counts the
    characters of the current match that are still to be dropped. *)
Fixpoint scan (p : regex) (repl : list ascii) (skip : nat)
         (s : list ascii) : list ascii :=
  match s with
  | [] => []
  | c :: s' =>
      match skip with
      | S k => scan p repl k s'
      | O =>
          match match_len p s with
          | Some n => repl ++ scan p repl (pred n) s'
          | None => c :: scan p repl 0 s'
          end
      end
  end.

Definition sub (p : regex) (repl s : list ascii) : list ascii :=
  scan p repl 0 s.

(** Pattern constructors. *)
Definition exact (c : ascii) : atom := One (Ascii.eqb c).
Definition icase (c : ascii) : atom :=
  One (fun x => Ascii.eqb (lower_char x) (lower_char c)).
Definition lit (s : string) : regex := map exact (chars s).
Definition ilit (s : string) : regex := map icase (chars s).
Definition spaces : atom := Plus is_space.

(** No match of [p] starts anywhere in [s]. *)
Fixpoint no_match (p : regex) (s : list ascii) : Prop :=
  match s with
  | [] => True
  | _ :: s' => match_len p s = None /\ no_match p s'
  end.

Definition bracket : ascii := "["%char.

(** No class of [p] accepts an opening bracket. *)
Definition bracket_free (p : regex) : Prop :=
  Forall (fun a => cls_of a bracket = false) p.

(** [agree s o]: [o] follows [s] character by character until [o] ends or
    shows an opening bracket. *)
Inductive agree : list ascii -> list ascii -> Prop :=
| agree_end s : agree s []
| agree_stop s o : agree s (bracket :: o)
| agree_cons c s o : agree s o -> agree (c :: s) (c :: o).

(** Wherever it is put, a replacement text [m] starts no match of [p]. *)
Definition inert (p : regex) (m : list ascii) : Prop :=
  forall x, no_match p x -> no_match p (m ++ x).

(** A pattern and a replacement text that cannot interfere. *)
Definition pass_ok (q : regex) (m : list ascii) : Prop :=
  bracket_free q /\ exists r, m = bracket :: r /\ inert q (bracket :: r).

End Re.

(** ** Exceptions and JSON values *)

Module Py.
Inductive exn :=
| ValueError (msg : string)
| JSONDecodeError
| OtherError.

Inductive result (A : Type) :=
| Ok (a : A)
| Raise (e : exn).
Arguments Ok {A} a.
Arguments Raise {A} e.

(** A result whose failure is some other error type. *)
Inductive result' (E A : Type) :=
| Ok' (a : A)
| Raise' (e : E).
Arguments Ok' {E A} a.
Arguments Raise' {E A} e.

Definition bind {A B} (r : result A) (k : A -> result B) : result B :=
  match r with
  | Ok a => k a
  | Raise e => Raise e
  end.

(** What [json.loads] returns; a number keeps the text Python prints for
    it. *)
Inductive json :=
| JNull
| JBool (b : bool)
| JNum (text : string)
| JStr (s : string)
| JArr (items : list json)
| JObj (fields : list (string * json)).

Fixpoint assoc {V} (key : string) (fields : list (string * V)) : option V :=
  match fields with
  | [] => None
  | (k, v) :: rest => if String.eqb key k then Some v else assoc key rest
  end.

(** [key in d] *)
Definition has_key {V} (key : string) (fields : list (string * V)) : bool :=
  match assoc key fields with Some _ => true | None => false end.

(** [d.get(key, default)] *)
Definition get (key : string) (default : json) (fields : list (string * json))
  : json :=
  match assoc key fields with Some v => v | None => default end.

(** [Counter(xs)] as the list of distinct elements in order of first
    occurrence with their counts. *)
Fixpoint counter_add (x : string) (c : list (string * nat))
  : list (string * nat) :=
  match c with
  | [] => [(x, 1)]
  | (y, n) :: c' =>
      if String.eqb x y then (y, S n) :: c' else (y, n) :: counter_add x c'
  end.

Definition Counter (xs : list string) : list (string * nat) :=
  fold_left (fun c x => counter_add x c) xs [].
End Py.

Notation "x <-! r ; k" := (Py.bind r (fun x => k))
  (at level 100, r at next level, right associativity, only parsing).

(** ** Python's [sorted]: a stable sort on a key *)

Module PySort.
Section Sorted.
Context {A : Type} (leb : A -> A -> bool).

Fixpoint insert_by (x : A) (l : list A) : list A :=
  match l with
  | [] => [x]
  | y :: l' => if leb x y then x :: l else y :: insert_by x l'
  end.

(** [sorted(l, key=...)], where [leb x y] compares the keys of [x] and
    [y]; an element put in front of a sorted tail stays in front of the
    elements it ties with, which is the stability of [sorted]. *)
Fixpoint sorted (l : list A) : list A :=
  match l with
  | [] => []
  | x :: l' => insert_by x (sorted l')
  end.
End Sorted.

(** [l[:n]] for a Python integer [n] *)
Definition slice_to {A} (l : list A) (n : Z) : list A :=
  if (0 <=? n)%Z then take (Z.to_nat n) l
  else take (length l - Z.to_nat (- n)) l.
End PySort.

(** ** [services/repo_fetcher.py]: the file risk scanner and the selector *)

Module RepoFetcher.
Import PyStr.

Definition _HIGH_RISK_SUFFIXES : list string :=
  [".env"; ".yaml"; ".yml"; ".json"; ".ini"; ".cfg"; ".conf";
   ".tf"; ".toml"; ".pem"; ".key"; ".ppk"; ".p12"; ".jks";
   ".properties"; ".config"; ".xml"; ".gradle"; ".npmrc"].

Definition _HIGH_RISK_FILENAMES : list string :=
  ["dockerfile"; "docker-compose.yml"; "docker-compose.yaml";
   ".dockerignore"; "jenkinsfile"; ".gitlab-ci.yml"; ".travis.yml";
   "circle.yml"; "bitbucket-pipelines.yml"; "azure-pipelines.yml";
   "secrets"; "credentials"; "passwords"; "token"; "id_rsa";
   "id_dsa"; "known_hosts"; ".htpasswd"; "web.config"].

Definition _SENSITIVE_KEYWORDS : list string :=
  ["secret"; "credential"; "token"; "password"; "config";
   "deploy"; "workflow"; "env"; "key"; "private"; "api_key";
   "auth"; "jwt"; "session"; "cookie"; "database"; "db_pass"].

Definition code_extensions : list string :=
  [".py"; ".js"; ".ts"; ".java"; ".php"; ".rb"; ".go";
   ".c"; ".cpp"; ".cs"; ".sql"; ".sh"; ".bash"; ".ps1"].

Definition script_extensions : list string := [".sh"; ".ps1"; ".bat"].

(** A directory entry as [pathlib] and the file system show it: [name]
    and [suffix] are [path.name] and [path.suffix]; [st_size] and
    [read_bytes] are [None] when the call raises [OSError]. *)
Record PathInfo := {
  is_file : bool;
  rel_path : string;
  name : string;
  suffix : string;
  st_size : option Z;
  read_bytes : option (list ascii)
}.

(** A findings dictionary: vulnerability class to match descriptors, in
    insertion order. *)
Definition findings := list (string * list string).

Record FileEntry := {
  path : string;
  size : Z;
  extension : string;
  risk_level : string;
  risk_reasons : list string;
  vulnerabilities : findings
}.

Record TopExtension := { ext : string; count : nat }.

Record Manifest := {
  repo_id : string;
  repo_url : string;
  owner : string;
  repo_name : string;
  fetched_at : string;
  file_count : nat;
  high_risk_file_count : nat;
  files : list FileEntry;
  top_extensions : list TopExtension
}.

(** The five file-name heuristics of [_assess_risk], on the lowered
    name, suffix and relative path. *)
Definition sensitive_file (name suffix : string) : bool :=
  mem name _HIGH_RISK_FILENAMES || mem suffix _HIGH_RISK_SUFFIXES.
Definition sensitive_keyword (name : string) : bool :=
  existsb (fun keyword => contains name keyword) _SENSITIVE_KEYWORDS.
Definition ci_cd_path (rel_lower : string) : bool :=
  contains rel_lower ".github/workflows" || contains rel_lower ".gitlab-ci".
Definition docker_config (rel_lower suffix : string) : bool :=
  contains rel_lower "docker" && mem suffix [""; ".yml"; ".yaml"].
Definition standard_config (rel_lower : string) : bool :=
  endswith rel_lower "/config.json" || endswith rel_lower "/config.yaml".

Definition append_if (b : bool) (reason : string) (reasons : list string)
  : list string :=
  if b then reasons ++ [reason] else reasons.

(** The reasons the five heuristics of [_assess_risk] append, in order. *)
Definition heuristics (p : PathInfo) (rel : string) : list string :=
  append_if (standard_config (lower rel))
    "Configuration file with potential secrets"
    (append_if (docker_config (lower rel) (lower (suffix p)))
       "Docker configuration affecting container security"
       (append_if (ci_cd_path (lower rel))
          "CI/CD pipeline may expose secrets"
          (append_if (sensitive_keyword (lower (name p)))
             "Filename contains sensitive keyword"
             (append_if (sensitive_file (lower (name p)) (lower (suffix p)))
                "Sensitive configuration or secret-bearing file" [])))).

(** The reason [_assess_risk] adds for a detected class. *)
Definition critical_reason (vuln_type : string) : string :=
  "CRITICAL: " +:+ title (replace_char "_" " " vuln_type) +:+ " detected".

Section Scanner.
(** [_scan_file_content(content, file_ext)]: the regular-expression
    scan of a file's bytes. *)
Variable _scan_file_content : list ascii -> string -> findings.

Definition DEFAULT_MAX_SIZE_KB : Z := 500.

(** The [try] block of [_assess_risk]: the reasons with the critical
    findings appended, and [has_critical_vuln]. *)
Definition content_analysis (p : PathInfo) (suffix : string)
           (max_size_kb : Z) (reasons : list string)
  : list string * bool :=
  if mem suffix code_extensions then
    match st_size p with
    | None => (reasons, false)
    | Some file_size =>
        if (file_size <? max_size_kb * 1024)%Z then
          match read_bytes p with
          | None => (reasons, false)
          | Some content =>
              fold_left
                (fun acc vuln_type =>
                   let vuln_name := title (replace_char "_" " " vuln_type) in
                   (acc.1 ++ ["CRITICAL: " +:+ vuln_name +:+ " detected"],
                    true))
                (_scan_file_content content suffix).*1
                (reasons, false)
          end
        else (reasons, false)
    end
  else (reasons, false).

Definition _assess_risk (p : PathInfo) (rel_path : string)
           (max_size_kb : Z) : string * list string :=
  let suffix := lower (suffix p) in
  let name := lower (name p) in
  let rel_lower := lower rel_path in
  let reasons := [] in
  let reasons :=
    append_if (sensitive_file name suffix)
              "Sensitive configuration or secret-bearing file" reasons in
  let reasons :=
    append_if (sensitive_keyword name)
              "Filename contains sensitive keyword" reasons in
  let reasons :=
    append_if (ci_cd_path rel_lower)
              "CI/CD pipeline may expose secrets" reasons in
  let reasons :=
    append_if (docker_config rel_lower suffix)
              "Docker configuration affecting container security" reasons in
  let reasons :=
    append_if (standard_config rel_lower)
              "Configuration file with potential secrets" reasons in
  let '(reasons, has_critical_vuln) :=
    content_analysis p suffix max_size_kb reasons in
  if has_critical_vuln then ("critical", reasons)
  else match reasons with
       | _ :: _ => ("high", reasons)
       | [] =>
           if mem suffix script_extensions
           then ("medium", ["Executable script"])
           else ("low", [])
       end.

(** What the design document calls "content scanning detects a
    vulnerability pattern": the file is on the code-extension list, is
    under the size ceiling, can be read, and the scan reports at least
    one class. *)
Definition scan_detects (p : PathInfo) (max_size_kb : Z) : Prop :=
  mem (lower (suffix p)) code_extensions = true /\
  exists file_size content,
    st_size p = Some file_size /\
    (file_size < max_size_kb * 1024)%Z /\
    read_bytes p = Some content /\
    _scan_file_content content (lower (suffix p)) <> [].

(** "Any filename/extension/path heuristic matched". *)
Definition heuristic_hit (p : PathInfo) (rel_path : string) : Prop :=
  sensitive_file (lower (name p)) (lower (suffix p)) = true \/
  sensitive_keyword (lower (name p)) = true \/
  ci_cd_path (lower rel_path) = true \/
  docker_config (lower rel_path) (lower (suffix p)) = true \/
  standard_config (lower rel_path) = true.

Definition executable_script (p : PathInfo) : Prop :=
  mem (lower (suffix p)) script_extensions = true.

(** The loop of [_build_manifest] over [repo_dir.rglob('*')]; [None]
    when [path.stat()] raises. *)
Fixpoint scan_tree (tree : list PathInfo) : option (list FileEntry) :=
  match tree with
  | [] => Some []
  | p :: tree' =>
      if is_file p then
        size ← st_size p;
        let '(risk_level, risk_reasons) :=
          _assess_risk p (rel_path p) DEFAULT_MAX_SIZE_KB in
        rest ← scan_tree tree';
        Some ({| path := rel_path p; size := size;
                 extension := lower (suffix p);
                 risk_level := risk_level;
                 risk_reasons := risk_reasons;
                 vulnerabilities := [] |} :: rest)
      else scan_tree tree'
  end.

(** An entry of the manifest describes a directory entry. *)
Definition describes (e : FileEntry) (p : PathInfo) : Prop :=
  path e = rel_path p /\
  st_size p = Some (size e) /\
  extension e = lower (suffix p) /\
  (risk_level e, risk_reasons e)
  = _assess_risk p (rel_path p) DEFAULT_MAX_SIZE_KB /\
  vulnerabilities e = [].

(** [counter.most_common(n)]: by decreasing count, ties in insertion
    order. *)
Definition most_common (n : nat) (c : list (string * nat))
  : list (string * nat) :=
  take n (PySort.sorted (fun a b => (b.2 <=? a.2)%nat) c).

Definition _build_manifest (repo_id repo_url owner name : string)
           (now : string) (tree : list PathInfo) : option Manifest :=
  files ← scan_tree tree;
  let extension_counter :=
    Py.Counter (List.filter (fun e => negb (String.eqb e ""))
                         (extension <$> files)) in
  let top_extensions :=
    (fun ec => {| ext := ec.1; count := ec.2 |})
      <$> most_common 5 extension_counter in
  Some {| repo_id := repo_id;
          repo_url := repo_url;
          owner := owner;
          repo_name := name;
          fetched_at := now +:+ "Z";
          file_count := length files;
          high_risk_file_count :=
            length (List.filter
                      (fun file => String.eqb (risk_level file) "high")
                      files);
          files := files;
          top_extensions := top_extensions |}.
End Scanner.

(** [priority_score] of [select_high_risk_files]; tuples compare
    lexicographically. *)
Definition priority_score (file : FileEntry) : Z * Z * Z :=
  let vulns := vulnerabilities file in
  let risk := risk_level file in
  match vulns with
  | _ :: _ => (0, Z.of_nat (length vulns), - size file)
  | [] =>
      if String.eqb risk "critical" then (1, 0, - size file)
      else if String.eqb risk "high" then (2, 0, - size file)
      else if String.eqb risk "medium" then (3, 0, - size file)
      else (4, 0, - size file)
  end%Z.

Definition tuple_leb (a b : Z * Z * Z) : bool :=
  let '(a1, a2, a3) := a in
  let '(b1, b2, b3) := b in
  ((a1 <? b1) || (a1 =? b1) && ((a2 <? b2) || (a2 =? b2) && (a3 <=? b3)))%Z.

Definition score_leb (x y : FileEntry) : bool :=
  tuple_leb (priority_score x) (priority_score y).

(** The tier of an entry without detected vulnerabilities. *)
Definition risk_rank (risk : string) : Z :=
  if String.eqb risk "critical" then 1
  else if String.eqb risk "high" then 2
  else if String.eqb risk "medium" then 3
  else 4.

Definition select_high_risk_files (manifest : Manifest) (limit : Z)
  : list FileEntry :=
  let sorted_files := PySort.sorted score_leb (files manifest) in
  PySort.slice_to sorted_files limit.

(** What [urlparse] gives of a URL, as far as [_parse_github_repo] reads
    it. *)
Record ParseResult := {
  url_netloc : string;
  url_path : string
}.

Inductive RepoFetchError :=
| RepoFetchError_ (message : string).

Definition slash : ascii := "/"%char.

Definition is_slash (c : ascii) : bool := Ascii.eqb c slash.

(** [s.strip('/')] *)
Definition strip_slashes (l : list ascii) : list ascii :=
  rev (drop_while is_slash (rev (drop_while is_slash l))).

Definition nonempty (segment : list ascii) : bool :=
  match segment with [] => false | _ => true end.

(** [re.sub(r"\.git$", "", s)]: [$] stands at the end of the text and
    before a line feed that ends it, so at most one place matches. *)
Definition drop_git_suffix (s : string) : string :=
  let cs := chars s in
  if endswith s ".git" then str (take (length cs - 4) cs)
  else if endswith s (str (chars ".git" ++ ["010"%char]))
       then str (take (length cs - 5) cs ++ ["010"%char])
       else s.

Section GitHubUrl.
Variable urlparse : string -> ParseResult.

Definition _parse_github_repo (repo_url : string)
  : Py.result' RepoFetchError (string * string) :=
  let parsed := urlparse repo_url in
  if negb (mem (lower (url_netloc parsed)) ["github.com"; "www.github.com"])
  then Py.Raise'
         (RepoFetchError_ "Only GitHub repositories are supported right now")
  else
    let parts :=
      List.filter nonempty
                  (split_on slash (strip_slashes (chars (url_path parsed)))) in
    if (length parts <? 2)%nat
    then Py.Raise'
           (RepoFetchError_ "Unable to determine owner/repo from URL")
    else
      let owner := str (nth 0 parts []) in
      let name := drop_git_suffix (str (nth 1 parts [])) in
      Py.Ok' (owner, name).
End GitHubUrl.

End RepoFetcher.

(** ** [services/gemini_service.py]: the redaction pass *)

Module Gemini.
Import PyStr Re.

Definition REDACTED : list ascii := chars "[REDACTED]".
Definition REDACTED_API_KEY : list ascii := chars "[REDACTED_API_KEY]".

(** [dangerous_patterns] of [_sanitize_text], compiled with
    [re.IGNORECASE]. *)
Definition dangerous_patterns : list regex :=
  [ ilit "rm" ++ [spaces] ++ ilit "-rf";
    ilit "curl" ++ [spaces];
    ilit "wget" ++ [spaces];
    ilit "bash" ++ [spaces];
    ilit "sh" ++ [spaces];
    ilit "exec(";
    ilit "eval(";
    ilit "os.system";
    ilit "subprocess." ].

Definition is_digit (c : ascii) : bool :=
  ((48 <=? code c) && (code c <=? 57))%N.
Definition is_ascii_alpha (c : ascii) : bool :=
  ((65 <=? code c) && (code c <=? 90)
   || (97 <=? code c) && (code c <=? 122))%N.
Definition is_alnum (c : ascii) : bool := is_digit c || is_ascii_alpha c.
Definition is_key_char (c : ascii) : bool :=
  is_alnum c || Ascii.eqb c "_" || Ascii.eqb c "-".

(** [AIza[0-9A-Za-z_-]{35}] and [sk-[0-9A-Za-z]{48}] *)
Definition google_key : regex := lit "AIza" ++ replicate 35 (One is_key_char).
Definition openai_key : regex := lit "sk-" ++ replicate 48 (One is_alnum).

Definition _sanitize_chars (text : list ascii) : list ascii :=
  let text := fold_left (fun t p => sub p REDACTED t) dangerous_patterns text in
  let text := sub google_key REDACTED_API_KEY text in
  let text := sub openai_key REDACTED_API_KEY text in
  strip_chars text.

(** The substitutions of [_sanitize_text] in the order they run. *)
Definition redaction_passes : list (regex * list ascii) :=
  ((fun p => (p, REDACTED)) <$> dangerous_patterns)
  ++ [(google_key, REDACTED_API_KEY); (openai_key, REDACTED_API_KEY)].

Definition run_passes (l : list (regex * list ascii)) (text : list ascii)
  : list ascii :=
  fold_left (fun t pm => sub pm.1 pm.2 t) l text.

Definition _sanitize_text (text : string) : string :=
  match text with
  | "" => ""
  | _ => str (_sanitize_chars (chars text))
  end.


Definition _ALLOWED_SEVERITIES : list string :=
  ["low"; "medium"; "high"; "critical"].
Definition _DEFAULT_OVERALL_SEVERITY : string := "high".

(** [_normalise_severity] of the legacy path; [None] is Python's [None]. *)
Definition _normalise_severity (value : option Py.json) : string :=
  match value with
  | Some (Py.JStr value) =>
      let lowered := lower (strip value) in
      if mem lowered _ALLOWED_SEVERITIES then lowered
      else _DEFAULT_OVERALL_SEVERITY
  | _ => _DEFAULT_OVERALL_SEVERITY
  end.

Section Technique.
(** [str.upper], whose results can leave the code points below 256. *)
Variable upper : string -> string.

(** [_normalise_technique_id] of the legacy path. *)
Definition _normalise_technique_id (value : option Py.json) : string :=
  match value with
  | Some (Py.JStr value) =>
      match strip value with
      | "" => "T0000"
      | _ =>
          let candidate := upper (strip value) in
          if startswith candidate "T" then candidate
          else "T" +:+ candidate
      end
  | _ => "T0000"
  end.
End Technique.

(** A step of a plan payload; the optional fields are the keys only
    some branches write. *)
Record Step := {
  step_number : nat;
  vulnerability_type : option string;
  affected_file : option string;
  description : string;
  technique_id : string;
  severity : string;
  affected_files : list string
}.

Record Plan := {
  repo_id : option string;
  overall_severity : string;
  steps : list Step;
  plan_source : option string;
  ai_insight : string;
  gemini_prompt : option string;
  gemini_raw_response : option string;
  model_used : option string;
  code_samples_analyzed : option nat
}.

(** An element of [code_samples]. *)
Record Sample := {
  file_path : string;
  content : string;
  language : string;
  vulnerabilities : RepoFetcher.findings;
  risk_reasons : list string
}.

Record RepoProfile := {
  profile_repo_id : option string;
  high_risk_files : list RepoFetcher.FileEntry;
  languages : list string;
  manifest_file_count : nat
}.

(** What [generate_gemini_response] does on one call. *)
Inductive GeminiResult :=
| GError
| GRaises
| GText (text : string) (model : option string).

(** *** [_build_fallback_plan] *)

Definition sql_step (step_num : nat) (sample : Sample) : Step :=
  {| step_number := step_num;
     vulnerability_type := Some "SQL Injection";
     affected_file := Some (file_path sample);
     description :=
       "SQL injection vulnerability detected in " +:+ file_path sample
       +:+ ". Attacker can manipulate queries to bypass authentication or extract data.";
     technique_id := "T1190";
     severity := "critical";
     affected_files := [file_path sample] |}.

Definition command_step (step_num : nat) (sample : Sample) : Step :=
  {| step_number := step_num;
     vulnerability_type := Some "Command Injection";
     affected_file := Some (file_path sample);
     description :=
       "Command injection vulnerability in " +:+ file_path sample
       +:+ ". Allows execution of arbitrary system commands.";
     technique_id := "T1059";
     severity := "critical";
     affected_files := [file_path sample] |}.

Definition secret_step (step_num : nat) (sample : Sample) : Step :=
  {| step_number := step_num;
     vulnerability_type := Some "Hardcoded Credentials";
     affected_file := Some (file_path sample);
     description :=
       "Hardcoded secrets found in " +:+ file_path sample
       +:+ ". Credentials can be extracted from source code.";
     technique_id := "T1552";
     severity := "high";
     affected_files := [file_path sample] |}.

Definition generic_steps : list Step :=
  [ {| step_number := 1;
       vulnerability_type := None;
       affected_file := None;
       description :=
         "Initial access via exposed CI token in repository secrets";
       technique_id := "T1552";
       severity := "high";
       affected_files := [".github/workflows/deploy.yml"] |};
    {| step_number := 2;
       vulnerability_type := None;
       affected_file := None;
       description := "Privilege escalation through misconfigured RBAC";
       technique_id := "T1068";
       severity := "critical";
       affected_files := ["deploy/k8s/rbac.yaml"] |} ].

(** One [if key in vulns: steps.append(...); step_num += 1]. *)
Definition add_step (key : string) (mk : nat -> Sample -> Step)
           (sample : Sample) (acc : list Step * nat) : list Step * nat :=
  if Py.has_key key (vulnerabilities sample)
  then (acc.1 ++ [mk acc.2 sample], S acc.2)
  else acc.

(** The body of the loop over [code_samples[:3]]. *)
Definition sample_steps (acc : list Step * nat) (sample : Sample)
  : list Step * nat :=
  add_step "hardcoded_secrets" secret_step sample
    (add_step "command_injection" command_step sample
       (add_step "sql_injection" sql_step sample acc)).

Definition is_critical (s : Step) : bool := String.eqb (severity s) "critical".

Definition _build_fallback_plan (repo_id : option string)
           (code_samples : list Sample) : Plan :=
  let steps := (fold_left sample_steps (take 3 code_samples) ([], 1)).1 in
  let steps := match steps with [] => generic_steps | _ => steps end in
  {| repo_id := repo_id;
     overall_severity :=
       if existsb is_critical steps then "critical" else "high";
     steps := take 3 steps;
     plan_source :=
       Some match code_samples with
            | [] => "fallback"
            | _ => "fallback_with_scan_results"
            end;
     ai_insight :=
       "Found " +:+ pretty (length steps)
       +:+ " potential vulnerabilities through static analysis";
     gemini_prompt := None;
     gemini_raw_response := None;
     model_used := None;
     code_samples_analyzed := None |}.

(** The vulnerability classes the fallback turns into steps, in the order
    of its three [if]s, with the step each one makes. *)
Definition class_table : list (string * (nat -> Sample -> Step)) :=
  [("sql_injection", sql_step); ("command_injection", command_step);
   ("hardcoded_secrets", secret_step)].

(** A step maker of the table. *)
Definition table_step (mk : nat -> Sample -> Step) : Prop :=
  mk = sql_step \/ mk = command_step \/ mk = secret_step.

(** The (file, class) pairs of a sample, in class order. *)
Definition sample_pairs (sample : Sample)
  : list (Sample * (nat -> Sample -> Step)) :=
  row ← class_table;
  if Py.has_key row.1 (vulnerabilities sample) then [(sample, row.2)] else [].

(** The pairs of the samples the fallback looks at (the first three), in
    file order then class order. *)
Definition detected_pairs (code_samples : list Sample)
  : list (Sample * (nat -> Sample -> Step)) :=
  take 3 code_samples ≫= sample_pairs.

(** One step per pair, numbered from [first]. *)
Definition numbered_from (first : nat)
           (pairs : list (Sample * (nat -> Sample -> Step))) : list Step :=
  imap (fun i pair => pair.2 (first + i) pair.1) pairs.

(** *** [_parse_and_validate_attack_plan] *)

Definition newline : ascii := ascii_of_N 10.
Definition fence : string := "```".

(** The markdown-fence handling at the head of the parser. *)
Definition strip_code_fence (raw_response : string) : string :=
  let json_text := strip raw_response in
  if startswith json_text fence then
    let lines := split_on newline (chars json_text) in
    let json_text :=
      if (2 <? length lines)%nat
      then str (join [newline] (removelast (tail lines)))
      else json_text in
    strip (replace (replace json_text "```json" "") fence "")
  else json_text.

(** [re.search(r'\{[\s\S]*\}', text)]: from the first opening brace to
    the last closing brace after it. *)
Definition json_block (text : string) : option string :=
  let from_open :=
    drop_while (fun c => negb (Ascii.eqb c "{")) (chars text) in
  match from_open with
  | [] => None
  | open :: rest =>
      match rev (drop_while (fun c => negb (Ascii.eqb c "}")) (rev rest)) with
      | [] => None
      | block => Some (str (open :: block))
      end
  end.

(** The library and the world around the synthesizer: [json.loads]
    ([None] when it raises), [repr] of a value that is not a string, which
    patterns [re.search] finds in a text, UTF-8 decoding, the repository
    files on disk ([None] when the file is missing, is 100 000 bytes or
    larger, or cannot be read), the prompt builder ([None] when it raises),
    the generation endpoint at its n-th call, and the settings. *)
Record World := {
  json_loads : string -> option Py.json;
  py_repr : Py.json -> string;
  re_search : string -> bool -> string -> bool;
  decode_utf8 : list ascii -> string;
  read_repo_file : string -> string -> option (list ascii);
  build_prompt : RepoProfile -> list Sample -> Z -> option string;
  generate_gemini_response : nat -> string -> GeminiResult;
  use_gemini : bool;
  gemini_api_key : option string;
  gemini_model : string
}.

Section Synthesizer.
Variable world : World.

(** [str(value)] *)
Definition py_str (value : Py.json) : string :=
  match value with
  | Py.JStr s => s
  | Py.JNull => "None"
  | Py.JBool true => "True"
  | Py.JBool false => "False"
  | other => py_repr world other
  end.

(** [str(step.get("severity", "medium")).lower()] with its default. *)
Definition step_severity (step : list (string * Py.json)) : string :=
  let severity := lower (py_str (Py.get "severity" (Py.JStr "medium") step)) in
  if mem severity _ALLOWED_SEVERITIES then severity else "medium".

Definition plan_severity (plan_data : list (string * Py.json)) : string :=
  let overall_severity :=
    lower (py_str (Py.get "overall_severity" (Py.JStr "high") plan_data)) in
  if mem overall_severity _ALLOWED_SEVERITIES then overall_severity
  else _DEFAULT_OVERALL_SEVERITY.

Definition valid_file_set (profile : RepoProfile) : list string :=
  List.filter (fun path => negb (String.eqb path ""))
              (RepoFetcher.path <$> high_risk_files profile).

Definition step_affected_files (valid_files : list string)
           (step : list (string * Py.json)) : list string :=
  match Py.get "affected_files" (Py.JArr []) step with
  | Py.JArr items =>
      take 5
        (omap (fun f =>
                 match f with
                 | Py.JStr f =>
                     if mem f valid_files
                        || match valid_files with [] => true | _ => false end
                     then Some f else None
                 | _ => None
                 end) items)
  | _ => []
  end.

Definition sanitize_step (valid_files : list string) (i : nat)
           (step : Py.json) : option Step :=
  match step with
  | Py.JObj step =>
      let description :=
        _sanitize_text (strip (py_str (Py.get "description" (Py.JStr "") step))) in
      let technique :=
        strip (py_str (Py.get "technique_id" (Py.JStr "") step)) in
      Some {| step_number := i + 1;
              vulnerability_type :=
                Some (strip (py_str (Py.get "vulnerability_type"
                                            (Py.JStr "Unknown") step)));
              affected_file := None;
              description := description;
              technique_id :=
                match technique with "" => "N/A" | _ => technique end;
              severity := step_severity step;
              affected_files := step_affected_files valid_files step |}
  | _ => None
  end.

Definition parse_json (json_text : string) : Py.result Py.json :=
  match json_loads world json_text with
  | Some plan_data => Py.Ok plan_data
  | None =>
      match json_block json_text with
      | Some block =>
          match json_loads world block with
          | Some plan_data => Py.Ok plan_data
          | None => Py.Raise Py.JSONDecodeError
          end
      | None =>
          Py.Raise (Py.ValueError "No valid JSON found in Gemini response")
      end
  end.

Definition _parse_and_validate_attack_plan (raw_response : string)
           (repo_profile : RepoProfile) (max_steps : Z) : Py.result Plan :=
  let json_text := strip_code_fence raw_response in
  plan_data <-! parse_json json_text;
  match plan_data with
  | Py.JObj plan_data =>
      match Py.assoc "steps" plan_data with
      | Some (Py.JArr steps) =>
          let valid_files := valid_file_set repo_profile in
          let sanitized_steps :=
            omap id (imap (sanitize_step valid_files)
                          (PySort.slice_to steps max_steps)) in
          match sanitized_steps with
          | [] =>
              Py.Raise (Py.ValueError "No valid steps found in Gemini response")
          | _ =>
              let ai_insight :=
                strip (py_str (Py.get "ai_insight" (Py.JStr "") plan_data)) in
              Py.Ok {| repo_id := None;
                       overall_severity := plan_severity plan_data;
                       steps := sanitized_steps;
                       plan_source := None;
                       ai_insight :=
                         match ai_insight with
                         | "" => "AI-generated attack plan"
                         | _ => _sanitize_text ai_insight
                         end;
                       gemini_prompt := None;
                       gemini_raw_response := None;
                       model_used := None;
                       code_samples_analyzed := None |}
          end
      | _ => Py.Raise (Py.ValueError "Gemini response missing 'steps' array")
      end
  | _ => Py.Raise (Py.ValueError "Gemini response is not a JSON object")
  end.

(** *** [_scan_file_content] of the synthesizer *)

(** The double-quote character of the patterns below. *)
Definition dq : string := String (ascii_of_N 34) EmptyString.

Definition sql_patterns : list string :=
  ["execute\s*\(\s*['" +:+ dq +:+ "].*?\+";
   "query\s*\(\s*f['" +:+ dq +:+ "]";
   "SELECT.*FROM.*\{"; "\.format\s*\(.*SELECT"].
Definition cmd_patterns : list string :=
  ["os\.system\s*\("; "subprocess\.(call|run|Popen)\s*\(";
   "eval\s*\("; "exec\s*\("].
Definition secret_patterns : list string :=
  ["password\s*=\s*['" +:+ dq +:+ "][^'" +:+ dq +:+ "]{8,}['" +:+ dq +:+ "]";
   "api[_-]?key\s*=\s*['" +:+ dq +:+ "][^'" +:+ dq +:+ "]{20,}['"
     +:+ dq +:+ "]";
   "AWS_SECRET_ACCESS_KEY"; "sk-[a-zA-Z0-9]{48}"].
Definition xss_patterns : list string :=
  ["innerHTML\s*="; "dangerouslySetInnerHTML"; "document\.write\s*\("].

Definition finding (key message : string) (patterns : list string)
           (ignorecase : bool) (text : string) : RepoFetcher.findings :=
  if existsb (fun pattern => re_search world pattern ignorecase text)
             patterns
  then [(key, [message])] else [].

Definition _scan_file_content (content : list ascii) (file_ext : string)
  : RepoFetcher.findings :=
  let text_content := decode_utf8 world content in
  finding "sql_injection" "SQL injection pattern detected"
          sql_patterns true text_content
  ++ finding "command_injection" "Command injection pattern detected"
             cmd_patterns false text_content
  ++ finding "hardcoded_secrets" "Hardcoded secret detected"
             secret_patterns true text_content
  ++ finding "xss_vulnerable" "XSS vulnerability pattern detected"
             xss_patterns false text_content.

(** *** [generate_gemini_attack_plan] *)

Definition repo_id_of (repo_profile : RepoProfile) : string :=
  default "unknown" (profile_repo_id repo_profile).

(** Step 1: the samples read from the first ten high-risk files; a file
    that is missing, is 100 000 bytes or larger or cannot be read
    ([read_repo_file] is [None]) is passed over. *)
Definition collect_sample (repo_id : string)
           (file_info : RepoFetcher.FileEntry) : option Sample :=
  let file_path := RepoFetcher.path file_info in
  if String.eqb file_path "" then None
  else
    content ← read_repo_file world repo_id file_path;
    let vulnerabilities :=
      _scan_file_content content (last_dot_segment file_path) in
    if negb (match vulnerabilities with [] => true | _ => false end)
       || String.eqb (RepoFetcher.risk_level file_info) "high"
    then Some {| file_path := file_path;
                 content := decode_utf8 world (take 2000 content);
                 language :=
                   if contains file_path "."
                   then last_dot_segment file_path else "unknown";
                 vulnerabilities := vulnerabilities;
                 risk_reasons := RepoFetcher.risk_reasons file_info |}
    else None.

Definition collect_samples (repo_profile : RepoProfile) : list Sample :=
  omap (collect_sample (repo_id_of repo_profile))
       (take 10 (high_risk_files repo_profile)).

Definition max_retries : nat := 2.

Definition prefix_of (n : nat) (s : string) : string :=
  str (take n (chars s)).

(** The metadata [attack_plan.update(...)] adds. *)
Definition with_metadata (attack_plan : Plan) (prompt raw_response : string)
           (model_used : string) (repo_id : string) (samples : nat) : Plan :=
  {| repo_id := Some repo_id;
     overall_severity := overall_severity attack_plan;
     steps := steps attack_plan;
     plan_source := Some "gemini";
     ai_insight := ai_insight attack_plan;
     gemini_prompt := Some (prefix_of 1000 prompt);
     gemini_raw_response := Some (prefix_of 2000 raw_response);
     model_used := Some model_used;
     code_samples_analyzed := Some samples |}.

(** The body of [try] inside the retry loop: [inl] asks for another
    turn of the loop ([continue]), [inr] is a [return]. *)
Definition attempt (repo_profile : RepoProfile) (code_samples : list Sample)
           (max_steps : Z) (prompt : string) (retry_count : nat)
  : Py.result (nat + Plan) :=
  let repo_id := repo_id_of repo_profile in
  match generate_gemini_response world retry_count prompt with
  | GRaises => Py.Raise Py.OtherError
  | GError =>
      let retry_count := S retry_count in
      if (retry_count <=? max_retries)%nat then Py.Ok (inl retry_count)
      else Py.Ok (inr (_build_fallback_plan (Some repo_id) code_samples))
  | GText raw_response model =>
      let model_used := default (gemini_model world) model in
      attack_plan <-!
        _parse_and_validate_attack_plan raw_response repo_profile max_steps;
      Py.Ok (inr (with_metadata attack_plan prompt raw_response model_used
                                repo_id (length code_samples)))
  end.

(** The [while retry_count <= max_retries] loop; [fuel] bounds the
    number of turns. *)
Fixpoint retry_loop (fuel : nat) (repo_profile : RepoProfile)
         (code_samples : list Sample) (max_steps : Z) (prompt : string)
         (retry_count : nat) : Plan :=
  let fallback :=
    _build_fallback_plan (Some (repo_id_of repo_profile)) code_samples in
  match fuel with
  | O => fallback
  | S fuel =>
      if (retry_count <=? max_retries)%nat then
        match attempt repo_profile code_samples max_steps prompt
                      retry_count with
        | Py.Ok (inr plan) => plan
        | Py.Ok (inl retry_count) =>
            retry_loop fuel repo_profile code_samples max_steps prompt
                       retry_count
        | Py.Raise _ =>
            let retry_count := S retry_count in
            if (max_retries <? retry_count)%nat then fallback
            else retry_loop fuel repo_profile code_samples max_steps
                            prompt retry_count
        end
      else fallback
  end.

(** A call to the endpoint that gives no plan: it reports an error, it
    raises, or validation rejects its text. *)
Definition attempt_fails (repo_profile : RepoProfile) (max_steps : Z)
           (prompt : string) (call : nat) : Prop :=
  match generate_gemini_response world call prompt with
  | GText raw_response _ =>
      exists e,
        _parse_and_validate_attack_plan raw_response repo_profile max_steps
        = Py.Raise e
  | _ => True
  end.

(** The same world with another generation endpoint. *)
Definition with_endpoint (endpoint : nat -> string -> GeminiResult)
  : World :=
  {| json_loads := json_loads world;
     py_repr := py_repr world;
     re_search := re_search world;
     decode_utf8 := decode_utf8 world;
     read_repo_file := read_repo_file world;
     build_prompt := build_prompt world;
     generate_gemini_response := endpoint;
     use_gemini := use_gemini world;
     gemini_api_key := gemini_api_key world;
     gemini_model := gemini_model world |}.

Definition generate_gemini_attack_plan (repo_profile : RepoProfile)
           (max_steps : Z) : Py.result Plan :=
  let repo_id := repo_id_of repo_profile in
  let code_samples := collect_samples repo_profile in
  if negb (use_gemini world)
     || match gemini_api_key world with
        | None | Some "" => true
        | _ => false
        end
  then Py.Ok (_build_fallback_plan (Some repo_id) code_samples)
  else
    match build_prompt world repo_profile code_samples max_steps with
    | None => Py.Ok (_build_fallback_plan (Some repo_id) code_samples)
    | Some prompt =>
        Py.Ok (retry_loop (S max_retries) repo_profile code_samples
                          max_steps prompt 0)
    end.
End Synthesizer.

End Gemini.


(** ** [routers/operations.py]: reports and the simulation cache *)

Module Operations.
Import PyStr.

(** Modelled from the spec: the record types of
    [backend/app/models/schemas.py], which is not among the sources; the
    fields are those of section 3 of the design document and of the
    constructor calls in [simulate_attack]. *)
Record AttackStep := {
  step_number : nat;
  description : string;
  technique_id : string;
  severity : string;
  affected_files : list string
}.

Record AttackPlan := {
  plan_repo_id : string;
  overall_severity : string;
  steps : list AttackStep
}.

Record LogEntry := {
  log_timestamp : string;
  log_step : nat;
  log_action : string;
  log_status : string
}.

Record Sandbox := {
  sandbox_repo_id : string;
  sandbox_summary : string;
  logs : list LogEntry
}.

Record SimulationRun := {
  repo_id : string;
  run_id : string;
  timestamp : Z;
  plan : AttackPlan;
  sandbox : Sandbox
}.

(** A value of the [summary] dictionary of a report. *)
Inductive SummaryValue :=
| VStr (s : string)
| VInt (n : nat)
| VFiles (l : list string).

Record SimulationReport := {
  report_repo_id : string;
  report_run_id : string;
  summary : gmap string SummaryValue;
  ai_insight : option string
}.

(** [sorted({file for ...})]: the distinct elements in increasing order. *)
Definition sorted_set (l : list string) : list string :=
  PySort.sorted String.leb (remove_dups l).

Definition set_count (summary : gmap string SummaryValue)
           (item : string * nat) : gmap string SummaryValue :=
  <[item.1 +:+ "_steps" := VInt item.2]> summary.

(** The lowered severities of a run's steps, in step order. *)
Definition severities (run : SimulationRun) : list string :=
  (fun step => lower (severity step)) <$> steps (plan run).

Definition _build_report (run : SimulationRun) : SimulationReport :=
  let severity_counts :=
    Py.Counter ((fun step => lower (severity step)) <$> steps (plan run)) in
  let summary : gmap string SummaryValue :=
    {[ "overall_severity" := VStr (overall_severity (plan run)) ]} in
  let summary := fold_left set_count severity_counts summary in
  let affected_files :=
    sorted_set (step ← steps (plan run); affected_files step) in
  let summary := <["affected_files" := VFiles affected_files]> summary in
  {| report_repo_id := repo_id run;
     report_run_id := run_id run;
     summary := summary;
     ai_insight := None |}.

(** [run_sandbox_simulation] of [services/sandbox_service.py]; [clock k]
    is the text of [datetime.utcnow().isoformat()] at the k-th step. *)
Definition run_sandbox_simulation (clock : nat -> string) (plan : AttackPlan)
  : Sandbox :=
  {| sandbox_repo_id := plan_repo_id plan;
     sandbox_summary :=
       "Simulated attack executed successfully in isolated sandbox.";
     logs :=
       imap (fun k step =>
               {| log_timestamp := clock k +:+ "Z";
                  log_step := step_number step;
                  log_action := description step;
                  log_status := "success" |})
            (steps plan) |}.

Record SimulateAttackRequest := {
  req_repo_id : string;
  force : bool
}.

(** The response payload: the run record and the [gradient] entry. *)
Record Response := {
  run : SimulationRun;
  gradient : string
}.

(** An entry of [_attack_plan_cache]; times are microseconds of UTC, the
    resolution of [datetime]. *)
Record CacheEntry := {
  entry_timestamp : Z;
  simulation_data : Response
}.

(** A call to the external persistent store. *)
Inductive StoreCall :=
| StoreRun (repo_id run_id overall_severity : string)
| StoreFiles (repo_id run_id : string) (rows : list (string * string)).

(** What a run file holds: the text [json.dump] writes for a run, or what
    a write that failed has left; [_persist_simulation] opens the file with
    mode "w", which empties it, before it serialises the run. *)
Inductive RunFile :=
| Written (run : SimulationRun)
| Truncated.

(** The process state: the cache, the run files on disk by run id, and
    the calls made to the external store. *)
Record Server := {
  _attack_plan_cache : gmap string CacheEntry;
  simulation_files : gmap string RunFile;
  store_calls : list StoreCall
}.

Inductive HTTPException :=
| Http400
| Http500.

(** What the world supplies to one request: the clock at the cache check,
    the plan the synthesis block ends with ([None] when an exception leaves
    it), the clock of the run and of the sandbox steps, whether the run file
    can be written, whether a write that fails has opened the file before it
    fails, and the result of the auxiliary insight task. *)
Record Environment := {
  now : Z;
  generated_plan : option AttackPlan;
  run_time : Z;
  sandbox_clock : nat -> string;
  persist_ok : bool;
  file_opened : bool;
  gradient_result : string
}.

Definition is_repo_id_char (c : ascii) : bool :=
  Gemini.is_key_char c.

(** [REPO_ID_PATTERN.fullmatch(repo_id)] for [^[A-Za-z0-9_-]+$] *)
Definition valid_repo_id (repo_id : string) : bool :=
  match chars repo_id with
  | [] => false
  | cs => forallb is_repo_id_char cs
  end.

Definition CACHE_TTL_MICROSECONDS : Z := 600 * 1000000.

(** Modelled from the spec: [SimulationSummary] of
    [backend/app/models/schemas.py], which is not among the sources; the
    report endpoints read its [run_id] and [timestamp]. *)
Record SimulationSummary := {
  summary_run_id : string;
  summary_timestamp : Z
}.

Inductive NotFound := Http404.

(** The choice of the latest run in [get_latest_simulation_report]:
    [summaries.sort(key=lambda item: item.timestamp, reverse=True)], which
    keeps the listed order of summaries with equal timestamps, then
    [summaries[0]]; no summary is a 404. *)
Definition latest_summary (summaries : list SimulationSummary)
  : Py.result' NotFound SimulationSummary :=
  match summaries with
  | [] => Py.Raise' Http404
  | _ =>
      match PySort.sorted
              (fun a b => (summary_timestamp b <=? summary_timestamp a)%Z)
              summaries with
      | latest :: _ => Py.Ok' latest
      | [] => Py.Raise' Http404
      end
  end.

(** What every entry of the cache satisfies: its key is a well-formed
    repository id, the cached run is a run of that repository, and the entry
    carries the run's time. *)
Definition cache_consistent (cache : gmap string CacheEntry) : Prop :=
  forall key entry,
    cache !! key = Some entry ->
    valid_repo_id key = true /\
    repo_id (run (simulation_data entry)) = key /\
    timestamp (run (simulation_data entry)) = entry_timestamp entry.

Section Orchestrator.
(** [timestamp.strftime('%Y%m%dT%H%M%S%f')] *)
Variable strftime : Z -> string.

(** The part of [simulate_attack] after the cache check. *)
Definition fresh_run (server : Server) (request : SimulateAttackRequest)
           (env : Environment) : Py.result' HTTPException Response * Server :=
  match generated_plan env with
  | None => (Py.Raise' Http500, server)
  | Some plan =>
      let sandbox_result := run_sandbox_simulation (sandbox_clock env) plan in
      let timestamp := run_time env in
      let run_id := req_repo_id request +:+ "_" +:+ strftime timestamp in
      let run_record :=
        {| repo_id := req_repo_id request;
           run_id := run_id;
           timestamp := timestamp;
           plan := plan;
           sandbox := sandbox_result |} in
      if persist_ok env then
        let affected_file_rows :=
          step ← steps plan;
          (fun file_path => (file_path, severity step))
            <$> affected_files step in
        let calls :=
          StoreRun (req_repo_id request) run_id (overall_severity plan)
          :: match affected_file_rows with
             | [] => []
             | rows => [StoreFiles (req_repo_id request) run_id rows]
             end in
        let response_payload :=
          {| run := run_record; gradient := gradient_result env |} in
        (Py.Ok' response_payload,
         {| _attack_plan_cache :=
              <[req_repo_id request :=
                  {| entry_timestamp := timestamp;
                     simulation_data := response_payload |}]>
                (_attack_plan_cache server);
            simulation_files :=
              <[run_id := Written run_record]> (simulation_files server);
            store_calls := store_calls server ++ calls |})
      else if file_opened env then
        (Py.Raise' Http500,
         {| _attack_plan_cache := _attack_plan_cache server;
            simulation_files :=
              <[run_id := Truncated]> (simulation_files server);
            store_calls := store_calls server |})
      else (Py.Raise' Http500, server)
  end.

Definition simulate_attack (server : Server)
           (request : SimulateAttackRequest) (env : Environment)
  : Py.result' HTTPException Response * Server :=
  if negb (valid_repo_id (req_repo_id request))
  then (Py.Raise' Http400, server)
  else
    let cache_key := req_repo_id request in
    let cached_entry := _attack_plan_cache server !! cache_key in
    match cached_entry with
    | Some cached_entry =>
        if negb (force request) then
          let cache_age := (now env - entry_timestamp cached_entry)%Z in
          if (cache_age <? CACHE_TTL_MICROSECONDS)%Z
          then (Py.Ok' (simulation_data cached_entry), server)
          else fresh_run server request env
        else fresh_run server request env
    | None => fresh_run server request env
    end.
End Orchestrator.

End Operations.

(** ** Sample inputs *)

Module Samples.
Import RepoFetcher.

Definition entry (path : string) (size : Z) (risk : string)
           (vulns : findings) : FileEntry :=
  {| path := path; size := size; extension := ".py"; risk_level := risk;
     risk_reasons := []; vulnerabilities := vulns |}.

Definition manifest_of (fs : list FileEntry) : Manifest :=
  {| repo_id := "demo"; repo_url := "https://github.com/acme/demo";
     owner := "acme"; repo_name := "demo";
     fetched_at := "2025-01-01T00:00:00Z";
     file_count := length fs;
     high_risk_file_count :=
       length (List.filter (fun f => String.eqb (risk_level f) "high") fs);
     files := fs; top_extensions := [] |}.

(** Two entries with detected vulnerabilities: one class, two classes. *)
Definition one_class : FileEntry :=
  entry "app/db.py" 10 "critical" [("sql_injection", ["Line 3"])].
Definition two_classes : FileEntry :=
  entry "app/run.py" 10 "critical"
        [("sql_injection", ["Line 7"]); ("command_injection", ["Line 9"])].
Definition plain_critical : FileEntry := entry "app/old.py" 900 "critical" [].

(** An entry with one class like [one_class], in a larger file. *)
Definition one_class_large : FileEntry :=
  entry "app/big.py" 900 "critical" [("sql_injection", ["Line 40"])].

(** A small tree: a shell script, a workflow file, a directory and a text
    file. *)
Definition tree : list PathInfo :=
  [ {| is_file := true; rel_path := "run.sh"; name := "run.sh";
       suffix := ".sh"; st_size := Some 12%Z;
       read_bytes := Some (PyStr.chars "echo hi") |};
    {| is_file := true; rel_path := ".github/workflows/ci.yml";
       name := "ci.yml"; suffix := ".yml"; st_size := Some 40%Z;
       read_bytes := Some (PyStr.chars "on: push") |};
    {| is_file := false; rel_path := "docs"; name := "docs"; suffix := "";
       st_size := Some 0%Z; read_bytes := None |};
    {| is_file := true; rel_path := "docs/a.txt"; name := "a.txt";
       suffix := ".txt"; st_size := Some 3%Z;
       read_bytes := Some (PyStr.chars "abc") |} ].

Definition sample (path : string) (vulns : findings) : Gemini.Sample :=
  {| Gemini.file_path := path; Gemini.content := "";
     Gemini.language := "py"; Gemini.vulnerabilities := vulns;
     Gemini.risk_reasons := [] |}.

(** Four samples; only the fourth has a finding. *)
Definition late_finding : list Gemini.Sample :=
  [sample "a.py" []; sample "b.py" []; sample "c.py" [];
   sample "d.py" [("sql_injection", ["SQL injection pattern detected"])]].

(** One sample whose only finding is of the class the fallback has no
    step for. *)
Definition xss_only : list Gemini.Sample :=
  [sample "web/view.js" [("xss_vulnerable", ["XSS vulnerability pattern detected"])]].

(** Two samples, the second with a command injection. *)
Definition two_samples : list Gemini.Sample :=
  [sample "cfg.py" [];
   sample "run.py"
          [("command_injection", ["Command injection pattern detected"])]].

(** A model reply whose only step has the severity " high ", with a blank
    on either side, and a world whose endpoint always gives that reply. *)
Definition padded_reply : Py.json :=
  Py.JObj [("overall_severity", Py.JStr "HIGH");
           ("steps",
            Py.JArr [Py.JObj [("description", Py.JStr "Read the token");
                              ("severity", Py.JStr " high ")]])].

Definition replying_world : Gemini.World :=
  {| Gemini.json_loads := fun _ => Some padded_reply;
     Gemini.py_repr := fun _ => "?";
     Gemini.re_search := fun _ _ _ => false;
     Gemini.decode_utf8 := PyStr.str;
     Gemini.read_repo_file := fun _ _ => None;
     Gemini.build_prompt := fun _ _ _ => Some "prompt";
     Gemini.generate_gemini_response :=
       fun _ _ => Gemini.GText "{...}" (Some "gemini-pro");
     Gemini.use_gemini := true;
     Gemini.gemini_api_key := Some "key";
     Gemini.gemini_model := "gemini-pro" |}.

Definition empty_profile : Gemini.RepoProfile :=
  {| Gemini.profile_repo_id := Some "demo";
     Gemini.high_risk_files := [];
     Gemini.languages := [];
     Gemini.manifest_file_count := 0 |}.

(** A stored run whose plan has two high-severity steps touching a.py and
    b.py, a.py in both. *)
Definition two_high_run : Operations.SimulationRun :=
  let step n files :=
    {| Operations.step_number := n;
       Operations.description := "Read the deployment token";
       Operations.technique_id := "T1552";
       Operations.severity := "high";
       Operations.affected_files := files |} in
  let plan :=
    {| Operations.plan_repo_id := "demo";
       Operations.overall_severity := "high";
       Operations.steps := [step 1 ["b.py"; "a.py"]; step 2 ["a.py"]] |} in
  {| Operations.repo_id := "demo";
     Operations.run_id := "demo_20250101T000000000000";
     Operations.timestamp := 0;
     Operations.plan := plan;
     Operations.sandbox :=
       Operations.run_sandbox_simulation (fun _ => "2025-01-01T00:00:00") plan |}.

(** An empty server, a request for the repository demo, and the world of
    a request made [t] seconds after the first run was stamped. *)
Definition empty_server : Operations.Server :=
  {| Operations._attack_plan_cache := ∅;
     Operations.simulation_files := ∅;
     Operations.store_calls := [] |}.

Definition demo_request (force : bool) : Operations.SimulateAttackRequest :=
  {| Operations.req_repo_id := "demo"; Operations.force := force |}.

Definition world_at (t : Z) : Operations.Environment :=
  {| Operations.now := t * 1000000;
     Operations.generated_plan := Some (Operations.plan two_high_run);
     Operations.run_time := t * 1000000;
     Operations.sandbox_clock := fun _ => "2025-01-01T00:00:00";
     Operations.persist_ok := true;
     Operations.file_opened := true;
     Operations.gradient_result := "unavailable" |}.

(** The same world with a disk that fails while the run file is being
    written. *)
Definition failing_disk_at (t : Z) : Operations.Environment :=
  {| Operations.now := t * 1000000;
     Operations.generated_plan := Some (Operations.plan two_high_run);
     Operations.run_time := t * 1000000;
     Operations.sandbox_clock := fun _ => "2025-01-01T00:00:00";
     Operations.persist_ok := false;
     Operations.file_opened := true;
     Operations.gradient_result := "unavailable" |}.

Definition stamp (t : Z) : string :=
  if (t =? 0)%Z then "19700101T000000000000" else "19700101T001001000000".

(** The server after a first run at time 0. *)
Definition server_after_first_run : Operations.Server :=
  (Operations.simulate_attack stamp empty_server (demo_request false)
                              (world_at 0)).2.

(** A text with blanks around it and nothing to redact. *)
Definition harmless_text : string := "  read the deployment token  ".

(** An endpoint that answers like [replying_world] on its first three
    calls and raises afterwards. *)
Definition three_replies (call : nat) (prompt : string)
  : Gemini.GeminiResult :=
  if (call <=? 2)%nat then Gemini.GText "{...}" (Some "gemini-pro")
  else Gemini.GRaises.

(** Three run summaries, the two latest with the same time. *)
Definition summaries : list Operations.SimulationSummary :=
  [ {| Operations.summary_run_id := "demo_1";
       Operations.summary_timestamp := 10 |};
    {| Operations.summary_run_id := "demo_2";
       Operations.summary_timestamp := 30 |};
    {| Operations.summary_run_id := "demo_3";
       Operations.summary_timestamp := 30 |} ].

(** A scanner that reports a command injection whenever the content is
    not empty. *)
Definition toy_scan (content : list ascii) (ext : string) : findings :=
  match content with
  | [] => []
  | _ => [("command_injection", ["Line 1"])]
  end.
End Samples.
(** * Properties *)

(** ** The redaction pass *)

Example sanitize_ex1 :
  Gemini._sanitize_text "  run RM   -rf / then Eval(x) and sh  " =
  "run [REDACTED] / then [REDACTED]x) and [REDACTED]".
Proof. vm_compute. reflexivity. Qed.

Section ReFacts.
Import PyStr Re.

Lemma take_drop_while f l : take_while f l ++ drop_while f l = l.
Proof.
  induction l as [|c l IH]; simpl; [done|].
  destruct (f c); simpl; [by rewrite IH | done].
Qed.

Lemma scan_no_match_id p repl s : no_match p s -> sub p repl s = s.
Proof.
  unfold sub. induction s as [|c s IH]; simpl; [done|].
  intros [Hm Hs]. change (match_len p (c :: s)) with (match_len p (c :: s)) in Hm.
  destruct p as [|a p]; [discriminate|].
  simpl in Hm |- *. destruct a; simpl in *; rewrite Hm; by rewrite IH.
Qed.

Lemma agree_refl s : agree s s.
Proof. induction s; constructor; done. Qed.

Lemma agree_app a b : agree (a ++ b) a.
Proof. induction a; simpl; constructor; done. Qed.

Lemma agree_drop_while f s o :
  f bracket = false -> agree s o ->
  agree (drop_while f s) (drop_while f o).
Proof.
  intros Hf. induction 1 as [s|s o|c s o H IH]; simpl.
  - constructor.
  - rewrite Hf. constructor.
  - destruct (f c); [done | by constructor].
Qed.

Lemma agree_match q :
  bracket_free q ->
  forall s o, agree s o -> is_Some (match_len q o) -> is_Some (match_len q s).
Proof.
  induction 1 as [|a q Ha Hq IH]; intros s o Hag; simpl; [done|].
  destruct a as [f|f]; simpl in Ha.
  - destruct Hag as [s|s o|c s o Hag]; simpl.
    + by intros [? ?].
    + rewrite Ha. by intros [? ?].
    + destruct (f c); [|done].
      rewrite !fmap_is_Some. by apply IH.
  - destruct Hag as [s|s o|c s o Hag]; simpl.
    + by intros [? ?].
    + rewrite Ha. by intros [? ?].
    + destruct (f c); [|done].
      rewrite !fmap_is_Some. apply IH. by apply agree_drop_while.
Qed.

Lemma agree_no_match q s o :
  bracket_free q -> agree s o -> match_len q s = None -> match_len q o = None.
Proof.
  intros Hq Hag Hs. apply eq_None_not_Some. intros Ho.
  apply (agree_match q Hq s o Hag) in Ho. rewrite Hs in Ho. by destruct Ho.
Qed.

Lemma agree_scan p r s : agree s (scan p (bracket :: r) 0 s).
Proof.
  induction s as [|c s IH]; simpl; [constructor|].
  destruct (match_len p (c :: s)); simpl; by constructor.
Qed.

(** A pass of [re.sub] leaves no match of its own pattern, and creates no
    match of a pattern that had none. *)
Lemma scan_no_match q p r :
  bracket_free q -> inert q (bracket :: r) ->
  forall s skip, q = p \/ no_match q s ->
                 no_match q (scan p (bracket :: r) skip s).
Proof.
  intros Hq Hin. induction s as [|c s IH]; intros skip Hs; [done|].
  assert (Hs' : q = p \/ no_match q s).
  { destruct Hs as [->|[_ Hs]]; [by left | by right]. }
  cbn [scan]. destruct skip as [|k]; [|by apply IH].
  destruct (match_len p (c :: s)) as [n|] eqn:Hm.
  - apply Hin. by apply IH.
  - split; [|by apply IH].
    apply (agree_no_match q (c :: s)); [done | |].
    + constructor. apply agree_scan.
    + destruct Hs as [->|[Hc _]]; done.
Qed.

Lemma no_match_suffix q a b : no_match q (a ++ b) -> no_match q b.
Proof. induction a as [|c a IH]; simpl; [done|]. intros [_ H]. by apply IH. Qed.

Lemma no_match_prefix q a b :
  bracket_free q -> no_match q (a ++ b) -> no_match q a.
Proof.
  intros Hq. induction a as [|c a IH]; simpl; [done|].
  intros [Hc H]. split; [|by apply IH].
  apply (agree_no_match q (c :: a ++ b)); [done | | done].
  apply (agree_app (c :: a) b).
Qed.

Lemma rstrip_prefix l : exists w, l = rstrip l ++ w.
Proof.
  induction l as [|c l [w IH]]; simpl; [by exists []|].
  destruct (rstrip l) as [|d r] eqn:Hr.
  - destruct (is_space c).
    + by exists (c :: l).
    + exists l. simpl in *. done.
  - exists w. simpl. by rewrite IH at 1.
Qed.

Lemma no_match_strip q l :
  bracket_free q -> no_match q l -> no_match q (strip_chars l).
Proof.
  intros Hq H. unfold strip_chars, lstrip.
  rewrite <- (take_drop_while is_space l) in H.
  apply no_match_suffix in H.
  destruct (rstrip_prefix (drop_while is_space l)) as [w Hw].
  rewrite Hw in H. by apply no_match_prefix in H.
Qed.

Lemma rstrip_cons c l :
  rstrip (c :: l) =
  match rstrip l with
  | [] => if is_space c then [] else [c]
  | r => c :: r
  end.
Proof. reflexivity. Qed.

Lemma rstrip_idemp l : rstrip (rstrip l) = rstrip l.
Proof.
  induction l as [|c l IH]; [done|].
  rewrite rstrip_cons. destruct (rstrip l) as [|d r] eqn:Hr.
  - destruct (is_space c) eqn:Hc; [done|].
    rewrite rstrip_cons. simpl. by rewrite Hc.
  - rewrite rstrip_cons, IH. done.
Qed.

Lemma rstrip_head c l :
  is_space c = false -> exists r, rstrip (c :: l) = c :: r.
Proof.
  intros Hc. simpl. destruct (rstrip l); rewrite ?Hc; eauto.
Qed.

Lemma lstrip_head l :
  match lstrip l with [] => True | c :: _ => is_space c = false end.
Proof.
  unfold lstrip. induction l as [|c l IH]; simpl; [done|].
  destruct (is_space c) eqn:Hc; [done | done].
Qed.

Lemma strip_chars_idemp l : strip_chars (strip_chars l) = strip_chars l.
Proof.
  unfold strip_chars. pose proof (lstrip_head l) as Hh.
  destruct (lstrip l) as [|c u]; [done|].
  destruct (rstrip_head c u Hh) as [r Hr]. rewrite Hr.
  unfold lstrip at 1. simpl drop_while. rewrite Hh.
  rewrite <- Hr. apply rstrip_idemp.
Qed.

End ReFacts.

Section Sanitize.
Import PyStr Re Gemini.

Lemma run_passes_no_match l :
  forall done t,
    (forall q m, q ∈ done ++ l.*1 -> m ∈ l.*2 -> pass_ok q m) ->
    Forall (fun q => no_match q t) done ->
    Forall (fun q => no_match q (run_passes l t)) (done ++ l.*1).
Proof.
  induction l as [|[p m] l IH]; intros done t Hok Hdone.
  - simpl. by rewrite app_nil_r.
  - rewrite fmap_cons in *. cbn [fst] in *.
    rewrite cons_middle, app_assoc in *.
    change (run_passes ((p, m) :: l) t) with (run_passes l (sub p m t)).
    apply IH.
    + intros q m' Hq Hm. apply Hok; [done|].
      rewrite fmap_cons. by right.
    + apply Forall_app. split.
      * rewrite Forall_forall in Hdone |- *. intros q Hq.
        destruct (Hok q m) as (Hb & r & -> & Hin);
          [set_solver | rewrite fmap_cons; set_solver |].
        apply scan_no_match; auto.
      * constructor; [|constructor].
        destruct (Hok p m) as (Hb & r & -> & Hin);
          [set_solver | rewrite fmap_cons; set_solver |].
        apply scan_no_match; auto.
Qed.

Lemma run_passes_id l t :
  Forall (fun q => no_match q t) l.*1 -> run_passes l t = t.
Proof.
  induction l as [|[p m] l IH]; simpl; [done|].
  intros H. apply Forall_cons in H as [Hp Hl].
  unfold run_passes in *. simpl. rewrite scan_no_match_id by done. by apply IH.
Qed.

Lemma sanitize_chars_passes t :
  _sanitize_chars t = strip_chars (run_passes redaction_passes t).
Proof.
  reflexivity.
Qed.

Ltac solve_inert :=
  intros x Hx; cbn [app no_match];
  repeat (split; [vm_compute; reflexivity|]); exact Hx.

Lemma redaction_markers :
  Forall (fun m => m = REDACTED \/ m = REDACTED_API_KEY) redaction_passes.*2.
Proof. repeat (constructor; [(by left) || (by right)|]). constructor. Qed.

Lemma redaction_bracket_free : Forall bracket_free redaction_passes.*1.
Proof.
  unfold bracket_free.
  repeat (constructor;
          [repeat (constructor; [vm_compute; reflexivity|]); constructor|]).
  constructor.
Qed.

Lemma redaction_inert m :
  m = REDACTED \/ m = REDACTED_API_KEY ->
  Forall (fun q => exists r, m = bracket :: r /\ inert q (bracket :: r))
         redaction_passes.*1.
Proof.
  intros [-> | ->];
    repeat (constructor; [eexists; split; [reflexivity|solve_inert]|]);
    constructor.
Qed.

Lemma redaction_passes_ok q m :
  q ∈ redaction_passes.*1 -> m ∈ redaction_passes.*2 -> pass_ok q m.
Proof.
  intros Hq Hm. split.
  - by apply (proj1 (Forall_forall _ _) redaction_bracket_free).
  - apply (proj1 (Forall_forall _ _) redaction_markers) in Hm.
    by apply (proj1 (Forall_forall _ _) (redaction_inert m Hm)).
Qed.

Lemma sanitize_chars_no_match t :
  Forall (fun q => no_match q (_sanitize_chars t)) redaction_passes.*1.
Proof.
  rewrite sanitize_chars_passes.
  pose proof (run_passes_no_match redaction_passes [] t
                redaction_passes_ok (List.Forall_nil _)) as H.
  change ([] ++ redaction_passes.*1) with redaction_passes.*1 in H.
  rewrite Forall_forall in H |- *. intros q Hq.
  apply no_match_strip; [|by apply H].
  by apply (proj1 (Forall_forall _ _) redaction_bracket_free).
Qed.

Lemma sanitize_chars_idemp t :
  _sanitize_chars (_sanitize_chars t) = _sanitize_chars t.
Proof.
  rewrite (sanitize_chars_passes (_sanitize_chars t)).
  rewrite run_passes_id by apply sanitize_chars_no_match.
  rewrite sanitize_chars_passes. apply strip_chars_idemp.
Qed.

Lemma chars_str l : chars (str l) = l.
Proof. apply list_ascii_of_string_of_list_ascii. Qed.

(** C9. Redacting twice is the same as redacting once:
    [_sanitize_text (_sanitize_text t) = _sanitize_text t] for every
    text [t]. *)
Theorem sanitize_text_idempotent (t : string) :
  _sanitize_text (_sanitize_text t) = _sanitize_text t.
Proof.
  destruct t as [|c t]; [reflexivity|].
  unfold _sanitize_text at 2 3.
  remember (_sanitize_chars (chars (String c t))) as u eqn:Hu.
  unfold _sanitize_text.
  destruct (str u) as [|d v] eqn:Hv; [reflexivity|].
  rewrite <- Hv, chars_str. f_equal.
  rewrite Hu. apply sanitize_chars_idemp.
Qed.

End Sanitize.

(** ** The file risk scanner *)

Section ScannerFacts.
Import PyStr RepoFetcher.
Variable scan : list ascii -> string -> findings.

Lemma critical_fold (mk : string -> string) ks rs b :
  fold_left (fun (acc : list string * bool) k => (acc.1 ++ [mk k], true))
            ks (rs, b)
  = (rs ++ (mk <$> ks), match ks with [] => b | _ => true end).
Proof.
  revert rs b. induction ks as [|k ks IH]; intros rs b; simpl.
  - by rewrite app_nil_r.
  - rewrite IH, <- app_assoc. simpl. by destruct ks.
Qed.

Lemma content_analysis_flag p max rs :
  (content_analysis scan p (lower (suffix p)) max rs).2 = true
  <-> scan_detects scan p max.
Proof.
  unfold content_analysis, scan_detects.
  destruct (mem (lower (suffix p)) code_extensions);
    [|split; [done | by intros [? _]]].
  destruct (st_size p) as [sz|];
    [|split; [done | by intros (_ & ? & ? & ? & _)]].
  destruct (Z.ltb_spec sz (max * 1024)) as [Hlt|Hge].
  2:{ split; [done|]. intros (_ & sz' & c & [= <-] & ? & _). lia. }
  destruct (read_bytes p) as [c|];
    [|split; [done | by intros (_ & ? & ? & _ & _ & ? & _)]].
  rewrite critical_fold. simpl.
  destruct (scan c (lower (suffix p))) as [|kv l] eqn:Hs; simpl.
  - split; [done|]. intros (_ & sz' & c' & _ & _ & [= <-] & Hne). congruence.
  - split; [|done]. intros _. split; [done|].
    exists sz, c. rewrite Hs. done.
Qed.

Lemma content_analysis_reasons p max rs :
  (content_analysis scan p (lower (suffix p)) max rs).2 = false ->
  (content_analysis scan p (lower (suffix p)) max rs).1 = rs.
Proof.
  unfold content_analysis.
  destruct (mem (lower (suffix p)) code_extensions); [|done].
  destruct (st_size p) as [sz|]; [|done].
  destruct (sz <? max * 1024)%Z; [|done].
  destruct (read_bytes p) as [c|]; [|done].
  rewrite critical_fold. simpl.
  destruct (scan c (lower (suffix p))) eqn:E; [|done]. simpl.
  by rewrite app_nil_r.
Qed.

Lemma heuristics_nil p rel :
  heuristics p rel = [] <-> ~ heuristic_hit p rel.
Proof.
  unfold heuristics, heuristic_hit, append_if.
  destruct (sensitive_file _ _), (sensitive_keyword _), (ci_cd_path _),
    (docker_config _ _), (standard_config _); simpl;
    intuition (try discriminate; try congruence).
Qed.

Lemma assess_risk_unfold p rel max :
  _assess_risk scan p rel max =
  let r := content_analysis scan p (lower (suffix p)) max (heuristics p rel) in
  if r.2 then ("critical", r.1)
  else match r.1 with
       | _ :: _ => ("high", r.1)
       | [] => if mem (lower (suffix p)) script_extensions
               then ("medium", ["Executable script"])
               else ("low", [])
       end.
Proof.
  unfold _assess_risk. fold (heuristics p rel).
  by destruct (content_analysis scan p (lower (suffix p)) max (heuristics p rel)).
Qed.

(** C6. Risk-level precedence of [_assess_risk]: the level is critical
    exactly when content scanning (attempted only on the code-extension
    list, under the size ceiling) detects a vulnerability class; otherwise
    high exactly when a file-name, extension or path heuristic matched (the
    reasons are then the heuristics' reasons, and there is at least one);
    otherwise medium with the single reason "Executable script" exactly for
    the suffixes .sh, .ps1 and .bat; otherwise low with no reason. *)
Theorem assess_risk_precedence (p : PathInfo) (rel : string) (max : Z) :
  let r := _assess_risk scan p rel max in
  (r.1 = "critical" <-> scan_detects scan p max) /\
  (r.1 = "high" <-> ~ scan_detects scan p max /\ heuristic_hit p rel) /\
  (r.1 = "high" -> r.2 = heuristics p rel /\ r.2 <> []) /\
  (r.1 = "medium" <->
     ~ scan_detects scan p max /\ ~ heuristic_hit p rel /\
     executable_script p) /\
  (r.1 = "medium" -> r.2 = ["Executable script"]) /\
  (r.1 = "low" <->
     ~ scan_detects scan p max /\ ~ heuristic_hit p rel /\
     ~ executable_script p) /\
  (r.1 = "low" -> r.2 = []) /\
  (r.1 = "critical" \/ r.1 = "high" \/ r.1 = "medium" \/ r.1 = "low").
Proof.
  intros r. subst r. rewrite assess_risk_unfold. cbv zeta.
  pose proof (content_analysis_flag p max (heuristics p rel)) as Hflag.
  pose proof (content_analysis_reasons p max (heuristics p rel)) as Hrs.
  pose proof (heuristics_nil p rel) as Hnil.
  unfold executable_script.
  remember (mem (lower (suffix p)) script_extensions) as scr eqn:Hscr.
  clear Hscr.
  destruct (content_analysis scan p (lower (suffix p)) max (heuristics p rel))
    as [rs [|]]; simpl in *.
  - assert (scan_detects scan p max) by (by apply Hflag).
    intuition (try discriminate; try congruence).
  - assert (~ scan_detects scan p max) by (intros ?%Hflag; done).
    specialize (Hrs eq_refl). subst rs.
    destruct (heuristics p rel) as [|h hs] eqn:Hh.
    + assert (~ heuristic_hit p rel) by (by apply Hnil).
      destruct scr; simpl; intuition (try discriminate; try congruence).
    + assert (heuristic_hit p rel).
      { destruct (decide (heuristic_hit p rel)) as [|Hn]; [done|].
        apply Hnil in Hn. done. }
      simpl. intuition (try discriminate; try congruence).
Qed.

End ScannerFacts.

(** ** The stable sort *)

Section SortFacts.
Context {A K : Type} `{EqDecision K}.
Context (key : A -> K) (kleb : K -> K -> bool).
Hypothesis kleb_total : forall a b, kleb a b = true \/ kleb b a = true.
Hypothesis kleb_trans :
  forall a b c, kleb a b = true -> kleb b c = true -> kleb a c = true.

Let leb (x y : A) : bool := kleb (key x) (key y).
Let le (x y : A) : Prop := leb x y = true.

Lemma insert_by_perm x l : PySort.insert_by leb x l ≡ₚ x :: l.
Proof.
  induction l as [|y l IH]; simpl; [done|].
  destruct (leb x y); [done|]. rewrite IH. apply Permutation_swap.
Qed.

Lemma sorted_perm l : PySort.sorted leb l ≡ₚ l.
Proof.
  induction l as [|x l IH]; simpl; [done|].
  by rewrite insert_by_perm, IH.
Qed.

Lemma insert_by_sorted x l :
  StronglySorted le l -> StronglySorted le (PySort.insert_by leb x l).
Proof.
  induction 1 as [|y l Hs IH Hy]; simpl.
  - repeat constructor.
  - destruct (leb x y) eqn:Hxy.
    + constructor; [by constructor|].
      constructor; [done|].
      eapply Forall_impl; [exact Hy|].
      intros z Hz. unfold le, leb in *. eauto.
    + constructor; [done|].
      rewrite insert_by_perm. constructor; [|done].
      unfold le, leb in *. destruct (kleb_total (key x) (key y)); congruence.
Qed.

Lemma sorted_sorted l : StronglySorted le (PySort.sorted leb l).
Proof.
  induction l as [|x l IH]; simpl; [constructor | by apply insert_by_sorted].
Qed.

Lemma insert_by_stable k x l :
  filter (fun y => key y = k) (PySort.insert_by leb x l)
  = filter (fun y => key y = k) (x :: l).
Proof.
  induction l as [|y l IH]; simpl; [done|].
  destruct (leb x y) eqn:Hxy; [done|].
  rewrite filter_cons, IH, !filter_cons.
  destruct (decide (key y = k)) as [Hy|], (decide (key x = k)) as [Hx|];
    try done.
  exfalso. unfold leb in Hxy. rewrite Hx, Hy in Hxy.
  destruct (kleb_total k k); congruence.
Qed.

Lemma sorted_stable k l :
  filter (fun y => key y = k) (PySort.sorted leb l)
  = filter (fun y => key y = k) l.
Proof.
  induction l as [|x l IH]; simpl; [done|].
  by rewrite insert_by_stable, !filter_cons, IH.
Qed.

(** In a sorted list an element with a strictly smaller key comes first. *)
Lemma sorted_index_lt l i j a b :
  StronglySorted le l ->
  l !! i = Some a -> l !! j = Some b -> leb b a = false -> i < j.
Proof.
  intros Hs. revert i j. induction Hs as [|x l Hs IH Hx]; intros i j;
    [by rewrite lookup_nil|].
  destruct i as [|i], j as [|j]; simpl.
  - intros [= ->] [= ->] Hba. unfold leb in Hba.
    destruct (kleb_total (key b) (key b)); congruence.
  - lia.
  - intros Ha [= ->] Hba. exfalso.
    rewrite Forall_forall in Hx.
    assert (le b a) as Hle by (apply Hx; eapply list_elem_of_lookup_2; eauto).
    unfold le in Hle. congruence.
  - intros Ha Hb Hba. specialize (IH i j Ha Hb Hba). lia.
Qed.

End SortFacts.

(** ** The manifest and the high-risk selector *)

Section ManifestFacts.
Import PyStr RepoFetcher.

Lemma filter_eqb_length (v : string) (l : list FileEntry) :
  length (List.filter (fun f => String.eqb (risk_level f) v) l)
  = length (filter (fun f => risk_level f = v) l).
Proof.
  induction l as [|f l IH]; simpl; [done|].
  rewrite filter_cons. destruct (String.eqb_spec (risk_level f) v);
    destruct (decide (risk_level f = v)); simpl; congruence.
Qed.

Lemma filter_two_levels (l : list FileEntry) :
  length (filter (fun f => risk_level f = "high") l)
  + length (filter (fun f => risk_level f = "critical") l) <= length l.
Proof.
  induction l as [|f l IH]; simpl; [done|].
  rewrite !filter_cons.
  destruct (decide (risk_level f = "high")) as [E|],
           (decide (risk_level f = "critical")); simpl; try lia.
  rewrite E in *. discriminate.
Qed.

(** C7. The manifest's [high_risk_file_count] is the number of entries
    whose level is exactly "high"; entries at level "critical" are not
    among the counted ones. *)
Theorem manifest_high_risk_count
    (scan : list ascii -> string -> findings)
    (repo_id repo_url owner name now : string)
    (tree : list PathInfo) (m : Manifest) :
  _build_manifest scan repo_id repo_url owner name now tree = Some m ->
  high_risk_file_count m
    = length (filter (fun f => risk_level f = "high") (files m)) /\
  file_count m = length (files m) /\
  high_risk_file_count m
    + length (filter (fun f => risk_level f = "critical") (files m))
    <= file_count m.
Proof.
  unfold _build_manifest. intros H.
  destruct (scan_tree scan tree) as [fs|]; [|discriminate].
  simpl in H. injection H as <-. simpl.
  rewrite filter_eqb_length. split_and!; [done | done |].
  apply filter_two_levels.
Qed.

Lemma manifest_high_risk_count_witness :
  exists m,
    _build_manifest Samples.toy_scan "demo" "https://github.com/acme/demo"
                    "acme" "demo" "2025-01-01T00:00:00" Samples.tree = Some m /\
    high_risk_file_count m
      = length (filter (fun f => risk_level f = "high") (files m)) /\
    file_count m = length (files m) /\
    high_risk_file_count m
      + length (filter (fun f => risk_level f = "critical") (files m))
      <= file_count m.
Proof.
  destruct (_build_manifest Samples.toy_scan "demo"
              "https://github.com/acme/demo" "acme" "demo"
              "2025-01-01T00:00:00" Samples.tree) as [m|] eqn:E;
    [|vm_compute in E; discriminate].
  exists m. split; [reflexivity|].
  exact (manifest_high_risk_count _ _ _ _ _ _ _ _ E).
Defined.

Example manifest_sample_levels :
  (fun m => (risk_level <$> files m, high_risk_file_count m, file_count m))
    <$> _build_manifest Samples.toy_scan "demo" "https://github.com/acme/demo"
          "acme" "demo" "2025-01-01T00:00:00" Samples.tree
  = Some (["critical"; "high"; "low"], 1, 3).
Proof. vm_compute. reflexivity. Qed.

End ManifestFacts.

Section SelectorFacts.
Import PyStr RepoFetcher.

Lemma tuple_leb_total a b : tuple_leb a b = true \/ tuple_leb b a = true.
Proof.
  destruct a as [[a1 a2] a3], b as [[b1 b2] b3]. unfold tuple_leb.
  rewrite !orb_true_iff, !andb_true_iff, !orb_true_iff, !andb_true_iff,
    !Z.ltb_lt, !Z.eqb_eq, !Z.leb_le. lia.
Qed.

Lemma tuple_leb_trans a b c :
  tuple_leb a b = true -> tuple_leb b c = true -> tuple_leb a c = true.
Proof.
  destruct a as [[a1 a2] a3], b as [[b1 b2] b3], c as [[c1 c2] c3].
  unfold tuple_leb.
  rewrite !orb_true_iff, !andb_true_iff, !orb_true_iff, !andb_true_iff,
    !Z.ltb_lt, !Z.eqb_eq, !Z.leb_le. lia.
Qed.

Lemma tuple_leb_false a b :
  tuple_leb a b = false <->
  (b.1.1 < a.1.1 \/ b.1.1 = a.1.1 /\
     (b.1.2 < a.1.2 \/ b.1.2 = a.1.2 /\ b.2 < a.2))%Z.
Proof.
  destruct a as [[a1 a2] a3], b as [[b1 b2] b3]. unfold tuple_leb. simpl.
  rewrite <- not_true_iff_false.
  rewrite !orb_true_iff, !andb_true_iff, !orb_true_iff, !andb_true_iff,
    !Z.ltb_lt, !Z.eqb_eq, !Z.leb_le. lia.
Qed.

Lemma priority_score_vulnerable f :
  vulnerabilities f <> [] ->
  priority_score f
  = (0, Z.of_nat (length (vulnerabilities f)), - size f)%Z.
Proof. unfold priority_score. by destruct (vulnerabilities f). Qed.

Lemma priority_score_plain f :
  vulnerabilities f = [] ->
  priority_score f = (risk_rank (risk_level f), 0, - size f)%Z.
Proof.
  unfold priority_score, risk_rank. intros ->.
  by repeat destruct (String.eqb _ _).
Qed.

Lemma risk_rank_range r : (1 <= risk_rank r <= 4)%Z.
Proof. unfold risk_rank. repeat destruct (String.eqb _ _); lia. Qed.

Lemma select_lookup m limit i a :
  (0 <= limit)%Z ->
  select_high_risk_files m limit !! i = Some a ->
  PySort.sorted score_leb (files m) !! i = Some a.
Proof.
  unfold select_high_risk_files, PySort.slice_to. intros Hl.
  destruct (Z.leb_spec 0 limit); [|lia].
  rewrite lookup_take_Some. tauto.
Qed.

Lemma select_index_lt m limit i j a b :
  (0 <= limit)%Z ->
  select_high_risk_files m limit !! i = Some a ->
  select_high_risk_files m limit !! j = Some b ->
  score_leb b a = false -> i < j.
Proof.
  intros Hl Ha%select_lookup Hb%select_lookup Hba; [|done..].
  eapply (sorted_index_lt priority_score tuple_leb
            tuple_leb_total (PySort.sorted score_leb (files m)) i j a b);
    [|done..].
  apply (sorted_sorted priority_score tuple_leb tuple_leb_total tuple_leb_trans).
Qed.

(** The ranking as the code computes it. For a limit that is not
    negative, [select_high_risk_files] returns the first [limit] entries of
    the manifest's files stably sorted on [priority_score]: the sorted list
    is a permutation of the files, ascending in the score, and entries with
    the same score keep their manifest order. Entries with detected
    vulnerabilities come before all others, then the tiers critical, high,
    medium, other, larger files first within a tier. Among the entries with
    detected vulnerabilities the count of classes enters the score as it is,
    so the entry with fewer classes comes first: the defect of C4. *)
Lemma select_high_risk_files_order (m : Manifest) (limit : Z) :
  (0 <= limit)%Z ->
  let all := PySort.sorted score_leb (files m) in
  let res := select_high_risk_files m limit in
  res = take (Z.to_nat limit) all /\
  all ≡ₚ files m /\
  StronglySorted (fun a b => score_leb a b = true) all /\
  (forall k, filter (fun f => priority_score f = k) all
             = filter (fun f => priority_score f = k) (files m)) /\
  (Z.of_nat (length res) <= limit)%Z /\
  (forall i j a b,
      res !! i = Some a -> res !! j = Some b ->
      let va := vulnerabilities a in
      let vb := vulnerabilities b in
      (va <> [] /\ vb = []) \/
      (va <> [] /\ vb <> [] /\
         (length va < length vb \/
          length va = length vb /\ (size b < size a)%Z)) \/
      (va = [] /\ vb = [] /\
         (risk_rank (risk_level a) < risk_rank (risk_level b) \/
          risk_rank (risk_level a) = risk_rank (risk_level b)
          /\ size b < size a)%Z) ->
      i < j).
Proof.
  intros Hl all res. split_and!.
  - unfold res, select_high_risk_files, PySort.slice_to.
    by destruct (Z.leb_spec 0 limit); [|lia].
  - apply (sorted_perm priority_score tuple_leb).
  - apply (sorted_sorted priority_score tuple_leb
             tuple_leb_total tuple_leb_trans).
  - intros k. apply (sorted_stable priority_score tuple_leb tuple_leb_total).
  - unfold res, select_high_risk_files, PySort.slice_to.
    destruct (Z.leb_spec 0 limit); [|lia]. rewrite length_take. lia.
  - intros i j a b Ha Hb va vb Hcase.
    apply (select_index_lt m limit i j a b Hl Ha Hb).
    unfold score_leb. apply tuple_leb_false. subst va vb.
    pose proof (risk_rank_range (risk_level a)).
    pose proof (risk_rank_range (risk_level b)).
    destruct Hcase as [[Hva Hvb]|[(Hva & Hvb & Hc)|(Hva & Hvb & Hc)]].
    + rewrite (priority_score_vulnerable a Hva), (priority_score_plain b Hvb).
      simpl. lia.
    + rewrite (priority_score_vulnerable a Hva),
        (priority_score_vulnerable b Hvb). simpl. lia.
    + rewrite (priority_score_plain a Hva), (priority_score_plain b Hvb).
      simpl. lia.
Qed.

Lemma select_high_risk_files_order_witness :
  select_high_risk_files
    (Samples.manifest_of
       [Samples.plain_critical; Samples.two_classes; Samples.one_class]) 2
  = [Samples.one_class; Samples.two_classes] /\
  (Z.of_nat (length
     (select_high_risk_files
        (Samples.manifest_of
           [Samples.plain_critical; Samples.two_classes; Samples.one_class])
        2)) <= 2)%Z.
Proof.
  split; [reflexivity|].
  apply (select_high_risk_files_order
           (Samples.manifest_of
              [Samples.plain_critical; Samples.two_classes;
               Samples.one_class]) 2).
  lia.
Defined.

(** C4. Where the code departs from the claim: of two entries with
    detected vulnerabilities and the same size, the one with two classes is
    listed first in the manifest and comes out second, behind the entry with
    one class, because [priority_score] gives (0, 2, -10) and (0, 1, -10):
    the size is negated, the count of classes is not. The claim puts the
    entry with more classes first. On the other sub-key the code does what
    the claim says: of two entries with one class each the larger file comes
    first, and an entry with a detected vulnerability comes before a
    critical one without. *)
Theorem select_high_risk_files_count_not_negated :
  length (vulnerabilities Samples.two_classes) = 2 /\
  length (vulnerabilities Samples.one_class) = 1 /\
  size Samples.two_classes = size Samples.one_class /\
  priority_score Samples.two_classes = (0, 2, -10)%Z /\
  priority_score Samples.one_class = (0, 1, -10)%Z /\
  select_high_risk_files
    (Samples.manifest_of [Samples.two_classes; Samples.one_class]) 15
  = [Samples.one_class; Samples.two_classes] /\
  select_high_risk_files
    (Samples.manifest_of [Samples.one_class; Samples.one_class_large]) 15
  = [Samples.one_class_large; Samples.one_class] /\
  select_high_risk_files
    (Samples.manifest_of [Samples.plain_critical; Samples.one_class]) 15
  = [Samples.one_class; Samples.plain_critical].
Proof. repeat split; reflexivity. Qed.

End SelectorFacts.

(** ** The fallback plan *)

Section FallbackFacts.
Import PyStr Gemini.

Lemma numbered_from_app n a b :
  numbered_from n (a ++ b)
  = numbered_from n a ++ numbered_from (n + length a) b.
Proof.
  unfold numbered_from. rewrite imap_app. f_equal.
  apply imap_ext. intros i x _. simpl. by rewrite Nat.add_assoc.
Qed.

Lemma add_step_pairs key mk s acc :
  add_step key mk s acc
  = let ps := if Py.has_key key (vulnerabilities s) then [(s, mk)] else [] in
    (acc.1 ++ numbered_from acc.2 ps, acc.2 + length ps).
Proof.
  unfold add_step. destruct acc as [steps n].
  destruct (Py.has_key key (vulnerabilities s)); simpl.
  - unfold numbered_from. simpl. rewrite Nat.add_0_r. f_equal. lia.
  - rewrite app_nil_r. f_equal. lia.
Qed.

Lemma sample_steps_pairs acc s :
  sample_steps acc s
  = (acc.1 ++ numbered_from acc.2 (sample_pairs s),
     acc.2 + length (sample_pairs s)).
Proof.
  unfold sample_steps. rewrite !add_step_pairs. cbv zeta. cbn [fst snd].
  unfold sample_pairs, class_table. cbn [mbind list_bind fst snd].
  rewrite app_nil_r, !numbered_from_app, !length_app, <- !app_assoc.
  f_equal. lia.
Qed.

Lemma fold_sample_steps l acc :
  fold_left sample_steps l acc
  = (acc.1 ++ numbered_from acc.2 (l ≫= sample_pairs),
     acc.2 + length (l ≫= sample_pairs)).
Proof.
  revert acc. induction l as [|s l IH]; intros [steps n].
  - simpl. rewrite app_nil_r. f_equal. lia.
  - cbn [fold_left]. rewrite IH, sample_steps_pairs, bind_cons. cbn [fst snd].
    rewrite numbered_from_app, length_app, <- app_assoc. f_equal. lia.
Qed.

Lemma fallback_steps_found rid samples :
  steps (_build_fallback_plan rid samples)
  = match detected_pairs samples with
    | [] => generic_steps
    | pairs => take 3 (numbered_from 1 pairs)
    end.
Proof.
  unfold _build_fallback_plan, detected_pairs. cbn [steps].
  rewrite fold_sample_steps. cbn [fst snd app].
  destruct (take 3 samples ≫= sample_pairs) as [|p ps] eqn:E; [done|].
  done.
Qed.

Ltac split_keys :=
  repeat match goal with
         | |- context [Py.has_key ?k ?v] => destruct (Py.has_key k v)
         end.

(** Cutting the step list to three loses no critical step. *)
Lemma critical_within_three samples :
  existsb is_critical (numbered_from 1 (detected_pairs samples))
  = existsb is_critical (take 3 (numbered_from 1 (detected_pairs samples))).
Proof.
  unfold detected_pairs.
  assert (length (take 3 samples) <= 3) as Hlen by (rewrite length_take; lia).
  destruct (take 3 samples) as [|s1 [|s2 [|s3 [|s4 l]]]];
    [| | | |simpl in Hlen; lia];
    unfold sample_pairs, class_table; cbn [mbind list_bind fst snd app];
    split_keys; reflexivity.
Qed.

Lemma numbered_from_length n pairs :
  length (numbered_from n pairs) = length pairs.
Proof. unfold numbered_from. by rewrite length_imap. Qed.

Lemma fallback_steps_length rid samples :
  1 <= length (steps (_build_fallback_plan rid samples)) <= 3.
Proof.
  rewrite fallback_steps_found. destruct (detected_pairs samples) as [|p ps].
  - simpl. lia.
  - rewrite length_take, numbered_from_length. cbn [length]. lia.
Qed.

Lemma fallback_severity_allowed rid samples :
  overall_severity (_build_fallback_plan rid samples) ∈ _ALLOWED_SEVERITIES.
Proof.
  unfold _build_fallback_plan. cbn [overall_severity].
  destruct (existsb _ _); unfold _ALLOWED_SEVERITIES; set_solver.
Qed.

(** C3 (as the code has it). The fallback looks at the first three
    samples only and at the classes sql_injection, command_injection and
    hardcoded_secrets only. If one of those samples carries one of those
    classes, the plan has one step per (file, class) pair, in file order
    then class order, numbered from 1, each made from the class's fixed
    template (technique id, severity, description naming the class and the
    file path), cut to three steps. Otherwise the plan is the fixed two-step
    generic plan. In both cases [overall_severity] is critical if a step of
    the plan is critical and high otherwise, and the plan has between one
    and three steps. *)
Theorem fallback_plan_construction
    (rid : option string) (samples : list Sample) :
  let plan := _build_fallback_plan rid samples in
  steps plan
  = match detected_pairs samples with
    | [] => generic_steps
    | pairs => take 3 (numbered_from 1 pairs)
    end /\
  overall_severity plan
  = (if existsb is_critical (steps plan) then "critical" else "high") /\
  1 <= length (steps plan) <= 3.
Proof.
  intros plan. pose proof (fallback_steps_found rid samples) as Hsteps.
  fold plan in Hsteps. split; [done|]. split.
  - rewrite Hsteps. unfold plan, _build_fallback_plan. cbn [overall_severity].
    rewrite fold_sample_steps. cbn [fst snd app].
    fold (detected_pairs samples).
    pose proof (critical_within_three samples) as Hc.
    destruct (detected_pairs samples) as [|p ps] eqn:E; [reflexivity|].
    change (imap _ (p :: ps)) with (numbered_from 1 (p :: ps)) in *.
    destruct (numbered_from 1 (p :: ps)) as [|st sts] eqn:En.
    + apply (f_equal length) in En. rewrite numbered_from_length in En.
      discriminate.
    + by rewrite Hc.
  - apply fallback_steps_length.
Qed.

Example fallback_two_samples :
  (fun st => (step_number st, vulnerability_type st, affected_files st))
    <$> steps (_build_fallback_plan (Some "demo") Samples.two_samples)
  = [(1, Some "Command Injection", ["run.py"])].
Proof. reflexivity. Qed.

(** C3 as stated fails: a sample with a detected SQL injection gets no
    step when it is not among the first three samples, although the plan
    would have room for it. *)
Lemma fallback_misses_late_sample :
  ~ (forall (rid : option string) (samples : list Sample) (s : Sample),
        s ∈ samples ->
        Py.has_key "sql_injection" (vulnerabilities s) = true ->
        length (samples ≫= sample_pairs) <= 3 ->
        exists st, st ∈ steps (_build_fallback_plan rid samples) /\
                   vulnerability_type st = Some "SQL Injection" /\
                   affected_files st = [file_path s]).
Proof.
  intros H.
  destruct (H (Some "demo") Samples.late_finding
              (Samples.sample "d.py"
                 [("sql_injection", ["SQL injection pattern detected"])]))
    as (st & Hin & Hty & _).
  - unfold Samples.late_finding. set_solver.
  - reflexivity.
  - simpl. lia.
  - change (steps (_build_fallback_plan (Some "demo") Samples.late_finding))
      with generic_steps in Hin.
    unfold generic_steps in Hin.
    apply elem_of_cons in Hin as [->|Hin]; [discriminate|].
    apply elem_of_cons in Hin as [->|Hin]; [discriminate|].
    by apply elem_of_nil in Hin.
Qed.

End FallbackFacts.

(** ** Severity normalization in the synthesizer *)

Section SeverityFacts.
Import PyStr Gemini.

Lemma mem_elem_of x l : mem x l = true -> x ∈ l.
Proof.
  unfold mem. rewrite existsb_exists. intros (y & Hy & Heq).
  apply String.eqb_eq in Heq as ->. by apply list_elem_of_In.
Qed.

Lemma step_severity_allowed w step :
  step_severity w step ∈ _ALLOWED_SEVERITIES.
Proof.
  unfold step_severity.
  destruct (mem _ _ALLOWED_SEVERITIES) eqn:E; [by apply mem_elem_of|].
  unfold _ALLOWED_SEVERITIES. set_solver.
Qed.

Lemma plan_severity_allowed w plan_data :
  plan_severity w plan_data ∈ _ALLOWED_SEVERITIES.
Proof.
  unfold plan_severity.
  destruct (mem _ _ALLOWED_SEVERITIES) eqn:E; [by apply mem_elem_of|].
  unfold _ALLOWED_SEVERITIES, _DEFAULT_OVERALL_SEVERITY. set_solver.
Qed.

(** C5. What the validation does with a severity that has blanks around
    it: the step severity " high " becomes medium and the plan severity
    "critical " becomes high, although both are in the allowed set once
    trimmed and lowered, and although [_normalise_severity] of the legacy
    path does trim them. Letter case alone is normalized, and an absent
    value takes the default. *)
Theorem step_severity_not_trimmed (w : World) :
  step_severity w [("severity", Py.JStr " high ")] = "medium" /\
  lower (strip " high ") = "high" /\
  _normalise_severity (Some (Py.JStr " high ")) = "high" /\
  plan_severity w [("overall_severity", Py.JStr "critical ")] = "high" /\
  _normalise_severity (Some (Py.JStr "critical ")) = "critical" /\
  step_severity w [("severity", Py.JStr "HiGh")] = "high" /\
  step_severity w [] = "medium" /\
  plan_severity w [] = "high".
Proof. repeat split; reflexivity. Qed.

Example padded_reply_parsed :
  (fun plan => (overall_severity plan, severity <$> steps plan))
    <$> match _parse_and_validate_attack_plan Samples.replying_world "{...}"
                Samples.empty_profile 3 with
        | Py.Ok plan => Some plan
        | Py.Raise _ => None
        end
  = Some ("high", ["medium"]).
Proof. vm_compute. reflexivity. Qed.

End SeverityFacts.

(** ** The plan synthesizer *)

Section SynthesizerFacts.
Import PyStr Gemini.
Variable w : World.

Lemma length_omap_le {A B} (f : A -> option B) (l : list A) :
  length (omap f l) <= length l.
Proof.
  induction l as [|x l IH]; csimpl; [done|].
  destruct (f x); csimpl; lia.
Qed.

Lemma slice_to_length {A} (l : list A) (n : Z) :
  (0 <= n)%Z -> length (PySort.slice_to l n) <= Z.to_nat n.
Proof.
  intros Hn. unfold PySort.slice_to.
  destruct (Z.leb_spec 0 n); [|lia]. rewrite length_take. lia.
Qed.

Lemma parse_well_formed raw profile plan :
  _parse_and_validate_attack_plan w raw profile 3 = Py.Ok plan ->
  1 <= length (steps plan) <= 3 /\
  overall_severity plan ∈ _ALLOWED_SEVERITIES.
Proof.
  unfold _parse_and_validate_attack_plan.
  destruct (parse_json w (strip_code_fence raw)) as [[| | | | |fields]|];
    simpl; try discriminate.
  destruct (Py.assoc "steps" fields) as [[| | | |items|]|]; try discriminate.
  pose proof (length_omap_le id
                (imap (sanitize_step w (valid_file_set profile))
                      (PySort.slice_to items 3))) as Hlen.
  rewrite length_imap in Hlen.
  pose proof (slice_to_length items 3 ltac:(lia)) as Hs.
  destruct (omap id _) as [|st sts]; [discriminate|].
  intros [= <-]. cbn [steps overall_severity]. split.
  - simpl in *. lia.
  - apply plan_severity_allowed.
Qed.

Lemma with_metadata_well_formed plan prompt raw model rid n :
  steps (with_metadata plan prompt raw model rid n) = steps plan /\
  overall_severity (with_metadata plan prompt raw model rid n)
  = overall_severity plan.
Proof. done. Qed.

(** The retry loop ends with the fallback plan or with the validated
    reply of one of the calls. *)
Lemma retry_loop_cases fuel profile samples prompt rc :
  let plan := retry_loop w fuel profile samples 3 prompt rc in
  plan = _build_fallback_plan (Some (repo_id_of profile)) samples \/
  exists call raw model parsed,
    call <= max_retries /\
    generate_gemini_response w call prompt = GText raw model /\
    _parse_and_validate_attack_plan w raw profile 3 = Py.Ok parsed /\
    plan = with_metadata parsed prompt raw (default (gemini_model w) model)
                         (repo_id_of profile) (length samples).
Proof.
  revert rc. induction fuel as [|fuel IH]; intros rc; simpl; [by left|].
  destruct (Nat.leb_spec rc max_retries) as [Hrc|]; [|by left].
  unfold attempt.
  destruct (generate_gemini_response w rc prompt) as [| |raw model] eqn:Hg.
  - destruct (S rc <=? max_retries)%nat; [apply IH | by left].
  - simpl. destruct (max_retries <? S rc)%nat; [by left | apply IH].
  - destruct (_parse_and_validate_attack_plan w raw profile 3)
      as [parsed|e] eqn:Hp; simpl.
    + right. exists rc, raw, model, parsed. done.
    + destruct (max_retries <? S rc)%nat; [by left | apply IH].
Qed.

(** When every call fails, the loop ends with the fallback plan. *)
Lemma retry_loop_all_fail fuel profile samples prompt rc :
  (forall call, call <= max_retries -> attempt_fails w profile 3 prompt call) ->
  retry_loop w fuel profile samples 3 prompt rc
  = _build_fallback_plan (Some (repo_id_of profile)) samples.
Proof.
  intros Hfail. revert rc. induction fuel as [|fuel IH]; intros rc; simpl;
    [done|].
  destruct (Nat.leb_spec rc max_retries) as [Hrc|]; [|done].
  specialize (Hfail rc Hrc). unfold attempt_fails, attempt in *.
  destruct (generate_gemini_response w rc prompt) as [| |raw model].
  - destruct (S rc <=? max_retries)%nat; [apply IH | done].
  - simpl. destruct (max_retries <? S rc)%nat; [done | apply IH].
  - destruct Hfail as [e ->]. simpl.
    destruct (max_retries <? S rc)%nat; [done | apply IH].
Qed.

Lemma retry_loop_S fuel profile samples max_steps prompt rc :
  retry_loop w (S fuel) profile samples max_steps prompt rc
  = if (rc <=? max_retries)%nat then
      match attempt w profile samples max_steps prompt rc with
      | Py.Ok (inr plan) => plan
      | Py.Ok (inl rc') =>
          retry_loop w fuel profile samples max_steps prompt rc'
      | Py.Raise _ =>
          if (max_retries <? S rc)%nat
          then _build_fallback_plan (Some (repo_id_of profile)) samples
          else retry_loop w fuel profile samples max_steps prompt (S rc)
      end
    else _build_fallback_plan (Some (repo_id_of profile)) samples.
Proof. reflexivity. Qed.

Lemma attempt_continue profile samples max_steps prompt rc rc' :
  attempt w profile samples max_steps prompt rc = Py.Ok (inl rc') ->
  rc' = S rc.
Proof.
  unfold attempt.
  destruct (generate_gemini_response w rc prompt); try discriminate.
  - destruct (S rc <=? max_retries)%nat; by intros [= <-].
  - destruct (_parse_and_validate_attack_plan _ _ _ _); discriminate.
Qed.

(** Three turns are all the loop can take: more fuel changes nothing. *)
Lemma retry_loop_fuel fuel profile samples max_steps prompt rc :
  S max_retries - rc <= fuel ->
  retry_loop w fuel profile samples max_steps prompt rc
  = retry_loop w (S max_retries - rc) profile samples max_steps prompt rc.
Proof.
  revert rc. induction fuel as [|fuel IH]; intros rc Hf.
  - by replace (S max_retries - rc) with 0 by lia.
  - destruct (Nat.leb_spec rc max_retries) as [Hrc|Hrc].
    + replace (S max_retries - rc) with (S (S max_retries - S rc)) by lia.
      rewrite !retry_loop_S.
      destruct (rc <=? max_retries)%nat; [|done].
      destruct (attempt w profile samples max_steps prompt rc)
        as [[rc'|plan]|e] eqn:Ha; [|done|].
      * apply attempt_continue in Ha as ->. apply IH. lia.
      * destruct (max_retries <? S rc)%nat; [done|]. apply IH. lia.
    + replace (S max_retries - rc) with 0 by lia.
      rewrite retry_loop_S.
      destruct (Nat.leb_spec rc max_retries); [lia | done].
Qed.

(** C1. [generate_gemini_attack_plan] with [max_steps = 3] always
    returns a payload, never an exception; the payload has between one and
    three steps and an overall severity among low, medium, high and
    critical. It is either the validated reply of one of the at most three
    calls to the endpoint or the fallback plan; it is the fallback plan when
    generation is disabled or has no key, when the prompt cannot be built,
    and when every call fails (an error reply, an exception, text that is
    not JSON, no steps array, or no step left after sanitization). *)
Theorem generate_gemini_attack_plan_total (profile : RepoProfile) :
  exists plan,
    generate_gemini_attack_plan w profile 3 = Py.Ok plan /\
    1 <= length (steps plan) <= 3 /\
    overall_severity plan ∈ _ALLOWED_SEVERITIES /\
    let samples := collect_samples w profile in
    let fallback := _build_fallback_plan (Some (repo_id_of profile)) samples in
    (plan = fallback \/
     exists prompt call raw model parsed,
       build_prompt w profile samples 3 = Some prompt /\
       call <= max_retries /\
       generate_gemini_response w call prompt = GText raw model /\
       _parse_and_validate_attack_plan w raw profile 3 = Py.Ok parsed /\
       plan = with_metadata parsed prompt raw
                            (default (gemini_model w) model)
                            (repo_id_of profile) (length samples)) /\
    (use_gemini w = false \/ gemini_api_key w = None
     \/ gemini_api_key w = Some "" -> plan = fallback) /\
    (build_prompt w profile samples 3 = None -> plan = fallback) /\
    (forall prompt,
        build_prompt w profile samples 3 = Some prompt ->
        (forall call, call <= max_retries ->
                      attempt_fails w profile 3 prompt call) ->
        plan = fallback).
Proof.
  unfold generate_gemini_attack_plan.
  set (samples := collect_samples w profile).
  set (fallback := _build_fallback_plan (Some (repo_id_of profile)) samples).
  assert (Hfb : 1 <= length (steps fallback) <= 3
                /\ overall_severity fallback ∈ _ALLOWED_SEVERITIES).
  { split; [apply fallback_steps_length | apply fallback_severity_allowed]. }
  destruct (negb (use_gemini w) || _) eqn:Hoff.
  - exists fallback. split; [done|]. destruct Hfb as [[? ?] ?].
    split_and!; [done | done | done | by left | done | done | done].
  - apply orb_false_iff in Hoff as [Huse Hkey].
    apply negb_false_iff in Huse.
    assert (Hon : ~ (use_gemini w = false \/ gemini_api_key w = None
                     \/ gemini_api_key w = Some "")).
    { intros [?|[E|E]]; [congruence| |]; rewrite E in Hkey; discriminate. }
    destruct (build_prompt w profile samples 3) as [prompt|] eqn:Hprompt.
    + eexists. split; [reflexivity|].
      pose proof (retry_loop_cases (S max_retries) profile samples prompt 0)
        as Hcases.
      pose proof (retry_loop_all_fail (S max_retries) profile samples prompt 0)
        as Hall.
      fold fallback in Hcases, Hall. cbv zeta in Hcases.
      set (plan := retry_loop w (S max_retries) profile samples 3 prompt 0)
        in *.
      assert (Hwf : 1 <= length (steps plan) <= 3
                    /\ overall_severity plan ∈ _ALLOWED_SEVERITIES).
      { destruct Hcases as [->|(call & raw & model & parsed & _ & _ & Hp & ->)];
          [done|]. by apply parse_well_formed in Hp. }
      destruct Hwf as [[? ?] ?].
      split_and!;
        [done | done | done | | intros Hc; by destruct Hon | discriminate
        | intros prompt' [= <-]; apply Hall].
      destruct Hcases as [?|(call & raw & model & parsed & ? & ? & ? & ?)];
        [by left|].
      right. by exists prompt, call, raw, model, parsed.
    + exists fallback. split; [done|]. destruct Hfb as [[? ?] ?].
      split_and!;
        [done | done | done | by left | done | done | discriminate].
Qed.

End SynthesizerFacts.

(** ** Counters and strings *)

Section CounterFacts.
Import PyStr.

Lemma assoc_counter_add x y c :
  Py.assoc y (Py.counter_add x c)
  = if decide (x = y) then Some (S (default 0 (Py.assoc y c)))
    else Py.assoc y c.
Proof.
  induction c as [|[z n] c IH]; simpl.
  - destruct (String.eqb_spec y x), (decide (x = y)); congruence.
  - destruct (String.eqb_spec x z) as [->|Hxz]; simpl.
    + destruct (String.eqb_spec y z), (decide (z = y)); simpl; congruence.
    + rewrite IH.
      destruct (String.eqb_spec y z), (decide (x = y)); simpl; congruence.
Qed.

Lemma keys_counter_add x c k :
  k ∈ (Py.counter_add x c).*1 <-> k = x \/ k ∈ c.*1.
Proof.
  induction c as [|[z n] c IH]; simpl.
  - set_solver.
  - destruct (String.eqb_spec x z) as [->|Hxz]; simpl.
    + rewrite !elem_of_cons. tauto.
    + rewrite !elem_of_cons, IH. tauto.
Qed.

Lemma NoDup_counter_add x c :
  NoDup c.*1 -> NoDup (Py.counter_add x c).*1.
Proof.
  induction c as [|[z n] c IH]; simpl; intros Hnd.
  - apply NoDup_singleton.
  - apply NoDup_cons in Hnd as [Hz Hc].
    destruct (String.eqb_spec x z) as [->|Hxz]; simpl.
    + by apply NoDup_cons.
    + apply NoDup_cons. split; [|by apply IH].
      rewrite keys_counter_add. intros [->|?]; done.
Qed.

Lemma NoDup_Counter xs : NoDup (Py.Counter xs).*1.
Proof.
  unfold Py.Counter. generalize (NoDup_nil_2 (A:=string)).
  change [] with (([] : list (string * nat)).*1) at 1.
  generalize ([] : list (string * nat)).
  induction xs as [|x xs IH]; intros c Hc; simpl; [done|].
  apply IH. by apply NoDup_counter_add.
Qed.

Lemma assoc_fold_counter y xs c :
  Py.assoc y (fold_left (fun c x => Py.counter_add x c) xs c)
  = match length (filter (fun x => x = y) xs) with
    | 0 => Py.assoc y c
    | S n => Some (default 0 (Py.assoc y c) + S n)
    end.
Proof.
  revert c. induction xs as [|x xs IH]; intros c; [done|].
  cbn [fold_left]. rewrite IH, assoc_counter_add, filter_cons.
  destruct (decide (x = y)) as [->|Hne]; simpl.
  - destruct (length (filter _ xs)); f_equal; lia.
  - done.
Qed.

Lemma assoc_Counter y xs :
  Py.assoc y (Py.Counter xs)
  = match length (filter (fun x => x = y) xs) with
    | 0 => None
    | S n => Some (S n)
    end.
Proof.
  unfold Py.Counter. rewrite assoc_fold_counter.
  by destruct (length (filter _ xs)).
Qed.

Lemma assoc_not_key {V} y (l : list (string * V)) :
  y ∉ l.*1 -> Py.assoc y l = None.
Proof.
  induction l as [|[z v] l IH]; simpl; [done|].
  rewrite not_elem_of_cons. intros [Hne Hl].
  destruct (String.eqb_spec y z); [done | by apply IH].
Qed.

Lemma assoc_elem_of {V} y (v : V) (l : list (string * V)) :
  Py.assoc y l = Some v -> (y, v) ∈ l.
Proof.
  induction l as [|[z u] l IH]; simpl; [done|].
  destruct (String.eqb_spec y z) as [->|].
  - intros [= ->]. left.
  - intros H. right. by apply IH.
Qed.

Lemma elem_of_assoc {V} y (v : V) (l : list (string * V)) :
  NoDup l.*1 -> (y, v) ∈ l -> Py.assoc y l = Some v.
Proof.
  induction l as [|[z u] l IH]; simpl; [by intros _ ?%elem_of_nil|].
  intros [Hz Hl]%NoDup_cons [[= -> ->]|Hin]%elem_of_cons.
  - by rewrite String.eqb_refl.
  - destruct (String.eqb_spec y z) as [->|]; [|by apply IH].
    destruct Hz. apply list_elem_of_fmap. by exists (z, v).
Qed.

Lemma chars_append s t : chars (s +:+ t) = chars s ++ chars t.
Proof. induction s as [|c s IH]; simpl; [done | by rewrite <- IH]. Qed.

Lemma chars_inj s t : chars s = chars t -> s = t.
Proof.
  intros H. rewrite <- (string_of_list_ascii_of_string s),
    <- (string_of_list_ascii_of_string t). unfold chars in H. by rewrite H.
Qed.

Lemma append_inj_l s1 s2 t : s1 +:+ t = s2 +:+ t -> s1 = s2.
Proof.
  intros H%(f_equal chars). rewrite !chars_append in H.
  apply app_inv_tail in H. by apply chars_inj.
Qed.

Lemma steps_key_tail s :
  take 2 (rev (chars (s +:+ "_steps"))) = ["s"; "p"]%char.
Proof. rewrite chars_append, rev_app_distr. reflexivity. Qed.

Lemma steps_key_not_fixed s :
  s +:+ "_steps" <> "overall_severity" /\ s +:+ "_steps" <> "affected_files".
Proof.
  split; intros H%(f_equal (fun k => take 2 (rev (chars k))));
    cbv beta in H; rewrite steps_key_tail in H; vm_compute in H;
    discriminate.
Qed.

Lemma string_leb_trans a b c :
  String.leb a b = true -> String.leb b c = true -> String.leb a c = true.
Proof.
  unfold String.leb. revert b c.
  induction a as [|x a IH]; intros [|y b] [|z c]; simpl; try done.
  unfold Ascii.compare.
  destruct (N.compare_spec (N_of_ascii x) (N_of_ascii y)) as [Hxy|Hxy|Hxy];
    destruct (N.compare_spec (N_of_ascii y) (N_of_ascii z)) as [Hyz|Hyz|Hyz];
    destruct (N.compare_spec (N_of_ascii x) (N_of_ascii z)) as [Hxz|Hxz|Hxz];
    try done; try lia.
  apply IH.
Qed.

End CounterFacts.

(** ** Report assembly *)

Section ReportFacts.
Import PyStr Operations.

Lemma fold_set_count_other items (m : gmap string SummaryValue) k :
  (forall s, k <> s +:+ "_steps") ->
  fold_left set_count items m !! k = m !! k.
Proof.
  intros Hk. revert m. induction items as [|[s n] items IH]; intros m;
    [done|].
  cbn [fold_left]. rewrite IH. unfold set_count. cbn [fst snd].
  rewrite lookup_insert_ne; [done|]. intros E. by apply (Hk s).
Qed.

Lemma fold_set_count_key items (m : gmap string SummaryValue) s :
  NoDup items.*1 ->
  fold_left set_count items m !! (s +:+ "_steps")
  = match Py.assoc s items with
    | Some n => Some (VInt n)
    | None => m !! (s +:+ "_steps")
    end.
Proof.
  revert m. induction items as [|[z n] items IH]; intros m Hnd; [done|].
  rewrite fmap_cons in Hnd. apply NoDup_cons in Hnd as [Hz Hnd].
  cbn [fold_left Py.assoc]. rewrite IH by done.
  unfold set_count. cbn [fst snd].
  destruct (String.eqb_spec s z) as [->|Hne].
  - rewrite (assoc_not_key z items Hz). by rewrite lookup_insert_eq.
  - destruct (Py.assoc s items); [done|].
    rewrite lookup_insert_ne; [done|].
    intros E%append_inj_l. congruence.
Qed.

Lemma filter_severities run sev :
  length (filter (fun x => x = sev) (severities run))
  = length (filter (fun st => lower (severity st) = sev) (steps (plan run))).
Proof.
  unfold severities. induction (steps (plan run)) as [|st l IH]; [done|].
  rewrite fmap_cons, !filter_cons.
  destruct (decide (lower (severity st) = sev)); simpl; by rewrite IH.
Qed.

(** The entry of a severity in the summary is the number of steps of that
    severity, and is absent when there is none. *)
Lemma report_count run sev :
  summary (_build_report run) !! (sev +:+ "_steps")
  = match length (filter (fun st => lower (severity st) = sev)
                         (steps (plan run))) with
    | 0 => None
    | S n => Some (VInt (S n))
    end.
Proof.
  unfold _build_report. cbn [summary].
  destruct (steps_key_not_fixed sev) as [Ho Ha].
  rewrite lookup_insert_ne by done.
  rewrite fold_set_count_key by apply NoDup_Counter.
  fold (severities run). rewrite assoc_Counter, filter_severities.
  destruct (length _); [|done].
  by rewrite lookup_singleton_ne.
Qed.

Lemma report_fixed_keys run :
  summary (_build_report run) !! "overall_severity"
  = Some (VStr (overall_severity (plan run))) /\
  summary (_build_report run) !! "affected_files"
  = Some (VFiles (sorted_set (step ← steps (plan run); affected_files step))).
Proof.
  unfold _build_report. cbn [summary]. split.
  - rewrite lookup_insert_ne by done.
    rewrite fold_set_count_other; [by rewrite lookup_singleton_eq|].
    intros s E. by destruct (steps_key_not_fixed s).
  - by rewrite lookup_insert_eq.
Qed.

Lemma sorted_set_spec l :
  StronglySorted (fun a b => String.leb a b = true) (sorted_set l) /\
  NoDup (sorted_set l) /\
  (forall x, x ∈ sorted_set l <-> x ∈ l).
Proof.
  unfold sorted_set.
  pose proof (sorted_perm (A:=string) id String.leb (remove_dups l)) as Hp.
  split_and!.
  - apply (sorted_sorted (A:=string) id String.leb
             String.leb_total string_leb_trans).
  - cbv beta in Hp. rewrite Hp. apply NoDup_remove_dups.
  - intros x. cbv beta in Hp. rewrite Hp. apply elem_of_remove_dups.
Qed.

Lemma filter_length_pos {A} (P : A -> Prop) `{forall x, Decision (P x)} l :
  0 < length (filter P l) <-> exists x, x ∈ l /\ P x.
Proof.
  split.
  - destruct (filter P l) as [|x l'] eqn:E; simpl; [lia|]. intros _.
    assert (x ∈ filter P l) as Hx by (rewrite E; left).
    apply list_elem_of_filter in Hx as [? ?]. eauto.
  - intros (x & Hx & HP).
    assert (x ∈ filter P l) as Hin by (apply list_elem_of_filter; done).
    destruct (filter P l); [by apply elem_of_nil in Hin | simpl; lia].
Qed.

(** C8. The report is recomputed from the plan's steps: for every
    severity the summary holds the number of steps of that severity (letter
    case ignored), and [affected_files] is the increasing, duplicate-free
    list of the files the steps touch; [overall_severity] is the plan's. For
    the run with two high steps touching a.py and b.py, a.py twice,
    [high_steps] is 2 and [affected_files] is a.py, b.py. *)
Theorem build_report_recomputes (run : SimulationRun) :
  let s := summary (_build_report run) in
  (forall sev n,
      s !! (sev +:+ "_steps") = Some (VInt n) <->
      n = length (filter (fun st => lower (severity st) = sev)
                         (steps (plan run))) /\ 0 < n) /\
  (exists files,
      s !! "affected_files" = Some (VFiles files) /\
      StronglySorted (fun a b => String.leb a b = true) files /\
      NoDup files /\
      forall f, f ∈ files <->
                exists st, st ∈ steps (plan run) /\ f ∈ affected_files st) /\
  s !! "overall_severity" = Some (VStr (overall_severity (plan run))) /\
  summary (_build_report Samples.two_high_run) !! "high_steps"
  = Some (VInt 2) /\
  summary (_build_report Samples.two_high_run) !! "affected_files"
  = Some (VFiles ["a.py"; "b.py"]).
Proof.
  intros s. subst s. split_and!.
  - intros sev n. rewrite report_count.
    destruct (length _) as [|k]; split.
    + discriminate.
    + lia.
    + intros [= <-]. lia.
    + intros [-> _]. done.
  - destruct (report_fixed_keys run) as [_ Hf].
    destruct (sorted_set_spec (step ← steps (plan run); affected_files step))
      as (Hs & Hn & Hm).
    eexists. split; [exact Hf|]. split_and!; [done | done |].
    intros f. rewrite Hm, list_elem_of_bind. naive_solver.
  - apply report_fixed_keys.
  - change "high_steps" with ("high" +:+ "_steps"). rewrite report_count.
    reflexivity.
  - destruct (report_fixed_keys Samples.two_high_run) as [_ ->].
    reflexivity.
Qed.

(** C10. The summary has the key of a severity exactly when a step has
    that severity (letter case ignored), and then a count that is not 0;
    [overall_severity] and [affected_files] are always there; there is no
    other key. *)
Theorem build_report_summary_keys (run : SimulationRun) :
  let s := summary (_build_report run) in
  (forall sev,
      is_Some (s !! (sev +:+ "_steps")) <->
      exists st, st ∈ steps (plan run) /\ lower (severity st) = sev) /\
  (forall sev, s !! (sev +:+ "_steps") <> Some (VInt 0)) /\
  is_Some (s !! "overall_severity") /\
  is_Some (s !! "affected_files") /\
  (forall k,
      is_Some (s !! k) ->
      k = "overall_severity" \/ k = "affected_files" \/
      exists st, st ∈ steps (plan run) /\
                 k = lower (severity st) +:+ "_steps").
Proof.
  intros s. subst s. split_and!.
  - intros sev. rewrite report_count.
    rewrite <- (filter_length_pos
                  (fun st => lower (severity st) = sev) (steps (plan run))).
    destruct (length _); split; try (by intros [? ?]); try lia; eauto.
  - intros sev. rewrite report_count. by destruct (length _).
  - destruct (report_fixed_keys run) as [-> _]. eauto.
  - destruct (report_fixed_keys run) as [_ ->]. eauto.
  - intros k [v Hk]. unfold _build_report in Hk. cbn [summary] in Hk.
    destruct (decide (k = "affected_files")) as [|Hna]; [by auto|].
    rewrite lookup_insert_ne in Hk by done.
    destruct (decide (k = "overall_severity")) as [|Hno]; [by auto|].
    right. right.
    assert (exists sev n,
               (sev, n) ∈ Py.Counter ((fun step => lower (severity step))
                                        <$> steps (plan run))
               /\ k = sev +:+ "_steps") as (sev & n & Hin & ->).
    { revert Hk.
      generalize (Py.Counter ((fun step => lower (severity step))
                                <$> steps (plan run))).
      assert (({["overall_severity" := VStr (overall_severity (plan run))]}
               : gmap string SummaryValue) !! k = None) as Hm
        by (by rewrite lookup_singleton_ne).
      revert Hm.
      generalize ({["overall_severity" := VStr (overall_severity (plan run))]}
                  : gmap string SummaryValue).
      intros m Hm items. revert m Hm.
      induction items as [|[z c] items IH]; intros m Hm Hk.
      - simpl in Hk. congruence.
      - cbn [fold_left] in Hk.
        destruct (decide (k = z +:+ "_steps")) as [->|Hkz].
        + exists z, c. split; [left | done].
        + destruct (IH (set_count m (z, c))) as (sev & n & Hin & ->);
            [|done|].
          * unfold set_count. cbn [fst snd]. by rewrite lookup_insert_ne.
          * exists sev, n. split; [by right | done]. }
    apply elem_of_assoc in Hin; [|apply NoDup_Counter].
    fold (severities run) in Hin. rewrite assoc_Counter in Hin.
    destruct (length (filter (fun x => x = sev) (severities run))) eqn:E;
      [discriminate|].
    assert (0 < length (filter (fun x => x = sev) (severities run))) as Hpos
      by lia.
    apply filter_length_pos in Hpos as (x & Hx & ->).
    unfold severities in Hx. apply list_elem_of_fmap in Hx as (st & -> & Hst).
    by exists st.
Qed.

End ReportFacts.

(** ** The simulation cache *)

Section CacheFacts.
Import PyStr Operations.
Variable strftime : Z -> string.

Lemma fresh_run_completes server request env plan :
  generated_plan env = Some plan -> persist_ok env = true ->
  exists response,
    (fresh_run strftime server request env).1 = Py.Ok' response /\
    Operations.plan (run response) = plan /\
    timestamp (run response) = run_time env /\
    run_id (run response)
    = req_repo_id request +:+ "_" +:+ strftime (run_time env) /\
    _attack_plan_cache (fresh_run strftime server request env).2
    = <[req_repo_id request :=
          {| entry_timestamp := run_time env;
             simulation_data := response |}]>
        (_attack_plan_cache server) /\
    simulation_files (fresh_run strftime server request env).2
    = <[run_id (run response) := Written (run response)]>
        (simulation_files server).
Proof.
  intros Hplan Hp. unfold fresh_run. rewrite Hplan, Hp.
  eexists. split; [reflexivity|]. split_and!; reflexivity.
Qed.

(** C2. For a request with a well-formed repository id: if it is not
    forced and the cache holds an entry for the id that is less than 600
    seconds old, the stored payload is returned as it is and nothing else
    happens (the cache, the run files and the store are untouched);
    otherwise (forced, no entry, or an entry 600 seconds old or older) the
    pipeline runs, and when it completes, its response is returned, the run
    is written under its run id, and the cache entry for the id becomes that
    response stamped with the time of the run. *)
Theorem simulate_attack_cache
    (server : Server) (request : SimulateAttackRequest) (env : Environment) :
  valid_repo_id (req_repo_id request) = true ->
  let key := req_repo_id request in
  let out := simulate_attack strftime server request env in
  (forall entry,
      force request = false ->
      _attack_plan_cache server !! key = Some entry ->
      (now env - entry_timestamp entry < 600 * 1000000)%Z ->
      out = (Py.Ok' (simulation_data entry), server)) /\
  (force request = true \/
   _attack_plan_cache server !! key = None \/
   (exists entry,
       _attack_plan_cache server !! key = Some entry /\
       (600 * 1000000 <= now env - entry_timestamp entry)%Z) ->
   out = fresh_run strftime server request env /\
   forall plan,
     generated_plan env = Some plan -> persist_ok env = true ->
     exists response,
       out.1 = Py.Ok' response /\
       Operations.plan (run response) = plan /\
       _attack_plan_cache out.2 !! key
       = Some {| entry_timestamp := run_time env;
                 simulation_data := response |} /\
       simulation_files out.2 !! run_id (run response)
       = Some (Written (run response))).
Proof.
  intros Hvalid key out. subst out. unfold simulate_attack.
  rewrite Hvalid. cbn [negb]. fold key. split.
  - intros entry Hforce Hentry Hage. rewrite Hentry, Hforce. cbn [negb].
    unfold CACHE_TTL_MICROSECONDS.
    by destruct (Z.ltb_spec (now env - entry_timestamp entry) (600 * 1000000));
      [|lia].
  - intros Hmiss.
    assert (Hfresh :
              match _attack_plan_cache server !! key with
              | Some cached_entry =>
                  if negb (force request)
                  then
                    if (now env - entry_timestamp cached_entry
                        <? CACHE_TTL_MICROSECONDS)%Z
                    then (Py.Ok' (simulation_data cached_entry), server)
                    else fresh_run strftime server request env
                  else fresh_run strftime server request env
              | None => fresh_run strftime server request env
              end = fresh_run strftime server request env).
    { destruct (_attack_plan_cache server !! key) as [e|] eqn:He; [|done].
      destruct (force request); [done|]. cbn [negb].
      destruct Hmiss as [?|[?|(e' & [= <-] & Hage)]]; try done.
      unfold CACHE_TTL_MICROSECONDS.
      by destruct (Z.ltb_spec (now env - entry_timestamp e) (600 * 1000000));
        [lia|]. }
    rewrite Hfresh. split; [done|].
    intros plan Hplan Hp.
    destruct (fresh_run_completes server request env plan Hplan Hp)
      as (response & Hr & Hrp & _ & _ & Hc & Hf).
    exists response. rewrite Hc, Hf.
    split_and!; [done | done | |]; by rewrite lookup_insert_eq.
Qed.

End CacheFacts.

Lemma simulate_attack_cache_witness :
  exists entry,
    Operations._attack_plan_cache Samples.server_after_first_run !! "demo"
    = Some entry /\
    Operations.simulate_attack Samples.stamp Samples.server_after_first_run
      (Samples.demo_request false) (Samples.world_at 599)
    = (Py.Ok' (Operations.simulation_data entry),
       Samples.server_after_first_run) /\
    Operations.simulate_attack Samples.stamp Samples.server_after_first_run
      (Samples.demo_request false) (Samples.world_at 601)
    = Operations.fresh_run Samples.stamp Samples.server_after_first_run
        (Samples.demo_request false) (Samples.world_at 601).
Proof.
  destruct (simulate_attack_cache Samples.stamp
              Samples.server_after_first_run (Samples.demo_request false)
              (Samples.world_at 599) eq_refl) as [Hhit _].
  destruct (simulate_attack_cache Samples.stamp
              Samples.server_after_first_run (Samples.demo_request false)
              (Samples.world_at 601) eq_refl) as [_ Hmiss].
  assert (Ht : Operations.entry_timestamp
                 <$> (Operations._attack_plan_cache
                        Samples.server_after_first_run !! "demo")
               = Some 0%Z) by (vm_compute; reflexivity).
  destruct (Operations._attack_plan_cache Samples.server_after_first_run
              !! "demo") as [entry|] eqn:He; [|discriminate].
  injection Ht as Ht. exists entry. split; [reflexivity|]. split.
  - apply Hhit; [reflexivity | exact He |]. rewrite Ht. reflexivity.
  - apply Hmiss. right. right. exists entry. split; [exact He|].
    rewrite Ht. vm_compute. discriminate.
Defined.

Example cache_ttl_scenario :
  (Operations.simulate_attack Samples.stamp Samples.server_after_first_run
     (Samples.demo_request false) (Samples.world_at 599)).1
  = (Operations.simulate_attack Samples.stamp Samples.empty_server
       (Samples.demo_request false) (Samples.world_at 0)).1 /\
  Operations.run_id <$>
    match (Operations.simulate_attack Samples.stamp
             Samples.server_after_first_run (Samples.demo_request false)
             (Samples.world_at 601)).1 with
    | Py.Ok' r => Some (Operations.run r)
    | Py.Raise' _ => None
    end
  = Some "demo_19700101T001001000000" /\
  Operations.run_id <$>
    match (Operations.simulate_attack Samples.stamp
             Samples.server_after_first_run (Samples.demo_request true)
             (Samples.world_at 599)).1 with
    | Py.Ok' r => Some (Operations.run r)
    | Py.Raise' _ => None
    end
  = Some "demo_19700101T001001000000".
Proof. vm_compute. repeat split; reflexivity. Qed.

(** ** More on the redaction pass *)

Section SanitizeMore.
Import PyStr Re Gemini.

Lemma redaction_patterns :
  redaction_passes.*1 = dangerous_patterns ++ [google_key; openai_key].
Proof. reflexivity. Qed.

(** X1. Nothing is left to redact: in the text [_sanitize_text] returns,
    none of the nine shell and exec patterns and neither of the two key
    patterns matches at any position. *)
Theorem sanitize_text_no_pattern_left (t : string) :
  Forall (fun q => no_match q (chars (_sanitize_text t)))
         (dangerous_patterns ++ [google_key; openai_key]).
Proof.
  rewrite <- redaction_patterns. destruct t as [|c t].
  - apply Forall_forall. intros q _. exact I.
  - unfold _sanitize_text. rewrite chars_str. apply sanitize_chars_no_match.
Qed.

(** X2. The text [_sanitize_text] returns has no white space at either
    end: stripping it again changes nothing. *)
Theorem sanitize_text_stripped (t : string) :
  strip (_sanitize_text t) = _sanitize_text t.
Proof.
  destruct t as [|c t]; [reflexivity|].
  unfold _sanitize_text, strip. rewrite chars_str. f_equal.
  unfold _sanitize_chars. apply strip_chars_idemp.
Qed.

(** X3. A text in which no pattern matches is only stripped: without
    anything to redact, [_sanitize_text] is [strip]. *)
Theorem sanitize_text_clean (t : string) :
  Forall (fun q => no_match q (chars t))
         (dangerous_patterns ++ [google_key; openai_key]) ->
  _sanitize_text t = strip t.
Proof.
  rewrite <- redaction_patterns. intros H. destruct t as [|c t];
    [reflexivity|].
  unfold _sanitize_text, strip. f_equal.
  rewrite sanitize_chars_passes. by rewrite run_passes_id.
Qed.

Lemma sanitize_text_clean_witness :
  _sanitize_text Samples.harmless_text = "read the deployment token".
Proof.
  rewrite (sanitize_text_clean Samples.harmless_text); [reflexivity|].
  repeat (constructor; [vm_compute; repeat split|]). constructor.
Defined.

Lemma scan_head p r c s :
  exists rest, sub p (bracket :: r) (c :: s) = c :: rest
               \/ sub p (bracket :: r) (c :: s) = bracket :: rest.
Proof.
  unfold sub. cbn [scan]. destruct (match_len p (c :: s)); eauto.
Qed.

Lemma run_passes_head l c s :
  Forall (fun m => exists r, m = bracket :: r) l.*2 ->
  exists d rest, run_passes l (c :: s) = d :: rest /\ (d = c \/ d = bracket).
Proof.
  revert c s. induction l as [|[p m] l IH]; intros c s Hl.
  - exists c, s. by split; [|left].
  - rewrite fmap_cons in Hl. apply Forall_cons in Hl as [[r Hm] Hl].
    simpl in Hm. subst m.
    change (run_passes ((p, bracket :: r) :: l) (c :: s))
      with (run_passes l (sub p (bracket :: r) (c :: s))).
    destruct (scan_head p r c s) as [rest [-> | ->]].
    + apply IH. done.
    + destruct (IH bracket rest Hl) as (d & rest' & -> & Hd).
      exists d, rest'. split; [done|]. right. by destruct Hd.
Qed.

Lemma redaction_markers_bracket :
  Forall (fun m => exists r, m = bracket :: r) redaction_passes.*2.
Proof. repeat (constructor; [by eexists|]). constructor. Qed.

(** Redaction never empties a text that starts with a character other
    than white space. *)
Lemma sanitize_chars_nonempty c s :
  is_space c = false -> _sanitize_chars (c :: s) <> [].
Proof.
  intros Hc. rewrite sanitize_chars_passes.
  destruct (run_passes_head redaction_passes c s redaction_markers_bracket)
    as (d & rest & -> & Hd).
  assert (is_space d = false) as Hsp by (by destruct Hd as [-> | ->]).
  unfold strip_chars, lstrip. simpl drop_while. rewrite Hsp.
  destruct (rstrip_head d rest Hsp) as [r ->]. done.
Qed.

Lemma strip_chars_head l :
  match strip_chars l with [] => True | c :: _ => is_space c = false end.
Proof.
  unfold strip_chars. pose proof (lstrip_head l) as Hh.
  destruct (lstrip l) as [|c u]; [done|].
  by destruct (rstrip_head c u Hh) as [r ->].
Qed.

Lemma str_chars s : str (chars s) = s.
Proof. apply string_of_list_ascii_of_string. Qed.

Lemma sanitize_strip_nonempty s :
  strip s <> "" -> _sanitize_text (strip s) <> "".
Proof.
  intros Hne. pose proof (strip_chars_head (chars s)) as Hh.
  unfold strip in *. destruct (strip_chars (chars s)) as [|c l]; [done|].
  unfold _sanitize_text. cbn [str string_of_list_ascii].
  change (String c (string_of_list_ascii l)) with (str (c :: l)).
  rewrite chars_str. intros E%(f_equal chars). rewrite chars_str in E.
  by apply (sanitize_chars_nonempty c l Hh).
Qed.

End SanitizeMore.

(** ** More on the reply parser *)

Section ParserFacts.
Import PyStr Re Gemini.
Variable w : World.

Lemma take_while_all f l : Forall (fun c => f c = true) (take_while f l).
Proof.
  induction l as [|c l IH]; simpl; [constructor|].
  destruct (f c) eqn:E; by constructor.
Qed.

Lemma drop_while_head f l c r : drop_while f l = c :: r -> f c = false.
Proof.
  induction l as [|d l IH]; simpl; [done|].
  destruct (f d) eqn:E; [done|]. by intros [= <- _].
Qed.

Lemma first_open (o : ascii) tw rest pre x :
  o ∉ tw -> tw ++ o :: rest = pre ++ o :: x -> forall y, y ∈ x -> y ∈ rest.
Proof.
  revert pre. induction tw as [|t tw IH]; intros pre Ho E y Hy.
  - destruct pre as [|c pre]; simpl in E.
    + injection E as E. by subst.
    + injection E as _ E. subst. rewrite elem_of_app. right. by right.
  - destruct pre as [|c pre]; simpl in E.
    + injection E as E _. subst. destruct Ho. left.
    + injection E as _ E. apply (IH pre); [|done..].
      intros ?. apply Ho. by right.
Qed.

Lemma elem_of_rev {A} (x : A) l : x ∈ rev l <-> x ∈ l.
Proof. rewrite !list_elem_of_In. symmetry. apply in_rev. Qed.

Lemma not_char_all x l :
  Forall (fun c => not_char x c = true) l -> x ∉ l.
Proof.
  intros H Hin. rewrite Forall_forall in H. specialize (H x Hin).
  unfold not_char in H. by rewrite Ascii.eqb_refl in H.
Qed.

(** X4. [json_block] is the widest brace-delimited part of a text: what
    it returns starts at the first opening brace of the text, ends at the
    last closing brace after it, and is [None] exactly when no opening brace
    has a closing brace after it. *)
Theorem json_block_shape (text : string) :
  match json_block text with
  | Some block =>
      (exists pre mid post,
          chars text = pre ++ chars block ++ post /\
          chars block = ["{"%char] ++ mid ++ ["}"%char] /\
          "{"%char ∉ pre /\ "}"%char ∉ post)
  | None =>
      (forall pre mid post,
          chars text <> pre ++ "{"%char :: mid ++ "}"%char :: post)
  end.
Proof.
  unfold json_block. fold (not_char "{") (not_char "}").
  pose proof (take_drop_while (not_char "{") (chars text)) as Hsplit.
  pose proof (take_while_all (not_char "{") (chars text)) as Hpre.
  apply not_char_all in Hpre.
  destruct (drop_while (not_char "{") (chars text)) as [|o rest] eqn:Hd.
  - intros pre mid post E. rewrite app_nil_r in Hsplit.
    rewrite Hsplit in Hpre. apply Hpre. rewrite E. set_solver.
  - assert (o = "{"%char) as ->.
    { apply drop_while_head in Hd. unfold not_char in Hd.
      apply negb_false_iff, Ascii.eqb_eq in Hd. done. }
    pose proof (take_drop_while (not_char "}") (rev rest)) as Hr.
    pose proof (take_while_all (not_char "}") (rev rest)) as Hpost.
    apply not_char_all in Hpost.
    destruct (drop_while (not_char "}") (rev rest)) as [|c d] eqn:Hc.
    + simpl. intros pre mid post E. rewrite app_nil_r in Hr.
      rewrite Hr in Hpost. apply Hpost. rewrite elem_of_rev.
      apply (first_open "{"%char _ rest pre (mid ++ "}"%char :: post) Hpre).
      * by rewrite Hsplit.
      * set_solver.
    + assert (c = "}"%char) as ->.
      { apply drop_while_head in Hc. unfold not_char in Hc.
        apply negb_false_iff, Ascii.eqb_eq in Hc. done. }
      apply (f_equal (@rev ascii)) in Hr.
      rewrite rev_involutive, rev_app_distr in Hr.
      cbn [rev] in Hr |- *.
      destruct (rev d ++ ["}"%char]) as [|b bs] eqn:Hb;
        [by destruct (rev d)|].
      rewrite <- Hb in Hr |- *.
      exists (take_while (not_char "{") (chars text)), (rev d),
        (rev (take_while (not_char "}") (rev rest))).
      rewrite chars_str. split_and!.
      * rewrite <- Hsplit at 1. f_equal. simpl. f_equal.
        symmetry. exact Hr.
      * done.
      * done.
      * by rewrite elem_of_rev.
Qed.

Lemma omap_imap_nonempty {A B} (f : nat -> A -> option B) (l : list A) :
  omap id (imap f l) <> [] <-> exists i x, l !! i = Some x /\ is_Some (f i x).
Proof.
  revert f. induction l as [|y l IH]; intros f.
  - simpl. split; [done|]. by intros (i & x & ? & _).
  - rewrite imap_cons. csimpl. destruct (f 0 y) as [b|] eqn:E.
    + split; [|done]. intros _. exists 0, y. by rewrite E.
    + rewrite IH. split.
      * intros (i & x & Hi & Hf). by exists (S i), x.
      * intros ([|i] & x & Hi & Hf); simpl in Hi.
        -- injection Hi as <-. rewrite E in Hf. by destruct Hf.
        -- by exists i, x.
Qed.

Lemma sanitize_step_obj valid i item :
  is_Some (sanitize_step w valid i item) <-> exists obj, item = Py.JObj obj.
Proof.
  destruct item; simpl; split; try (by intros [? ?]); eauto.
Qed.

(** X5. When the parser accepts a reply: exactly when the decoded text is
    an object whose "steps" is an array and one of its first [max_steps]
    items is an object. Everything else (no JSON, not an object, no steps
    array, an empty one, only items that are not objects) raises. *)
Theorem parse_succeeds_iff (raw : string) (profile : RepoProfile)
        (max_steps : Z) :
  (exists plan,
      _parse_and_validate_attack_plan w raw profile max_steps = Py.Ok plan)
  <->
  exists fields items,
    parse_json w (strip_code_fence raw) = Py.Ok (Py.JObj fields) /\
    Py.assoc "steps" fields = Some (Py.JArr items) /\
    exists item obj,
      item ∈ PySort.slice_to items max_steps /\ item = Py.JObj obj.
Proof.
  unfold _parse_and_validate_attack_plan.
  destruct (parse_json w (strip_code_fence raw)) as [v|e]; simpl.
  2:{ split; [by intros [? ?] | by intros (? & ? & ? & _)]. }
  destruct v as [| | | | |fields];
    try (split; [by intros [? ?] | by intros (? & ? & ? & _)]).
  destruct (Py.assoc "steps" fields) as [[| | | |items|]|] eqn:Hs;
    try (split;
         [by intros [? ?]
         |intros (? & ? & [= <-] & Hi & _); rewrite Hs in Hi; discriminate]).
  pose proof (omap_imap_nonempty
                (sanitize_step w (valid_file_set profile))
                (PySort.slice_to items max_steps)) as Hne.
  destruct (omap id _) as [|st sts] eqn:Ho.
  - split; [by intros [? ?]|].
    intros (fields' & items' & [= <-] & Hi & item & obj & Hin & ->).
    rewrite Hs in Hi. injection Hi as <-.
    apply list_elem_of_lookup in Hin as [i Hi].
    destruct Hne as [_ Hne]. destruct Hne; [|done].
    exists i, (Py.JObj obj). split; [done|]. apply sanitize_step_obj. eauto.
  - split; [|eauto]. intros _.
    destruct Hne as [Hne _]. destruct Hne as (i & x & Hi & Hf); [done|].
    apply sanitize_step_obj in Hf as [obj ->].
    exists fields, items. split_and!; [done | done |].
    exists (Py.JObj obj), obj. split; [|done].
    by eapply list_elem_of_lookup_2.
Qed.

Lemma sanitize_text_no_match t :
  Forall (fun q => no_match q (chars (_sanitize_text t)))
         (dangerous_patterns ++ [google_key; openai_key]).
Proof.
  change (dangerous_patterns ++ [google_key; openai_key])
    with redaction_passes.*1.
  destruct t as [|c t].
  - apply Forall_forall. intros q _. exact I.
  - unfold _sanitize_text. rewrite chars_str. apply sanitize_chars_no_match.
Qed.

Lemma omap_imap_elem {A B} (f : nat -> A -> option B) (l : list A) b :
  b ∈ omap id (imap f l) -> exists i x, l !! i = Some x /\ f i x = Some b.
Proof.
  rewrite list_elem_of_omap. intros (o & Ho & Hb). simpl in Hb. subst o.
  apply elem_of_lookup_imap_1 in Ho as (i & x & Ho & Hi). eauto.
Qed.

Lemma omap_imap_numbered {A B} (g : nat -> A -> option B) (num : B -> nat)
      (l : list A) (k : nat) :
  (forall i x b, g i x = Some b -> num b = S i) ->
  StronglySorted lt (num <$> omap id (imap (fun i => g (k + i)) l)) /\
  Forall (fun n => k < n) (num <$> omap id (imap (fun i => g (k + i)) l)).
Proof.
  intros Hnum. revert k. induction l as [|x l IH]; intros k.
  - split; constructor.
  - rewrite imap_cons.
    assert (imap ((fun i => g (k + i)) ∘ S) l
            = imap (fun i => g (S k + i)) l) as ->.
    { apply imap_ext. intros i y _. simpl. f_equal. lia. }
    destruct (IH (S k)) as [Hs Hf]. csimpl.
    destruct (g (k + 0) x) as [b|] eqn:E; csimpl.
    + apply Hnum in E. split.
      * constructor; [done|]. eapply Forall_impl; [exact Hf|].
        intros n Hn. simpl in Hn. lia.
      * constructor; [lia|]. eapply Forall_impl; [exact Hf|].
        intros n Hn. simpl in Hn. lia.
    + split; [done|]. eapply Forall_impl; [exact Hf|].
      intros n Hn. simpl in Hn. lia.
Qed.

Lemma step_affected_files_valid valid step :
  length (step_affected_files valid step) <= 5 /\
  (valid <> [] ->
   forall f, f ∈ step_affected_files valid step -> f ∈ valid).
Proof.
  unfold step_affected_files.
  destruct (Py.get "affected_files" (Py.JArr []) step) as [| | | |items|];
    try (split; [simpl; lia | by intros _ f ?%elem_of_nil]).
  split; [rewrite length_take; lia|].
  intros Hne f Hf%subseteq_take.
  apply list_elem_of_omap in Hf as (item & _ & Hitem).
  destruct item as [| | |g| |]; try discriminate.
  destruct (mem g valid) eqn:Hm; simpl in Hitem.
  - injection Hitem as <-. by apply mem_elem_of.
  - destruct valid; [done | discriminate].
Qed.

Lemma sanitize_step_valid valid i item st :
  sanitize_step w valid i item = Some st ->
  step_number st = S i /\
  severity st ∈ _ALLOWED_SEVERITIES /\
  technique_id st <> "" /\
  length (affected_files st) <= 5 /\
  (valid <> [] -> forall f, f ∈ affected_files st -> f ∈ valid) /\
  Forall (fun q => no_match q (chars (description st)))
         (dangerous_patterns ++ [google_key; openai_key]).
Proof.
  destruct item as [| | | | |step]; try discriminate.
  intros [= <-]. cbn [step_number severity technique_id affected_files
                        description].
  destruct (step_affected_files_valid valid step) as [Hlen Hsub].
  split_and!; [lia | apply step_severity_allowed | | done | done
              | apply sanitize_text_no_match].
  by destruct (strip (py_str w (Py.get "technique_id" (Py.JStr "") step))).
Qed.

(** X6. What every step of an accepted reply satisfies: its severity is
    one of the four allowed values, its technique id is not empty, it names
    at most five files, all of them paths of the profile's high-risk files
    when there are such paths, and its description holds no match of a
    redaction pattern. Step numbers are positions in the reply (from 1), so
    they increase strictly and, for a [max_steps] that is not negative, stay
    within it; the plan has a step and its insight text is not empty. *)
Theorem parse_steps_validated (raw : string) (profile : RepoProfile)
        (max_steps : Z) (plan : Plan) :
  _parse_and_validate_attack_plan w raw profile max_steps = Py.Ok plan ->
  steps plan <> [] /\
  ai_insight plan <> "" /\
  StronglySorted lt (step_number <$> steps plan) /\
  Forall (fun st =>
            1 <= step_number st /\
            ((0 <= max_steps)%Z -> (Z.of_nat (step_number st) <= max_steps)%Z) /\
            severity st ∈ _ALLOWED_SEVERITIES /\
            technique_id st <> "" /\
            length (affected_files st) <= 5 /\
            (valid_file_set profile <> [] ->
             forall f, f ∈ affected_files st -> f ∈ valid_file_set profile) /\
            Forall (fun q => no_match q (chars (description st)))
                   (dangerous_patterns ++ [google_key; openai_key]))
         (steps plan).
Proof.
  unfold _parse_and_validate_attack_plan.
  destruct (parse_json w (strip_code_fence raw)) as [[| | | | |fields]|];
    simpl; try discriminate.
  destruct (Py.assoc "steps" fields) as [[| | | |items|]|]; try discriminate.
  set (l := PySort.slice_to items max_steps).
  set (valid := valid_file_set profile).
  destruct (omap id (imap (sanitize_step w valid) l)) as [|st0 sts] eqn:Ho;
    [discriminate|].
  intros [= <-]. cbn [steps ai_insight]. rewrite <- Ho. split_and!.
  - by rewrite Ho.
  - destruct (strip (py_str w (Py.get "ai_insight" (Py.JStr "") fields)))
      as [|c s] eqn:Hi; [done|].
    rewrite <- Hi. apply sanitize_strip_nonempty. by rewrite Hi.
  - apply (omap_imap_numbered (sanitize_step w valid) step_number l 0).
    intros i x b Hb. by apply sanitize_step_valid in Hb as [? _].
  - apply Forall_forall. intros st Hst.
    apply omap_imap_elem in Hst as (i & x & Hi & Hst).
    apply sanitize_step_valid in Hst
      as (Hn & Hsev & Htech & Hlen & Hsub & Hdesc).
    split_and!; try done; [lia|].
    intros Hmax. apply lookup_lt_Some in Hi.
    pose proof (slice_to_length items max_steps Hmax). fold l in H. lia.
Qed.

End ParserFacts.

Lemma parse_steps_validated_witness :
  exists plan,
    Gemini._parse_and_validate_attack_plan
      Samples.replying_world "{...}" Samples.empty_profile 3 = Py.Ok plan /\
    Gemini.steps plan <> [] /\ Gemini.ai_insight plan <> "".
Proof.
  destruct (Gemini._parse_and_validate_attack_plan
              Samples.replying_world "{...}" Samples.empty_profile 3)
    as [plan|e] eqn:E; [|vm_compute in E; discriminate].
  exists plan. split; [reflexivity|].
  destruct (parse_steps_validated Samples.replying_world "{...}"
              Samples.empty_profile 3 plan E) as (H1 & H2 & _).
  by split.
Defined.

(** ** More on the fallback plan and on sample collection *)

Section FallbackMore.
Import PyStr Gemini.

Lemma sample_pairs_spec s :
  Forall (fun pair => pair.1 = s /\ table_step pair.2) (sample_pairs s).
Proof.
  unfold sample_pairs, class_table, table_step.
  cbn [mbind list_bind fst snd app].
  repeat match goal with
         | |- context [Py.has_key ?k ?v] => destruct (Py.has_key k v)
         end; simpl;
    repeat (apply Forall_cons; split; [split; [done | auto]|]);
    apply Forall_nil_2.
Qed.

Lemma detected_pairs_spec samples :
  Forall (fun pair => pair.1 ∈ take 3 samples /\ table_step pair.2)
         (detected_pairs samples).
Proof.
  unfold detected_pairs. apply Forall_forall. intros pair Hp.
  apply list_elem_of_bind in Hp as (s & Hp & Hs).
  pose proof (sample_pairs_spec s) as Hf. rewrite Forall_forall in Hf.
  destruct (Hf pair Hp) as [-> ?]. done.
Qed.

Lemma table_step_shape mk n s :
  table_step mk ->
  step_number (mk n s) = n /\
  affected_files (mk n s) = [file_path s] /\
  affected_file (mk n s) = Some (file_path s) /\
  (severity (mk n s) = "critical" \/ severity (mk n s) = "high").
Proof. intros [-> | [-> | ->]]; simpl; auto. Qed.

Lemma numbered_from_numbers n pairs :
  Forall (fun pair => table_step pair.2) pairs ->
  step_number <$> numbered_from n pairs = seq n (length pairs).
Proof.
  unfold numbered_from. revert n.
  induction pairs as [|pair pairs IH]; intros n Hf; [done|].
  apply Forall_cons in Hf as [Hp Hf]. rewrite imap_cons. cbn [fmap list_fmap].
  destruct (table_step_shape pair.2 (n + 0) pair.1 Hp) as [-> _].
  cbn [length seq]. rewrite Nat.add_0_r. f_equal.
  rewrite <- (IH (S n) Hf). f_equal. apply imap_ext.
  intros i x _. simpl. f_equal. lia.
Qed.

Lemma numbered_from_elem n pairs st :
  st ∈ numbered_from n pairs ->
  exists i pair, pair ∈ pairs /\ st = pair.2 (n + i) pair.1.
Proof.
  unfold numbered_from.
  intros (i & pair & -> & Hi)%elem_of_lookup_imap_1.
  exists i, pair. split; [|done]. by eapply list_elem_of_lookup_2.
Qed.

Lemma sample_pairs_nonempty s :
  sample_pairs s <> [] <->
  Py.has_key "sql_injection" (vulnerabilities s) = true \/
  Py.has_key "command_injection" (vulnerabilities s) = true \/
  Py.has_key "hardcoded_secrets" (vulnerabilities s) = true.
Proof.
  unfold sample_pairs, class_table. cbn [mbind list_bind fst snd app].
  destruct (Py.has_key "sql_injection" (vulnerabilities s)),
    (Py.has_key "command_injection" (vulnerabilities s)),
    (Py.has_key "hardcoded_secrets" (vulnerabilities s)); simpl;
    intuition (try discriminate; try congruence).
Qed.

Lemma detected_pairs_nonempty samples :
  detected_pairs samples <> [] <->
  exists s, s ∈ take 3 samples /\ sample_pairs s <> [].
Proof.
  unfold detected_pairs. split.
  - destruct (take 3 samples ≫= sample_pairs) as [|p ps] eqn:E; [done|].
    intros _.
    assert (p ∈ take 3 samples ≫= sample_pairs) as Hp
        by (rewrite E; by left).
    apply list_elem_of_bind in Hp as (s & Hp & Hs).
    exists s. split; [done|]. intros Hnil. rewrite Hnil in Hp.
    by apply elem_of_nil in Hp.
  - intros (s & Hs & Hne) Hnil.
    destruct (sample_pairs s) as [|p ps] eqn:E; [done|].
    assert (p ∈ take 3 samples ≫= sample_pairs) as Hp.
    { apply list_elem_of_bind. exists s. split; [|done]. rewrite E. by left. }
    rewrite Hnil in Hp. by apply elem_of_nil in Hp.
Qed.

(** X7. The steps of a fallback plan are numbered 1, 2, ... without a
    gap, each is critical or high and touches exactly one file. When one of
    the first three samples has a finding of the class sql_injection,
    command_injection or hardcoded_secrets, the file of every step is the
    path of one of those three samples. When none has (no sample, findings
    of another class such as xss_vulnerable only, or findings only in later
    samples), the steps are the two generic ones, whose files are fixed
    paths. The plan's source is "fallback" exactly when there was no sample
    at all, so a generic plan can carry the tag of scan results. *)
Theorem fallback_steps_numbered (rid : option string)
        (samples : list Sample) :
  let plan := _build_fallback_plan rid samples in
  let has_step_class (s : Sample) :=
    Py.has_key "sql_injection" (vulnerabilities s) = true \/
    Py.has_key "command_injection" (vulnerabilities s) = true \/
    Py.has_key "hardcoded_secrets" (vulnerabilities s) = true in
  step_number <$> steps plan = seq 1 (length (steps plan)) /\
  Forall (fun st =>
            (severity st = "critical" \/ severity st = "high") /\
            exists f, affected_files st = [f]) (steps plan) /\
  ((exists s, s ∈ take 3 samples /\ has_step_class s) ->
   Forall (fun st =>
             exists s, s ∈ take 3 samples /\
                       affected_files st = [file_path s] /\
                       affected_file st = Some (file_path s))
          (steps plan)) /\
  ((forall s, s ∈ take 3 samples -> ~ has_step_class s) ->
   steps plan = generic_steps) /\
  (plan_source plan = Some "fallback" <-> samples = []).
Proof.
  intros plan has_step_class. subst plan has_step_class.
  rewrite fallback_steps_found.
  pose proof (detected_pairs_spec samples) as Hp.
  pose proof (detected_pairs_nonempty samples) as Hne.
  destruct (detected_pairs samples) as [|p ps] eqn:E.
  - split_and!; [done | | | done |].
    + unfold generic_steps.
      repeat (apply Forall_cons;
              split; [split; [simpl; auto | eexists; reflexivity]|]).
      apply Forall_nil_2.
    + intros (s & Hs & Hc). exfalso.
      apply sample_pairs_nonempty in Hc.
      assert ([] <> @nil (Sample * (nat -> Sample -> Step))) as Habs
          by (apply Hne; eauto).
      done.
    + unfold _build_fallback_plan. cbn [plan_source].
      destruct samples; split; done.
  - split_and!.
    + rewrite fmap_take, length_take, numbered_from_numbers, take_seq.
      * by rewrite numbered_from_length.
      * eapply Forall_impl; [exact Hp|]. by intros ? [_ ?].
    + apply Forall_forall. intros st Hst%subseteq_take.
      apply numbered_from_elem in Hst as (i & pair & Hin & ->).
      rewrite Forall_forall in Hp. destruct (Hp pair Hin) as [_ Ht].
      destruct (table_step_shape pair.2 (1 + i) pair.1 Ht)
        as (_ & Hf & _ & Hs). eauto.
    + intros _. apply Forall_forall. intros st Hst%subseteq_take.
      apply numbered_from_elem in Hst as (i & pair & Hin & ->).
      rewrite Forall_forall in Hp. destruct (Hp pair Hin) as [Hs Ht].
      destruct (table_step_shape pair.2 (1 + i) pair.1 Ht)
        as (_ & Hf & Ha & _). eauto.
    + intros Hnone. exfalso.
      destruct Hne as [Hne _].
      destruct (Hne ltac:(done)) as (s & Hs & Hc).
      apply sample_pairs_nonempty in Hc. by apply (Hnone s).
    + unfold _build_fallback_plan. cbn [plan_source].
      destruct samples; split; done.
Qed.

(** A sample whose only finding is an XSS pattern: the plan is the generic
    one, with the tag of scan results. *)
Example fallback_xss_only :
  steps (_build_fallback_plan (Some "demo") Samples.xss_only) = generic_steps /\
  plan_source (_build_fallback_plan (Some "demo") Samples.xss_only)
  = Some "fallback_with_scan_results".
Proof. split; reflexivity. Qed.

End FallbackMore.

Section CollectFacts.
Import PyStr Gemini.
Variable w : World.

Lemma finding_keys key message patterns ignorecase text :
  (finding w key message patterns ignorecase text).*1 `sublist_of` [key] /\
  Forall (fun kv => length kv.2 = 1)
         (finding w key message patterns ignorecase text).
Proof.
  unfold finding. destruct (existsb _ _); simpl.
  - split; [done | by repeat constructor].
  - split; [apply sublist_nil_l | constructor].
Qed.

(** X8. The synthesizer's content scan reports each of its four classes
    at most once, in the order sql_injection, command_injection,
    hardcoded_secrets, xss_vulnerable, each with exactly one message. *)
Theorem scan_file_content_keys (content : list ascii) (file_ext : string) :
  (_scan_file_content w content file_ext).*1
    `sublist_of` ["sql_injection"; "command_injection";
                  "hardcoded_secrets"; "xss_vulnerable"] /\
  Forall (fun kv => length kv.2 = 1) (_scan_file_content w content file_ext).
Proof.
  unfold _scan_file_content. rewrite !fmap_app, !Forall_app. split.
  - change ["sql_injection"; "command_injection"; "hardcoded_secrets";
            "xss_vulnerable"]
      with (["sql_injection"] ++ ["command_injection"]
            ++ ["hardcoded_secrets"] ++ ["xss_vulnerable"]).
    repeat apply sublist_app; apply finding_keys.
  - split_and!; apply finding_keys.
Qed.

Lemma collect_sample_spec rid f s :
  collect_sample w rid f = Some s ->
  file_path s = RepoFetcher.path f /\
  file_path s <> "" /\
  risk_reasons s = RepoFetcher.risk_reasons f /\
  (exists content,
      read_repo_file w rid (RepoFetcher.path f) = Some content /\
      vulnerabilities s
      = _scan_file_content w content
                           (last_dot_segment (RepoFetcher.path f))) /\
  (vulnerabilities s <> [] \/ RepoFetcher.risk_level f = "high").
Proof.
  unfold collect_sample.
  destruct (String.eqb_spec (RepoFetcher.path f) "") as [|Hne];
    [discriminate|].
  destruct (read_repo_file w rid (RepoFetcher.path f)) as [content|];
    [|discriminate]. csimpl.
  destruct (_scan_file_content w content _) as [|kv l] eqn:Hs; simpl.
  - destruct (String.eqb_spec (RepoFetcher.risk_level f) "high");
      [|discriminate].
    intros [= <-]. simpl. split_and!; eauto.
  - intros [= <-]. simpl. split_and!; eauto.
Qed.

Lemma omap_fmap_sublist {A B C} (f : A -> option B) (g : B -> C)
      (h : A -> C) (l : list A) :
  (forall x y, f x = Some y -> g y = h x) ->
  g <$> omap f l `sublist_of` h <$> l.
Proof.
  intros Hf. induction l as [|x l IH]; csimpl; [done|].
  destruct (f x) as [y|] eqn:E; csimpl.
  - rewrite (Hf x y E). by constructor.
  - by constructor.
Qed.

(** X9. Sample collection reads at most the first ten high-risk files and
    keeps their order; every sample comes from a file with a non-empty path
    that could be read, carries the scan result of that file's content, and
    is kept only because the scan found something or the file's risk level
    is high. *)
Theorem collect_samples_spec (profile : RepoProfile) :
  let samples := collect_samples w profile in
  length samples <= 10 /\
  file_path <$> samples
    `sublist_of` RepoFetcher.path <$> take 10 (high_risk_files profile) /\
  Forall (fun s =>
            file_path s <> "" /\
            exists f content,
              f ∈ take 10 (high_risk_files profile) /\
              RepoFetcher.path f = file_path s /\
              risk_reasons s = RepoFetcher.risk_reasons f /\
              read_repo_file w (repo_id_of profile) (file_path s)
              = Some content /\
              vulnerabilities s
              = _scan_file_content w content
                                   (last_dot_segment (file_path s)) /\
              (vulnerabilities s <> []
               \/ RepoFetcher.risk_level f = "high"))
         samples.
Proof.
  intros samples. subst samples. unfold collect_samples. split_and!.
  - etrans; [apply length_omap_le|]. rewrite length_take. lia.
  - apply omap_fmap_sublist. intros f s Hs.
    by apply collect_sample_spec in Hs as [? _].
  - apply Forall_forall. intros s (f & Hf & Hs)%list_elem_of_omap.
    apply collect_sample_spec in Hs
      as (Hp & Hne & Hr & (content & Hread & Hv) & Hwhy).
    split; [done|]. exists f, content. rewrite Hp. split_and!; done.
Qed.

End CollectFacts.

(** ** More on the synthesizer *)

Section SynthesizerMore.
Import PyStr Gemini.
Variable w : World.

Lemma retry_loop_result fuel profile samples max_steps prompt rc :
  let plan := retry_loop w fuel profile samples max_steps prompt rc in
  plan = _build_fallback_plan (Some (repo_id_of profile)) samples \/
  exists call raw model parsed,
    call <= max_retries /\
    generate_gemini_response w call prompt = GText raw model /\
    _parse_and_validate_attack_plan w raw profile max_steps = Py.Ok parsed /\
    plan = with_metadata parsed prompt raw (default (gemini_model w) model)
                         (repo_id_of profile) (length samples).
Proof.
  revert rc. induction fuel as [|fuel IH]; intros rc; [by left|].
  rewrite retry_loop_S.
  destruct (Nat.leb_spec rc max_retries) as [Hrc|]; [|by left].
  unfold attempt.
  destruct (generate_gemini_response w rc prompt) as [| |raw model] eqn:Hg.
  - destruct (S rc <=? max_retries)%nat; [apply IH | by left].
  - destruct (max_retries <? S rc)%nat; [by left | apply IH].
  - destruct (_parse_and_validate_attack_plan w raw profile max_steps)
      as [parsed|e] eqn:Hp; simpl.
    + right. exists rc, raw, model, parsed. done.
    + destruct (max_retries <? S rc)%nat; [by left | apply IH].
Qed.

Lemma generate_cases profile max_steps :
  exists plan,
    generate_gemini_attack_plan w profile max_steps = Py.Ok plan /\
    (plan = _build_fallback_plan (Some (repo_id_of profile))
                                 (collect_samples w profile) \/
     exists prompt raw model parsed,
       _parse_and_validate_attack_plan w raw profile max_steps
       = Py.Ok parsed /\
       plan = with_metadata parsed prompt raw
                            (default (gemini_model w) model)
                            (repo_id_of profile)
                            (length (collect_samples w profile))).
Proof.
  unfold generate_gemini_attack_plan.
  destruct (negb (use_gemini w) || _); [eexists; split; [done | by left]|].
  destruct (build_prompt w profile (collect_samples w profile) max_steps)
    as [prompt|]; [|eexists; split; [done | by left]].
  eexists. split; [reflexivity|].
  destruct (retry_loop_result (S max_retries) profile
              (collect_samples w profile) max_steps prompt 0)
    as [->|(call & raw & model & parsed & _ & _ & Hp & ->)]; [by left|].
  right. by exists prompt, raw, model, parsed.
Qed.

Lemma parse_ok_facts raw profile max_steps plan :
  _parse_and_validate_attack_plan w raw profile max_steps = Py.Ok plan ->
  steps plan <> [] /\
  overall_severity plan ∈ _ALLOWED_SEVERITIES /\
  Forall (fun st => severity st ∈ _ALLOWED_SEVERITIES) (steps plan) /\
  ai_insight plan <> "".
Proof.
  unfold _parse_and_validate_attack_plan.
  destruct (parse_json w (strip_code_fence raw)) as [[| | | | |fields]|];
    simpl; try discriminate.
  destruct (Py.assoc "steps" fields) as [[| | | |items|]|]; try discriminate.
  destruct (omap id (imap (sanitize_step w (valid_file_set profile))
                          (PySort.slice_to items max_steps)))
    as [|st0 sts] eqn:Ho; [discriminate|].
  intros [= <-]. cbn [steps ai_insight overall_severity]. rewrite <- Ho.
  split_and!.
  - by rewrite Ho.
  - apply plan_severity_allowed.
  - apply Forall_forall. intros st Hst.
    apply omap_imap_elem in Hst as (i & x & Hi & Hst).
    by apply sanitize_step_valid in Hst as (_ & ? & _).
  - destruct (strip (py_str w (Py.get "ai_insight" (Py.JStr "") fields)))
      as [|c s] eqn:Hi; [done|].
    rewrite <- Hi. apply sanitize_strip_nonempty. by rewrite Hi.
Qed.

Lemma fallback_step_severities rid samples :
  Forall (fun st => severity st ∈ _ALLOWED_SEVERITIES)
         (steps (_build_fallback_plan rid samples)).
Proof.
  rewrite fallback_steps_found.
  pose proof (detected_pairs_spec samples) as Hp.
  destruct (detected_pairs samples) as [|p ps].
  - unfold generic_steps, _ALLOWED_SEVERITIES.
    repeat (apply Forall_cons; split; [simpl; set_solver|]).
    apply Forall_nil_2.
  - apply Forall_forall. intros st Hst%subseteq_take.
    apply numbered_from_elem in Hst as (i & pair & Hin & ->).
    rewrite Forall_forall in Hp. destruct (Hp pair Hin) as [_ Ht].
    destruct (table_step_shape pair.2 (1 + i) pair.1 Ht)
      as (_ & _ & _ & [-> | ->]); unfold _ALLOWED_SEVERITIES; set_solver.
Qed.

(** X10. Whatever [max_steps] is, [generate_gemini_attack_plan] returns a
    payload that has at least one step, an allowed overall severity, an
    allowed severity on every step, an insight text that is not empty, the
    profile's repository id, and one of the three source tags; the tag is
    "gemini" only together with a model name and the stored prompt and
    reply. *)
Theorem generate_payload_shape (profile : RepoProfile) (max_steps : Z) :
  exists plan,
    generate_gemini_attack_plan w profile max_steps = Py.Ok plan /\
    steps plan <> [] /\
    overall_severity plan ∈ _ALLOWED_SEVERITIES /\
    Forall (fun st => severity st ∈ _ALLOWED_SEVERITIES) (steps plan) /\
    ai_insight plan <> "" /\
    repo_id plan = Some (repo_id_of profile) /\
    (plan_source plan = Some "gemini" /\ is_Some (model_used plan) /\
     is_Some (gemini_prompt plan) /\ is_Some (gemini_raw_response plan)
     \/
     (plan_source plan = Some "fallback"
      \/ plan_source plan = Some "fallback_with_scan_results") /\
     model_used plan = None /\ gemini_prompt plan = None /\
     gemini_raw_response plan = None).
Proof.
  destruct (generate_cases profile max_steps)
    as (plan & Hgen & [->|(prompt & raw & model & parsed & Hp & ->)]);
    eexists; (split; [exact Hgen|]).
  - pose proof (fallback_steps_length (Some (repo_id_of profile))
                  (collect_samples w profile)) as Hlen.
    split_and!.
    + intros E. rewrite E in Hlen. simpl in Hlen. lia.
    + apply fallback_severity_allowed.
    + apply fallback_step_severities.
    + done.
    + done.
    + right. unfold _build_fallback_plan. cbn.
      destruct (collect_samples w profile); auto.
  - apply parse_ok_facts in Hp as (Hne & Hsev & Hst & Hai).
    split_and!; try done. left. cbn. eauto.
Qed.

End SynthesizerMore.

Section EndpointFacts.
Import PyStr Gemini.
Variable w : World.
Variable endpoint : nat -> string -> GeminiResult.

Lemma retry_loop_endpoint fuel profile samples max_steps prompt rc :
  (forall call, call <= max_retries ->
                endpoint call prompt = generate_gemini_response w call prompt) ->
  retry_loop (with_endpoint w endpoint) fuel profile samples max_steps prompt rc
  = retry_loop w fuel profile samples max_steps prompt rc.
Proof.
  intros Hsame. revert rc. induction fuel as [|fuel IH]; intros rc; [done|].
  rewrite !retry_loop_S.
  destruct (Nat.leb_spec rc max_retries) as [Hrc|]; [|done].
  assert (attempt (with_endpoint w endpoint) profile samples max_steps
                  prompt rc
          = attempt w profile samples max_steps prompt rc) as ->.
  { unfold attempt. cbn [generate_gemini_response with_endpoint].
    rewrite (Hsame rc Hrc). done. }
  destruct (attempt w profile samples max_steps prompt rc) as [[rc'|]|];
    [apply IH | done |].
  destruct (max_retries <? S rc)%nat; [done | apply IH].
Qed.

(** X11. The endpoint is consulted for at most three calls (the first
    try and two retries) and not at all when generation is disabled or has
    no key: changing what the endpoint would answer beyond that does not
    change the plan. *)
Theorem generate_calls_bounded (profile : RepoProfile) (max_steps : Z) :
  (use_gemini w = false \/ gemini_api_key w = None
   \/ gemini_api_key w = Some ""
   \/ forall call prompt,
        call <= max_retries ->
        endpoint call prompt = generate_gemini_response w call prompt) ->
  generate_gemini_attack_plan (with_endpoint w endpoint) profile max_steps
  = generate_gemini_attack_plan w profile max_steps.
Proof.
  intros H. unfold generate_gemini_attack_plan.
  change (collect_samples (with_endpoint w endpoint) profile)
    with (collect_samples w profile).
  cbn [use_gemini gemini_api_key build_prompt with_endpoint].
  destruct (negb (use_gemini w) || _) eqn:Hoff; [done|].
  apply orb_false_iff in Hoff as [Huse Hkey].
  apply negb_false_iff in Huse.
  destruct H as [H|[H|[H|H]]];
    [congruence | rewrite H in Hkey; discriminate
    | rewrite H in Hkey; discriminate |].
  destruct (build_prompt w profile (collect_samples w profile) max_steps)
    as [prompt|]; [|done].
  f_equal. apply retry_loop_endpoint. intros call. apply H.
Qed.

End EndpointFacts.

Lemma generate_calls_bounded_witness :
  Gemini.generate_gemini_attack_plan
    (Gemini.with_endpoint Samples.replying_world Samples.three_replies)
    Samples.empty_profile 3
  = Gemini.generate_gemini_attack_plan Samples.replying_world
      Samples.empty_profile 3.
Proof.
  apply (generate_calls_bounded Samples.replying_world Samples.three_replies).
  right. right. right. intros call prompt Hcall.
  unfold Samples.three_replies.
  destruct (Nat.leb_spec call 2) as [_|Hgt]; [reflexivity|].
  unfold Gemini.max_retries in Hcall. lia.
Defined.

(** ** The legacy normalizers *)

Section LegacyFacts.
Import PyStr Gemini.

Lemma is_space_lower c : is_space (lower_char c) = is_space c.
Proof. by destruct c as [[] [] [] [] [] [] [] []]. Qed.

Lemma lower_char_idemp c : lower_char (lower_char c) = lower_char c.
Proof. by destruct c as [[] [] [] [] [] [] [] []]. Qed.

Lemma drop_while_space_lower l :
  drop_while is_space (map lower_char l)
  = map lower_char (drop_while is_space l).
Proof.
  induction l as [|c l IH]; [done|]. simpl. rewrite is_space_lower.
  by destruct (is_space c).
Qed.

Lemma rstrip_lower l : rstrip (map lower_char l) = map lower_char (rstrip l).
Proof.
  induction l as [|c l IH]; [done|].
  cbn [map]. rewrite !rstrip_cons, IH, is_space_lower.
  destruct (rstrip l); simpl; [by destruct (is_space c) | done].
Qed.

Lemma strip_lower s : strip (lower s) = lower (strip s).
Proof.
  unfold strip, lower. rewrite !chars_str. f_equal.
  unfold strip_chars, lstrip. by rewrite drop_while_space_lower, rstrip_lower.
Qed.

Lemma lower_idemp s : lower (lower s) = lower s.
Proof.
  unfold lower. rewrite chars_str. f_equal. rewrite map_map.
  apply map_ext. intros c. apply lower_char_idemp.
Qed.

Lemma strip_idemp s : strip (strip s) = strip s.
Proof. unfold strip. rewrite chars_str. f_equal. apply strip_chars_idemp. Qed.

Lemma normalise_severity_str s :
  _normalise_severity (Some (Py.JStr s))
  = if mem (lower (strip s)) _ALLOWED_SEVERITIES then lower (strip s)
    else "high".
Proof. reflexivity. Qed.

(** X12. The legacy [_normalise_severity] always answers with one of the
    four allowed severities, high for anything that is not a string; for a
    string the answer depends only on the text once trimmed and lowered, so
    letter case and surrounding white space do not matter, and normalizing
    an answer again gives it back. *)
Theorem normalise_severity_spec (value : option Py.json) :
  _normalise_severity value ∈ _ALLOWED_SEVERITIES /\
  ((forall s, value <> Some (Py.JStr s)) ->
   _normalise_severity value = "high") /\
  _normalise_severity (Some (Py.JStr (_normalise_severity value)))
  = _normalise_severity value /\
  (forall s,
      value = Some (Py.JStr s) ->
      _normalise_severity (Some (Py.JStr (lower s)))
      = _normalise_severity value /\
      _normalise_severity (Some (Py.JStr (strip s)))
      = _normalise_severity value).
Proof.
  assert (Hin : _normalise_severity value ∈ _ALLOWED_SEVERITIES).
  { destruct value as [[| | |s| |]|];
      try (unfold _ALLOWED_SEVERITIES; simpl; set_solver).
    rewrite normalise_severity_str.
    destruct (mem _ _ALLOWED_SEVERITIES) eqn:E; [by apply mem_elem_of|].
    unfold _ALLOWED_SEVERITIES. set_solver. }
  split_and!.
  - done.
  - intros Hns. destruct value as [[| | |s| |]|]; try done.
    by destruct (Hns s).
  - unfold _ALLOWED_SEVERITIES in Hin.
    repeat (apply elem_of_cons in Hin as [-> | Hin]; [reflexivity|]).
    by apply elem_of_nil in Hin.
  - intros s ->. rewrite !normalise_severity_str.
    by rewrite strip_lower, lower_idemp, strip_idemp.
Qed.

Section TechniqueFacts.
Variable upper : string -> string.

(** X13. The legacy [_normalise_technique_id] always answers with a
    text that starts with T: T0000 for a value that is not a string or is
    blank, and otherwise the trimmed, upper-cased text, with a T put in
    front only when it does not start with one. *)
Theorem normalise_technique_id_prefix (value : option Py.json) :
  startswith (_normalise_technique_id upper value) "T" = true /\
  ((forall s, value = Some (Py.JStr s) -> strip s = "") ->
   _normalise_technique_id upper value = "T0000") /\
  (forall s,
      value = Some (Py.JStr s) -> strip s <> "" ->
      _normalise_technique_id upper value = upper (strip s)
      \/ _normalise_technique_id upper value = "T" +:+ upper (strip s)
         /\ startswith (upper (strip s)) "T" = false).
Proof.
  split_and!.
  - destruct value as [[| | |s| |]|]; try reflexivity. simpl.
    destruct (strip s) as [|c r] eqn:E; [reflexivity|].
    destruct (startswith (upper (String c r)) "T") eqn:Hs; [done|].
    reflexivity.
  - intros Hblank. destruct value as [[| | |s| |]|]; try reflexivity.
    simpl. by rewrite (Hblank s eq_refl).
  - intros s -> Hne. simpl.
    destruct (strip s) as [|c r] eqn:E; [done|].
    destruct (startswith (upper (String c r)) "T") eqn:Hs; auto.
Qed.
End TechniqueFacts.

End LegacyFacts.

(** ** More on the manifest *)

Section ManifestMore.
Import PyStr RepoFetcher.
Variable scan : list ascii -> string -> findings.

Lemma scan_tree_spec tree :
  match scan_tree scan tree with
  | Some fs => Forall2 (describes scan) fs (filter (fun p => is_file p = true) tree)
  | None => exists p, p ∈ tree /\ is_file p = true /\ st_size p = None
  end.
Proof.
  induction tree as [|p tree IH]; [constructor|].
  cbn [scan_tree]. rewrite filter_cons.
  destruct (is_file p) eqn:Hf.
  - destruct (decide (true = true)); [|done].
    destruct (st_size p) as [sz|] eqn:Hsz; csimpl.
    2:{ exists p. split; [left | done]. }
    destruct (_assess_risk scan p (rel_path p) DEFAULT_MAX_SIZE_KB)
      as [level reasons] eqn:Ha.
    destruct (scan_tree scan tree) as [fs|]; csimpl.
    + constructor; [|done]. unfold describes. simpl. by rewrite Ha.
    + destruct IH as (q & Hq & ?). exists q. split; [by right | done].
  - destruct (decide (false = true)); [done|].
    destruct (scan_tree scan tree) as [fs|]; [done|].
    destruct IH as (q & Hq & ?). exists q. split; [by right | done].
Qed.

(** X14. [_build_manifest] fails exactly when the size of some regular
    file cannot be read. Otherwise the manifest lists the regular files of
    the tree, in tree order and nothing else (directories are passed over):
    each entry has the file's relative path, size, lowered suffix and the
    level and reasons [_assess_risk] gives it, and [file_count] is the
    number of regular files. *)
Theorem build_manifest_lists_files
    (repo_id repo_url owner name now : string) (tree : list PathInfo) :
  match _build_manifest scan repo_id repo_url owner name now tree with
  | Some m =>
      Forall2 (describes scan) (files m) (filter (fun p => is_file p = true) tree) /\
      file_count m = length (filter (fun p => is_file p = true) tree) /\
      RepoFetcher.repo_id m = repo_id /\
      fetched_at m = now +:+ "Z"
  | None => exists p, p ∈ tree /\ is_file p = true /\ st_size p = None
  end.
Proof.
  unfold _build_manifest. pose proof (scan_tree_spec tree) as H.
  destruct (scan_tree scan tree) as [fs|]; csimpl; [|done].
  split_and!; try done. by apply Forall2_length in H.
Qed.

Lemma count_leb_total (a b : nat) :
  (b <=? a)%nat = true \/ (a <=? b)%nat = true.
Proof. rewrite !Nat.leb_le. lia. Qed.

Lemma count_leb_trans (a b c : nat) :
  (b <=? a)%nat = true -> (c <=? b)%nat = true -> (c <=? a)%nat = true.
Proof. rewrite !Nat.leb_le. lia. Qed.

Lemma Counter_elem_of xs e n :
  (e, n) ∈ Py.Counter xs <->
  n = length (filter (fun x => x = e) xs) /\ 0 < n.
Proof.
  split.
  - intros H%elem_of_assoc; [|apply NoDup_Counter].
    rewrite assoc_Counter in H. destruct (length _); [done|].
    injection H as <-. lia.
  - intros [-> Hpos]. apply assoc_elem_of. rewrite assoc_Counter.
    destruct (length _); [lia | done].
Qed.

Lemma extension_count (fs : list FileEntry) e :
  e <> "" ->
  length (filter (fun x => x = e)
                 (List.filter (fun x => negb (String.eqb x ""))
                              (extension <$> fs)))
  = length (filter (fun f => extension f = e) fs).
Proof.
  intros He. induction fs as [|f fs IH]; [done|].
  rewrite fmap_cons. cbn [List.filter]. rewrite (filter_cons _ f).
  destruct (String.eqb_spec (extension f) "") as [E|E]; cbn [negb].
  - destruct (decide (extension f = e)); [congruence | done].
  - rewrite filter_cons.
    destruct (decide (extension f = e)); simpl; by rewrite IH.
Qed.

(** X15. The manifest's [top_extensions]: at most five entries with
    distinct, non-empty extensions, each with the number of files that have
    the extension, ordered by decreasing count; no extension left out has
    more files than a listed one. *)
Theorem top_extensions_spec
    (repo_id repo_url owner name now : string) (tree : list PathInfo)
    (m : Manifest) :
  _build_manifest scan repo_id repo_url owner name now tree = Some m ->
  let count_of e := length (filter (fun f => extension f = e) (files m)) in
  length (top_extensions m) <= 5 /\
  NoDup (ext <$> top_extensions m) /\
  Forall (fun t => ext t <> "" /\ count t = count_of (ext t) /\ 0 < count t)
         (top_extensions m) /\
  StronglySorted (fun a b => count b <= count a) (top_extensions m) /\
  (forall e t,
      e <> "" -> e ∉ ext <$> top_extensions m -> t ∈ top_extensions m ->
      count_of e <= count t).
Proof.
  unfold _build_manifest. destruct (scan_tree scan tree) as [fs|];
    [|discriminate]. csimpl. intros [= <-]. cbn [top_extensions files].
  set (xs := List.filter (fun e => negb (String.eqb e "")) (extension <$> fs)).
  set (leb := fun a b : string * nat => (b.2 <=? a.2)%nat).
  set (srt := PySort.sorted leb (Py.Counter xs)).
  unfold most_common. fold leb. fold srt.
  set (mk := fun ec : string * nat => {| ext := ec.1; count := ec.2 |}).
  assert (Hperm : srt ≡ₚ Py.Counter xs)
    by apply (sorted_perm (A:=string * nat) snd (fun a b => (b <=? a)%nat)).
  assert (Hsorted : StronglySorted (fun a b => leb a b = true) srt)
    by apply (sorted_sorted (A:=string * nat) snd (fun a b => (b <=? a)%nat)
                count_leb_total count_leb_trans).
  assert (Hitem : forall e n, (e, n) ∈ srt ->
                              e <> "" /\
                              n = length (filter (fun f => extension f = e) fs)
                              /\ 0 < n).
  { intros e n Hin. rewrite Hperm in Hin.
    apply Counter_elem_of in Hin as [-> Hpos].
    assert (e <> "") as He.
    { apply filter_length_pos in Hpos as (x & Hx & ->).
      unfold xs in Hx. apply list_elem_of_In, filter_In in Hx as [_ Hx].
      apply negb_true_iff, String.eqb_neq in Hx. done. }
    split; [done|]. split; [|done]. by apply extension_count. }
  assert (Hext : ext <$> (mk <$> take 5 srt) = (take 5 srt).*1).
  { rewrite <- list_fmap_compose. done. }
  split_and!.
  - rewrite length_fmap, length_take. lia.
  - rewrite Hext. eapply sublist_NoDup;
      [|apply fmap_sublist, sublist_take].
    rewrite Hperm. apply NoDup_Counter.
  - apply Forall_fmap, Forall_forall. intros [e n] Hin%subseteq_take.
    simpl. by apply Hitem.
  - apply (StronglySorted_fmap mk (fun a b => leb a b = true)).
    + intros [e1 n1] [e2 n2]. unfold leb. simpl. by rewrite Nat.leb_le.
    + rewrite <- (take_drop 5 srt) in Hsorted.
      by apply StronglySorted_app_1_l in Hsorted.
  - intros e t He Hout Ht.
    apply list_elem_of_fmap in Ht as ([e' n'] & -> & Hin'). simpl.
    destruct (length (filter (fun f => extension f = e) fs)) as [|k] eqn:Hk;
      [lia|]. rewrite <- Hk.
    assert ((e, S k) ∈ srt) as Hin.
    { rewrite Hperm. apply Counter_elem_of. split; [|lia].
      rewrite <- Hk. symmetry. by apply extension_count. }
    rewrite <- (take_drop 5 srt) in Hin, Hsorted.
    apply elem_of_app in Hin as [Hin|Hin].
    + destruct Hout. rewrite Hext. apply list_elem_of_fmap.
      by exists (e, S k).
    + pose proof (StronglySorted_app_1_elem_of _ _ _ _ _ Hsorted Hin' Hin)
        as Hle.
      unfold leb in Hle. cbn [snd] in Hle. apply Nat.leb_le in Hle. lia.
Qed.

End ManifestMore.

Lemma top_extensions_spec_witness :
  exists m,
    RepoFetcher._build_manifest Samples.toy_scan "demo"
      "https://github.com/acme/demo" "acme" "demo" "2025-01-01T00:00:00"
      Samples.tree = Some m /\
    length (RepoFetcher.top_extensions m) <= 5 /\
    NoDup (RepoFetcher.ext <$> RepoFetcher.top_extensions m).
Proof.
  destruct (RepoFetcher._build_manifest Samples.toy_scan "demo"
              "https://github.com/acme/demo" "acme" "demo"
              "2025-01-01T00:00:00" Samples.tree) as [m|] eqn:E;
    [|vm_compute in E; discriminate].
  exists m. split; [reflexivity|].
  destruct (top_extensions_spec Samples.toy_scan _ _ _ _ _ _ m E)
    as (H1 & H2 & _).
  by split.
Defined.

(** ** More on the selector and on risk reasons *)

Section SelectorMore.
Import PyStr RepoFetcher.

(** X16. How many entries [select_high_risk_files] returns, and which:
    with n files and a limit that is not negative it returns min(limit, n)
    of them, with a negative limit it drops the last -limit entries of the
    ranking (n + limit entries, none when that is below zero); what it
    returns is always a part of the ranking, so every returned entry is an
    entry of the manifest and none is returned more often than it is listed;
    with a limit of n or more everything is returned. *)
Theorem select_high_risk_files_size (m : Manifest) (limit : Z) :
  let n := length (files m) in
  let res := select_high_risk_files m limit in
  Z.of_nat (length res)
  = (if (0 <=? limit)%Z then Z.min limit (Z.of_nat n)
     else Z.max 0 (Z.of_nat n + limit)) /\
  res `sublist_of` PySort.sorted score_leb (files m) /\
  (forall f, f ∈ res -> f ∈ files m) /\
  ((Z.of_nat n <= limit)%Z -> res ≡ₚ files m).
Proof.
  intros n res. subst n res. unfold select_high_risk_files, PySort.slice_to.
  pose proof (sorted_perm priority_score tuple_leb (files m)) as Hperm.
  change (PySort.sorted (fun x y => tuple_leb (priority_score x)
                                              (priority_score y)))
    with (PySort.sorted score_leb) in Hperm.
  assert (Hlen : length (PySort.sorted score_leb (files m))
                 = length (files m)) by (by rewrite Hperm).
  destruct (Z.leb_spec 0 limit) as [Hl|Hl].
  - split_and!.
    + rewrite length_take, Hlen. lia.
    + apply sublist_take.
    + intros f Hf%subseteq_take. by rewrite <- Hperm.
    + intros Hall. rewrite take_ge by (rewrite Hlen; lia). done.
  - split_and!.
    + rewrite length_take, Hlen. lia.
    + apply sublist_take.
    + intros f Hf%subseteq_take. by rewrite <- Hperm.
    + lia.
Qed.

Variable scan : list ascii -> string -> findings.

(** X17. The reasons of a critical file: when the content scan of a
    readable code file under the size ceiling reports classes,
    [_assess_risk] answers critical with the heuristics' reasons first and
    then one "CRITICAL: ... detected" reason per reported class, in the
    scan's order. *)
Theorem assess_risk_critical_reasons
    (p : PathInfo) (rel : string) (max : Z) (sz : Z) (content : list ascii) :
  mem (lower (suffix p)) code_extensions = true ->
  st_size p = Some sz -> (sz < max * 1024)%Z ->
  read_bytes p = Some content ->
  scan content (lower (suffix p)) <> [] ->
  _assess_risk scan p rel max
  = ("critical",
     heuristics p rel
     ++ (critical_reason <$> (scan content (lower (suffix p))).*1)).
Proof.
  intros Hext Hsz Hlt Hread Hscan. rewrite assess_risk_unfold. cbv zeta.
  unfold content_analysis. rewrite Hext, Hsz, Hread.
  destruct (Z.ltb_spec sz (max * 1024)); [|lia].
  rewrite (critical_fold critical_reason). cbn [fst snd].
  destruct (scan content (lower (suffix p))) as [|kv l]; [done|]. done.
Qed.

End SelectorMore.

Lemma assess_risk_critical_reasons_witness :
  RepoFetcher._assess_risk Samples.toy_scan
    {| RepoFetcher.is_file := true; RepoFetcher.rel_path := "run.sh";
       RepoFetcher.name := "run.sh"; RepoFetcher.suffix := ".sh";
       RepoFetcher.st_size := Some 12%Z;
       RepoFetcher.read_bytes := Some (PyStr.chars "echo hi") |}
    "run.sh" 500
  = ("critical", ["CRITICAL: Command Injection detected"]).
Proof.
  rewrite (assess_risk_critical_reasons Samples.toy_scan _ "run.sh" 500 12
             (PyStr.chars "echo hi")); try reflexivity. discriminate.
Defined.

(** ** More on the run orchestrator *)

Section OrchestratorMore.
Import PyStr Operations.
Variable strftime : Z -> string.

(** The three ways the pipeline ends: an error that leaves the server as
    it was, an error after the run file was opened, or a response. *)
Lemma fresh_run_cases server request env :
  (fresh_run strftime server request env = (Py.Raise' Http500, server) /\
   (generated_plan env = None \/
    persist_ok env = false /\ file_opened env = false)) \/
  ((fresh_run strftime server request env).1 = Py.Raise' Http500 /\
   persist_ok env = false /\ file_opened env = true /\
   _attack_plan_cache (fresh_run strftime server request env).2
   = _attack_plan_cache server /\
   store_calls (fresh_run strftime server request env).2
   = store_calls server /\
   simulation_files (fresh_run strftime server request env).2
   = <[req_repo_id request +:+ "_" +:+ strftime (run_time env) := Truncated]>
       (simulation_files server)) \/
  exists response,
    (fresh_run strftime server request env).1 = Py.Ok' response /\
    repo_id (run response) = req_repo_id request /\
    timestamp (run response) = run_time env /\
    run_id (run response)
    = req_repo_id request +:+ "_" +:+ strftime (run_time env) /\
    _attack_plan_cache (fresh_run strftime server request env).2
    = <[req_repo_id request :=
          {| entry_timestamp := run_time env;
             simulation_data := response |}]>
        (_attack_plan_cache server) /\
    simulation_files (fresh_run strftime server request env).2
    = <[run_id (run response) := Written (run response)]>
        (simulation_files server) /\
    exists calls,
      store_calls (fresh_run strftime server request env).2
      = store_calls server ++ calls.
Proof.
  unfold fresh_run. destruct (generated_plan env) as [plan|]; [|left; eauto].
  destruct (persist_ok env).
  - right. right. eexists. split; [reflexivity|].
    split_and!; try reflexivity. eexists. reflexivity.
  - destruct (file_opened env); [|left; eauto].
    right. left. split_and!; reflexivity.
Qed.

Lemma simulate_attack_cases server request env :
  let out := simulate_attack strftime server request env in
  (valid_repo_id (req_repo_id request) = false
   /\ out = (Py.Raise' Http400, server)) \/
  (valid_repo_id (req_repo_id request) = true /\
   exists entry,
     _attack_plan_cache server !! req_repo_id request = Some entry /\
     out = (Py.Ok' (simulation_data entry), server)) \/
  (valid_repo_id (req_repo_id request) = true /\
   out = fresh_run strftime server request env).
Proof.
  unfold simulate_attack.
  destruct (valid_repo_id (req_repo_id request)); cbn [negb]; [|by left].
  right.
  destruct (_attack_plan_cache server !! req_repo_id request) as [entry|];
    [|by right].
  destruct (negb (force request)); [|by right].
  destruct (_ <? _)%Z; [left; eauto | by right].
Qed.

(** X18. What a failed request leaves behind. When [simulate_attack]
    raises, the cache and the store calls are as before, and so is every run
    file except the one of the run that was being written (repository id,
    underscore, time stamp): that file is as before too, unless the write
    itself failed after the file was opened, which leaves it truncated, also
    when it held an earlier run. The error is 400 exactly when the
    repository id is malformed, and otherwise 500; after a 400, and after
    any failure with a disk that takes the write, the whole state is as
    before. *)
Theorem simulate_attack_failure_state
    (server : Server) (request : SimulateAttackRequest) (env : Environment)
    (e : HTTPException) :
  (simulate_attack strftime server request env).1 = Py.Raise' e ->
  let after := (simulate_attack strftime server request env).2 in
  let attempted := req_repo_id request +:+ "_" +:+ strftime (run_time env) in
  _attack_plan_cache after = _attack_plan_cache server /\
  store_calls after = store_calls server /\
  (forall id,
      id <> attempted ->
      simulation_files after !! id = simulation_files server !! id) /\
  (simulation_files after = simulation_files server \/
   e = Http500 /\ persist_ok env = false /\ file_opened env = true /\
   simulation_files after
   = <[attempted := Truncated]> (simulation_files server)) /\
  (e = Http400 <-> valid_repo_id (req_repo_id request) = false) /\
  (e = Http400 \/ persist_ok env = true -> after = server).
Proof.
  intros Hraise after attempted. subst after attempted. revert Hraise.
  assert (Hsame : forall o : Py.result' HTTPException Response,
             (e = Http400 <-> valid_repo_id (req_repo_id request) = false) ->
             _attack_plan_cache (o, server).2 = _attack_plan_cache server /\
             store_calls (o, server).2 = store_calls server /\
             (forall id,
                 id <> req_repo_id request +:+ "_" +:+ strftime (run_time env) ->
                 simulation_files (o, server).2 !! id
                 = simulation_files server !! id) /\
             (simulation_files (o, server).2 = simulation_files server \/
              e = Http500 /\ persist_ok env = false /\
              file_opened env = true /\
              simulation_files (o, server).2
              = <[req_repo_id request +:+ "_" +:+ strftime (run_time env)
                  := Truncated]> (simulation_files server)) /\
             (e = Http400 <-> valid_repo_id (req_repo_id request) = false) /\
             (e = Http400 \/ persist_ok env = true -> (o, server).2 = server)).
  { intros o He. simpl. split_and!; auto. }
  destruct (simulate_attack_cases server request env)
    as [[Hv ->]|[(Hv & entry & _ & ->)|[Hv ->]]].
  - intros [= <-]. by apply Hsame.
  - discriminate.
  - destruct (fresh_run_cases server request env)
      as [[-> _]|[(Hr & Hp & Ho & Hc & Hs & Hf)|(response & Hr & _)]].
    + intros [= <-]. apply Hsame. split; [done | congruence].
    + rewrite Hr, Hc, Hs, Hf. intros [= <-]. split_and!; [done | done | | | |].
      * intros id Hid. by rewrite lookup_insert_ne.
      * by right.
      * split; [done | congruence].
      * intros [?|?]; [done | congruence].
    + rewrite Hr. discriminate.
Qed.

(** X19. What a request can touch. The cache entries of other
    repositories stay as they are, calls to the store are only added, and
    every run file keeps its content except the one named by the repository
    id, an underscore and the time stamp of this run. That one file is as
    before, or holds the run of the response, or is left truncated by a
    write that failed, in which case the response is a 500. No run file is
    deleted. *)
Theorem simulate_attack_frame
    (server : Server) (request : SimulateAttackRequest) (env : Environment) :
  let out := simulate_attack strftime server request env in
  let attempted := req_repo_id request +:+ "_" +:+ strftime (run_time env) in
  (forall key,
      key <> req_repo_id request ->
      _attack_plan_cache out.2 !! key = _attack_plan_cache server !! key) /\
  (exists calls, store_calls out.2 = store_calls server ++ calls) /\
  (forall id,
      id <> attempted ->
      simulation_files out.2 !! id = simulation_files server !! id) /\
  (simulation_files out.2 !! attempted
   = simulation_files server !! attempted \/
   (exists response,
       out.1 = Py.Ok' response /\ run_id (run response) = attempted /\
       simulation_files out.2 !! attempted = Some (Written (run response))) \/
   (out.1 = Py.Raise' Http500 /\
    simulation_files out.2 !! attempted = Some Truncated)) /\
  (forall id,
      is_Some (simulation_files server !! id) ->
      is_Some (simulation_files out.2 !! id)).
Proof.
  intros out attempted. subst out attempted.
  set (attempted := req_repo_id request +:+ "_" +:+ strftime (run_time env)).
  assert (Hsame : forall o : Py.result' HTTPException Response,
             (forall key,
                 key <> req_repo_id request ->
                 _attack_plan_cache (o, server).2 !! key
                 = _attack_plan_cache server !! key) /\
             (exists calls,
                 store_calls (o, server).2 = store_calls server ++ calls) /\
             (forall id,
                 id <> attempted ->
                 simulation_files (o, server).2 !! id
                 = simulation_files server !! id) /\
             (simulation_files (o, server).2 !! attempted
              = simulation_files server !! attempted \/
              (exists response,
                  (o, server).1 = Py.Ok' response /\
                  run_id (run response) = attempted /\
                  simulation_files (o, server).2 !! attempted
                  = Some (Written (run response))) \/
              ((o, server).1 = Py.Raise' Http500 /\
               simulation_files (o, server).2 !! attempted
               = Some Truncated)) /\
             (forall id,
                 is_Some (simulation_files server !! id) ->
                 is_Some (simulation_files (o, server).2 !! id))).
  { intros o. simpl.
    split_and!; [done | exists []; by rewrite app_nil_r | done | by left
                | done]. }
  assert (Hkept : forall (v : RunFile) id,
             is_Some (simulation_files server !! id) ->
             is_Some (<[attempted := v]> (simulation_files server) !! id)).
  { intros v id Hid. destruct (decide (id = attempted)) as [->|Hne].
    - rewrite lookup_insert_eq. eauto.
    - by rewrite lookup_insert_ne. }
  destruct (simulate_attack_cases server request env)
    as [[Hv ->]|[(Hv & entry & _ & ->)|[Hv ->]]]; [apply Hsame..|].
  destruct (fresh_run_cases server request env)
    as [[-> _]|[(Hr & _ & _ & Hc & Hs & Hf)
               |(response & Hr & _ & _ & Hid & Hc & Hf & calls & Hs)]];
    [apply Hsame| |].
  - fold attempted in Hf. rewrite Hc, Hs, Hf, Hr. split_and!.
    + done.
    + exists []. by rewrite app_nil_r.
    + intros id Hne. by rewrite lookup_insert_ne.
    + right. right. by rewrite lookup_insert_eq.
    + apply Hkept.
  - fold attempted in Hid. rewrite Hid in Hf. rewrite Hc, Hf, Hs, Hr.
    split_and!.
    + intros key Hkey. by rewrite lookup_insert_ne.
    + by exists calls.
    + intros id Hne. by rewrite lookup_insert_ne.
    + right. left. exists response. by rewrite lookup_insert_eq.
    + apply Hkept.
Qed.

(** X20. The cache keeps its entries consistent: if every entry is filed
    under a well-formed repository id, holds a run of that repository and
    carries that run's time, the same is true after any request; and then a
    successful request, served from the cache or not, answers with a run of
    the repository that was asked for. *)
Theorem simulate_attack_cache_consistent
    (server : Server) (request : SimulateAttackRequest) (env : Environment) :
  cache_consistent (_attack_plan_cache server) ->
  let out := simulate_attack strftime server request env in
  cache_consistent (_attack_plan_cache out.2) /\
  (forall response,
      out.1 = Py.Ok' response ->
      repo_id (run response) = req_repo_id request).
Proof.
  intros Hinv out. subst out.
  destruct (simulate_attack_cases server request env)
    as [[Hv ->]|[(Hv & entry & Hentry & ->)|[Hv ->]]]; simpl.
  - split; [done | discriminate].
  - split; [done|]. intros response [= <-].
    by destruct (Hinv _ _ Hentry) as (_ & ? & _).
  - destruct (fresh_run_cases server request env)
      as [[-> _]|[(Hr & _ & _ & Hc & _)
                 |(response & Hr & Hid & Hts & _ & Hc & _)]]; simpl.
    + split; [done | discriminate].
    + rewrite Hc, Hr. split; [done | discriminate].
    + rewrite Hc, Hr. split.
      * intros key entry.
        destruct (decide (key = req_repo_id request)) as [->|Hne].
        -- rewrite lookup_insert_eq. intros [= <-]. simpl. done.
        -- rewrite lookup_insert_ne by done. apply Hinv.
      * by intros response' [= <-].
Qed.

End OrchestratorMore.

Lemma simulate_attack_failure_state_witness :
  Operations._attack_plan_cache
    (Operations.simulate_attack Samples.stamp Samples.server_after_first_run
       (Samples.demo_request true) (Samples.failing_disk_at 0)).2
  = Operations._attack_plan_cache Samples.server_after_first_run /\
  Operations.simulation_files
    (Operations.simulate_attack Samples.stamp Samples.server_after_first_run
       (Samples.demo_request true) (Samples.failing_disk_at 0)).2
  !! "demo_19700101T000000000000"
  = Some Operations.Truncated.
Proof.
  destruct (simulate_attack_failure_state Samples.stamp
              Samples.server_after_first_run (Samples.demo_request true)
              (Samples.failing_disk_at 0) Operations.Http500 eq_refl)
    as (Hcache & _ & _ & Hfiles & _).
  split; [exact Hcache|].
  destruct Hfiles as [Hfiles|(_ & _ & _ & Hfiles)].
  - reflexivity.
  - reflexivity.
Defined.

Lemma simulate_attack_cache_consistent_witness :
  Operations.cache_consistent
    (Operations._attack_plan_cache Samples.server_after_first_run).
Proof.
  apply (simulate_attack_cache_consistent Samples.stamp Samples.empty_server
           (Samples.demo_request false) (Samples.world_at 0)).
  intros key entry H. cbn in H. rewrite lookup_empty in H. discriminate.
Defined.

Section RunIdFacts.
Import PyStr Operations.
Variable strftime : Z -> string.

Lemma prefix_b_app p l : prefix_b p l = true -> exists r, l = p ++ r.
Proof.
  revert l. induction p as [|a p IH]; intros l; [by exists l|].
  destruct l as [|b l]; [done|]. simpl.
  intros [Hab Hp]%andb_true_iff. apply Ascii.eqb_eq in Hab as ->.
  destruct (IH l Hp) as [r ->]. by exists r.
Qed.

Lemma infix_b_elem p l x : infix_b p l = true -> x ∈ p -> x ∈ l.
Proof.
  induction l as [|c l IH]; simpl.
  - rewrite orb_false_r. intros [r E]%prefix_b_app Hx.
    destruct p; [by apply elem_of_nil in Hx | discriminate].
  - intros [[r ->]%prefix_b_app | Hl]%orb_true_iff Hx.
    + apply elem_of_app. by left.
    + right. by apply IH.
Qed.

(** X21. A repository id that passes validation is not empty and is made
    of letters, digits, underscores and hyphens only, so no text with any
    other character occurs in it; in particular it contains no slash, no
    dot and no blank. *)
Theorem valid_repo_id_alphabet (repo_id : string) :
  valid_repo_id repo_id = true ->
  repo_id <> "" /\
  (forall part,
      contains repo_id part = true ->
      Forall (fun c => is_repo_id_char c = true) (chars part)) /\
  contains repo_id "/" = false /\
  contains repo_id "." = false /\
  contains repo_id " " = false.
Proof.
  unfold valid_repo_id. intros Hv.
  assert (Hne : repo_id <> "") by (by destruct repo_id).
  assert (Hall : Forall (fun c => is_repo_id_char c = true) (chars repo_id)).
  { destruct (chars repo_id) as [|c l] eqn:E; [done|].
    apply Forall_forall. intros x Hx. apply list_elem_of_In in Hx.
    revert x Hx. by apply forallb_forall. }
  assert (Hpart : forall part,
             contains repo_id part = true ->
             Forall (fun c => is_repo_id_char c = true) (chars part)).
  { intros part Hc. apply Forall_forall. intros x Hx.
    rewrite Forall_forall in Hall. apply Hall.
    by apply (infix_b_elem (chars part)). }
  split_and!; [done | done | | |].
  all: match goal with
       | |- contains _ ?p = false =>
           destruct (contains repo_id p) eqn:E; [|done];
           apply Hpart in E; apply Forall_cons in E as [E _];
           vm_compute in E; discriminate
       end.
Qed.

Lemma append_inj_r s a b : s +:+ a = s +:+ b -> a = b.
Proof.
  intros H%(f_equal chars). rewrite !chars_append in H.
  apply app_inv_head in H. by apply chars_inj.
Qed.

(** X22. Two forced runs for one repository: when the two runs get
    different time stamps, their run ids differ and both run files are there
    afterwards; when the stamps are equal, the run ids are equal and the
    second run's file has replaced the first. *)
Theorem forced_runs_files
    (server : Server) (request : SimulateAttackRequest)
    (env1 env2 : Environment) (r1 r2 : Response) :
  valid_repo_id (req_repo_id request) = true ->
  force request = true ->
  (simulate_attack strftime server request env1).1 = Py.Ok' r1 ->
  (simulate_attack strftime
     (simulate_attack strftime server request env1).2 request env2).1
  = Py.Ok' r2 ->
  let files :=
    simulation_files
      (simulate_attack strftime
         (simulate_attack strftime server request env1).2 request env2).2 in
  files !! run_id (run r2) = Some (Written (run r2)) /\
  (strftime (run_time env1) <> strftime (run_time env2) ->
   run_id (run r1) <> run_id (run r2) /\
   files !! run_id (run r1) = Some (Written (run r1))) /\
  (strftime (run_time env1) = strftime (run_time env2) ->
   run_id (run r1) = run_id (run r2)).
Proof.
  intros Hv Hforce.
  assert (Hfresh : forall s e,
             simulate_attack strftime s request e
             = fresh_run strftime s request e).
  { intros s e. unfold simulate_attack. rewrite Hv, Hforce. cbn [negb].
    by destruct (_attack_plan_cache s !! req_repo_id request). }
  rewrite !Hfresh. intros H1 H2 files. subst files.
  destruct (fresh_run_cases strftime server request env1)
    as [[E _]|[[E _]|(r1' & Hr1 & _ & _ & Hid1 & _ & Hf1 & _)]];
    [rewrite E in H1; discriminate..|].
  rewrite H1 in Hr1. injection Hr1 as <-.
  destruct (fresh_run_cases strftime
              (fresh_run strftime server request env1).2 request env2)
    as [[E _]|[[E _]|(r2' & Hr2 & _ & _ & Hid2 & _ & Hf2 & _)]];
    [rewrite E in H2; discriminate..|].
  rewrite H2 in Hr2. injection Hr2 as <-.
  rewrite Hf2, Hf1. split_and!.
  - by rewrite lookup_insert_eq.
  - intros Hne.
    assert (run_id (run r1) <> run_id (run r2)) as Hids.
    { rewrite Hid1, Hid2. intros E%append_inj_r%append_inj_r. done. }
    split; [done|].
    rewrite lookup_insert_ne by done. by rewrite lookup_insert_eq.
  - intros Heq. by rewrite Hid1, Hid2, Heq.
Qed.

End RunIdFacts.

Lemma valid_repo_id_alphabet_witness :
  "demo-repo_1" <> "" /\ PyStr.contains "demo-repo_1" "/" = false.
Proof.
  destruct (valid_repo_id_alphabet "demo-repo_1" eq_refl) as (H1 & _ & H2 & _).
  by split.
Defined.

Lemma forced_runs_files_witness :
  exists r1 r2,
    (Operations.simulate_attack Samples.stamp Samples.empty_server
       (Samples.demo_request true) (Samples.world_at 0)).1 = Py.Ok' r1 /\
    (Operations.simulate_attack Samples.stamp
       (Operations.simulate_attack Samples.stamp Samples.empty_server
          (Samples.demo_request true) (Samples.world_at 0)).2
       (Samples.demo_request true) (Samples.world_at 601)).1 = Py.Ok' r2 /\
    Operations.run_id (Operations.run r1)
    <> Operations.run_id (Operations.run r2).
Proof.
  destruct ((Operations.simulate_attack Samples.stamp Samples.empty_server
               (Samples.demo_request true) (Samples.world_at 0)).1)
    as [r1|e1] eqn:E1; [|vm_compute in E1; discriminate].
  destruct ((Operations.simulate_attack Samples.stamp
               (Operations.simulate_attack Samples.stamp Samples.empty_server
                  (Samples.demo_request true) (Samples.world_at 0)).2
               (Samples.demo_request true) (Samples.world_at 601)).1)
    as [r2|e2] eqn:E2; [|vm_compute in E2; discriminate].
  exists r1, r2. split; [reflexivity|]. split; [reflexivity|].
  destruct (forced_runs_files Samples.stamp Samples.empty_server
              (Samples.demo_request true) (Samples.world_at 0)
              (Samples.world_at 601) r1 r2 eq_refl eq_refl E1 E2)
    as (_ & Hd & _).
  apply Hd. vm_compute. discriminate.
Defined.

(** ** The latest run *)

Section LatestFacts.
Import PyStr Operations.

Lemma stamp_leb_total (a b : Z) :
  (b <=? a)%Z = true \/ (a <=? b)%Z = true.
Proof. rewrite !Z.leb_le. lia. Qed.

Lemma stamp_leb_trans (a b c : Z) :
  (b <=? a)%Z = true -> (c <=? b)%Z = true -> (c <=? a)%Z = true.
Proof. rewrite !Z.leb_le. lia. Qed.

Lemma filter_head_split {A} (P : A -> Prop) `{forall x, Decision (P x)}
      (l : list A) h r :
  filter P l = h :: r ->
  exists l1 l2, l = l1 ++ h :: l2 /\ Forall (fun x => ~ P x) l1.
Proof.
  induction l as [|x l IH]; [done|]. rewrite filter_cons.
  destruct (decide (P x)) as [Hx|Hx].
  - intros [= -> _]. by exists [], l.
  - intros (l1 & l2 & -> & Hl1)%IH. exists (x :: l1), l2.
    split; [done | by constructor].
Qed.

(** X23. Which run the latest-report endpoint picks: none (a 404) when
    the repository has no stored run, otherwise a run with the greatest
    timestamp, and among several with that timestamp the one listed
    first. *)
Theorem latest_summary_spec (summaries : list SimulationSummary) :
  match latest_summary summaries with
  | Py.Raise' _ => summaries = []
  | Py.Ok' latest =>
      (exists before after,
          summaries = before ++ latest :: after /\
          Forall (fun s => (summary_timestamp s < summary_timestamp latest)%Z)
                 before /\
          Forall (fun s => (summary_timestamp s <= summary_timestamp latest)%Z)
                 after)
  end.
Proof.
  destruct (decide (summaries = [])) as [->|Hne]; [done|].
  set (leb := fun a b : SimulationSummary =>
                (summary_timestamp b <=? summary_timestamp a)%Z).
  assert (latest_summary summaries
          = match PySort.sorted leb summaries with
            | latest :: _ => Py.Ok' latest
            | [] => Py.Raise' Http404
            end) as -> by (by destruct summaries).
  pose proof (sorted_perm summary_timestamp (fun a b => (b <=? a)%Z)
                summaries) as Hperm.
  pose proof (sorted_sorted summary_timestamp (fun a b => (b <=? a)%Z)
                stamp_leb_total stamp_leb_trans summaries) as Hsorted.
  pose proof (sorted_stable summary_timestamp (fun a b => (b <=? a)%Z)
                stamp_leb_total) as Hstable.
  cbv beta in Hperm, Hsorted, Hstable. fold leb in Hperm, Hsorted, Hstable.
  destruct (PySort.sorted leb summaries) as [|h t] eqn:Eh.
  - by apply Permutation_nil_l in Hperm.
  - specialize (Hstable (summary_timestamp h) summaries).
    cbv beta in Hstable. fold leb in Hstable.
    rewrite Eh in Hstable. rewrite filter_cons in Hstable.
    destruct (decide (summary_timestamp h = summary_timestamp h)); [|done].
    symmetry in Hstable.
    apply filter_head_split in Hstable as (l1 & l2 & Hl & Hl1).
    assert (Hmax : forall s, s ∈ summaries ->
                             (summary_timestamp s <= summary_timestamp h)%Z).
    { intros s Hs. rewrite <- Hperm in Hs.
      apply StronglySorted_inv in Hsorted as [_ Hall].
      rewrite Forall_forall in Hall.
      apply elem_of_cons in Hs as [->|Hs]; [lia|].
      specialize (Hall s Hs). cbv beta in Hall. apply Z.leb_le in Hall.
      done. }
    exists l1, l2. split; [done|]. split.
    + apply Forall_forall. intros s Hs.
      rewrite Forall_forall in Hl1. specialize (Hl1 s Hs).
      assert (s ∈ summaries) by (rewrite Hl; set_solver).
      specialize (Hmax s H). lia.
    + apply Forall_forall. intros s Hs. apply Hmax. rewrite Hl. set_solver.
Qed.

End LatestFacts.

(** ** GitHub URLs *)

Section GitHubUrlFacts.
Import PyStr RepoFetcher.
Variable urlparse : string -> ParseResult.

Lemma split_on_cons sep l : exists h t, split_on sep l = h :: t.
Proof.
  destruct l as [|c l]; simpl; [by eexists _, _|].
  destruct (Ascii.eqb c sep); [by eexists _, _|].
  destruct (split_on sep l); by eexists _, _.
Qed.

Lemma split_on_seps sep t :
  Forall (fun c => Ascii.eqb c sep = true) t ->
  split_on sep t = replicate (S (length t)) [].
Proof.
  induction 1 as [|c t Hc _ IH]; [done|].
  cbn [split_on]. rewrite Hc, IH. done.
Qed.

Lemma split_on_app_seps sep l t :
  Forall (fun c => Ascii.eqb c sep = true) t ->
  split_on sep (l ++ t) = split_on sep l ++ replicate (length t) [].
Proof.
  intros Ht. induction l as [|c l IH].
  - rewrite app_nil_l, split_on_seps by done. done.
  - rewrite <- app_comm_cons. cbn [split_on]. rewrite IH.
    destruct (Ascii.eqb c sep); [done|].
    destruct (split_on_cons sep l) as (h & tl & ->). done.
Qed.

Lemma filter_nonempty_replicate n :
  List.filter nonempty (replicate n []) = [].
Proof. induction n; simpl; done. Qed.

Lemma split_on_drop_seps l :
  List.filter nonempty (split_on slash (drop_while is_slash l))
  = List.filter nonempty (split_on slash l).
Proof.
  induction l as [|c l IH]; [done|].
  cbn [drop_while split_on]. unfold is_slash at 1.
  destruct (Ascii.eqb c slash) eqn:E; [|by cbn [split_on]; rewrite E].
  by rewrite IH.
Qed.

(** The slashes stripped from the two ends add no segment. *)
Lemma segments_strip l :
  List.filter nonempty (split_on slash (strip_slashes l))
  = List.filter nonempty (split_on slash l).
Proof.
  unfold strip_slashes. rewrite <- (split_on_drop_seps l).
  set (m := drop_while is_slash l).
  pose proof (take_drop_while is_slash (rev m)) as Hsplit.
  apply (f_equal (@rev ascii)) in Hsplit.
  rewrite rev_app_distr, rev_involutive in Hsplit.
  rewrite <- Hsplit at 2.
  rewrite split_on_app_seps, List.filter_app, filter_nonempty_replicate,
    app_nil_r; [done|].
  apply Forall_forall. intros c Hc. rewrite elem_of_rev in Hc.
  pose proof (take_while_all is_slash (rev m)) as Hall.
  rewrite Forall_forall in Hall. exact (Hall c Hc).
Qed.

Lemma split_on_no_sep sep l seg : seg ∈ split_on sep l -> sep ∉ seg.
Proof.
  revert seg. induction l as [|c l IH]; intros seg.
  - intros ->%list_elem_of_singleton. apply not_elem_of_nil.
  - cbn [split_on]. destruct (Ascii.eqb c sep) eqn:E.
    + intros [->|H]%elem_of_cons; [apply not_elem_of_nil | by apply IH].
    + destruct (split_on_cons sep l) as (h & tl & Hs). rewrite Hs in *.
      intros [->|H]%elem_of_cons.
      * intros [<-|Hin]%elem_of_cons; [by rewrite Ascii.eqb_refl in E|].
        revert Hin. apply IH. by left.
      * apply IH. by right.
Qed.

Lemma contains_char s (c : ascii) :
  c ∉ chars s -> contains s (String c EmptyString) = false.
Proof.
  intros Hc. unfold contains.
  destruct (infix_b _ _) eqn:E; [|done].
  exfalso. apply Hc. apply (infix_b_elem _ _ c) in E; [done|].
  cbn. by left.
Qed.

Lemma drop_git_suffix_chars s c :
  c ∈ chars (drop_git_suffix s) -> c ∈ chars s \/ c = "010"%char.
Proof.
  unfold drop_git_suffix.
  destruct (endswith s ".git").
  - rewrite chars_str. intros H%elem_of_take. destruct H as (i & H & _).
    left. by eapply list_elem_of_lookup_2.
  - destruct (endswith s (str _)); [|by left].
    rewrite chars_str.
    intros [H|H%list_elem_of_singleton]%elem_of_app; [|by right].
    apply elem_of_take in H as (i & H & _).
    left. by eapply list_elem_of_lookup_2.
Qed.

Lemma endswith_app s p :
  endswith s p = true -> exists front, chars s = front ++ chars p.
Proof.
  unfold endswith. intros [r E]%prefix_b_app.
  exists (rev r). apply (f_equal (@rev ascii)) in E.
  by rewrite rev_involutive, rev_app_distr, rev_involutive in E.
Qed.

Lemma drop_git_suffix_length s :
  length (chars (drop_git_suffix s)) <= length (chars s).
Proof.
  unfold drop_git_suffix.
  destruct (endswith s ".git") eqn:E1.
  - rewrite chars_str, length_take. lia.
  - destruct (endswith s (str _)) eqn:E2; [|lia].
    apply endswith_app in E2 as [front E2]. rewrite chars_str in E2.
    rewrite chars_str, E2, !length_app, length_take, !length_app.
    cbn [length chars list_ascii_of_string]. lia.
Qed.

(** X24. Which owner and repository name a GitHub URL gives. The call
    fails exactly when the host is not github.com or www.github.com (letter
    case ignored) or the path has fewer than two non-empty segments between
    slashes. Otherwise the owner is the first non-empty segment and the name
    is the second one without one final [.git]; further segments and any
    number of extra slashes change nothing, the owner is not empty, neither
    part contains a slash, and the name is empty exactly when the second
    segment is [.git]. *)
Theorem parse_github_repo_spec (repo_url : string) :
  let parsed := urlparse repo_url in
  let segments :=
    List.filter nonempty (split_on slash (chars (url_path parsed))) in
  let github :=
    mem (lower (url_netloc parsed)) ["github.com"; "www.github.com"] in
  match _parse_github_repo urlparse repo_url with
  | Py.Raise' (RepoFetchError_ message) =>
      (github = false /\
       message = "Only GitHub repositories are supported right now") \/
      (github = true /\ length segments < 2 /\
       message = "Unable to determine owner/repo from URL")
  | Py.Ok' (owner, name) =>
      github = true /\
      (exists second rest,
          segments = chars owner :: second :: rest /\
          name = drop_git_suffix (str second) /\
          (name = "" <-> str second = ".git") /\
          length (chars name) <= length second) /\
      owner <> "" /\
      contains owner "/" = false /\
      contains name "/" = false
  end.
Proof.
  intros parsed segments github. unfold _parse_github_repo.
  fold parsed. fold github. rewrite segments_strip. fold segments.
  destruct github; cbn [negb]; [|by left].
  destruct (length segments <? 2)%nat eqn:El.
  { apply Nat.ltb_lt in El. right. done. }
  apply Nat.ltb_ge in El.
  destruct segments as [|first [|second rest]] eqn:Es;
    [simpl in El; lia | simpl in El; lia |].
  cbn [nth].
  assert (Hin : forall seg, seg ∈ segments ->
                            seg <> [] /\ slash ∉ seg).
  { intros seg Hseg. subst segments.
    apply list_elem_of_In, List.filter_In in Hseg as [Hseg Hne].
    apply list_elem_of_In in Hseg. split.
    - by destruct seg.
    - by apply (split_on_no_sep slash (chars (url_path parsed))). }
  rewrite Es in Hin.
  destruct (Hin first) as [Hf1 Hf2]; [by left|].
  destruct (Hin second) as [Hs1 Hs2]; [by right; left|].
  split; [done|]. split_and!.
  - exists second, rest. rewrite chars_str. split_and!; [done | done | |].
    + split.
      * intros Hname. unfold drop_git_suffix in Hname.
        destruct (endswith (str second) ".git") eqn:E1.
        -- apply endswith_app in E1 as [front E1].
           rewrite chars_str in E1, Hname.
           apply (f_equal chars) in Hname. rewrite chars_str in Hname.
           rewrite E1 in Hname. rewrite length_app in Hname.
           cbn [length chars list_ascii_of_string] in Hname.
           replace (length front + 4 - 4) with (length front) in Hname
             by lia.
           rewrite take_app_length in Hname. cbn in Hname. subst front.
           rewrite E1. done.
        -- destruct (endswith (str second) (str _)) eqn:E2.
           ++ apply (f_equal chars) in Hname. rewrite chars_str in Hname.
              by destruct (take _ _).
           ++ by destruct second.
      * intros ->. reflexivity.
    + pose proof (drop_git_suffix_length (str second)) as Hlen.
      by rewrite chars_str in Hlen.
  - intros E. apply (f_equal chars) in E. by rewrite chars_str in E.
  - apply contains_char. by rewrite chars_str.
  - apply contains_char. intros [H|H]%drop_git_suffix_chars.
    + by rewrite chars_str in H.
    + discriminate.
Qed.

End GitHubUrlFacts.
